(** * Metadata cache of the emissions add-in: staleness, population, lookups

    A shallow embedding of the TypeScript modules [metadata-utils],
    [client], [area-loader], [api-types-loader], [area-handler],
    [types-handler] and [units-handler], of [postLogin] and [logout] of
    the task pane and of the factor helpers [factorSearchHelper] and
    [factorHelper], followed by the properties the specification states
    about them and by further properties of the sources.

    Conventions of the embedding:
    - a JavaScript string is a [string] of code units; code units 0..255
      are treated as JavaScript treats them;
    - a JavaScript number is an integer in [Z] or [NaN] (timestamps are
      millisecond counts, far below 2^53, where doubles are exact);
    - asynchronous code is run sequentially: an [async] function is a
      computation over the [World] that either returns or throws, and the
      effects done before a throw are kept;
    - the host workbook is a store of named grids of cells; a batch of
      host operations fails only when a named item does not exist or a
      value is refused, and then as a whole;
    - the table look-ups [API_AREA_MAPPING[k]], [API_COLUMN_MAP[k]] and
      [API_CLASS_MAP[k]] are taken on the keys of the tables, as they are
      for every name [validateApiName] lets through;
    - the requests of the factor helpers and the date conversion of
      [utils] are parameters of their definitions: the properties hold
      for every behaviour of the service and of the conversion. *)

From Stdlib Require Import ZArith List String Ascii Bool Lia DecimalString
  DecimalPos.
Import ListNotations.
Local Open Scope string_scope.
Local Open Scope bool_scope.
Set Warnings "-register-all".

(* ================================================================== *)
(** ** JavaScript values and built-ins used by the sources *)
(* ================================================================== *)

Module JS.

(** Numbers: integers, or NaN (the result of a failed [parseInt]). *)
Inductive number : Type :=
  | NaN
  | Int (z : Z).

(** [a - b] *)
Definition sub (a b : number) : number :=
  match a, b with
  | Int x, Int y => Int (x - y)
  | _, _ => NaN
  end.

(** [a > b]: every comparison with NaN is false. *)
Definition gt (a b : number) : bool :=
  match a, b with
  | Int x, Int y => (y <? x)%Z
  | _, _ => false
  end.

(** Dynamically typed values ([any]): what the SDK may resolve with and
    what a custom function may receive as an argument. *)
Inductive value : Type :=
  | VUndefined
  | VNull
  | VBool (b : bool)
  | VNum (n : number)
  | VStr (s : string)
  | VArr (items : list value)
  | VObj (fields : list (string * value)).

(** White space and line terminators among the code units 0..255:
    TAB, LF, VT, FF, CR, SPACE and NBSP. *)
Definition isWhiteSpace (c : ascii) : bool :=
  let n := nat_of_ascii c in
  ((9 <=? n) && (n <=? 13))%nat || (n =? 32)%nat || (n =? 160)%nat.

Definition lowerChar (c : ascii) : ascii :=
  let n := nat_of_ascii c in
  if (((65 <=? n) && (n <=? 90))
      || ((192 <=? n) && (n <=? 222) && negb (n =? 215)))%nat
  then ascii_of_nat (n + 32) else c.

(** [s.toLowerCase()] *)
Fixpoint toLowerCase (s : string) : string :=
  match s with
  | EmptyString => EmptyString
  | String c r => String (lowerChar c) (toLowerCase r)
  end.

(** [s.toUpperCase()].  The sharp s becomes "SS"; the micro sign and the
    y with diaeresis have their upper-case forms outside 0..255 and are
    left as they are. *)
Fixpoint toUpperCase (s : string) : string :=
  match s with
  | EmptyString => EmptyString
  | String c r =>
      let n := nat_of_ascii c in
      if (((97 <=? n) && (n <=? 122))
          || ((224 <=? n) && (n <=? 254) && negb (n =? 247)))%nat
      then String (ascii_of_nat (n - 32)) (toUpperCase r)
      else if (n =? 223)%nat then String "S" (String "S" (toUpperCase r))
      else String c (toUpperCase r)
  end.

Fixpoint trimStart (s : string) : string :=
  match s with
  | EmptyString => EmptyString
  | String c r => if isWhiteSpace c then trimStart r else s
  end.

Fixpoint trimEnd (s : string) : string :=
  match s with
  | EmptyString => EmptyString
  | String c r =>
      match trimEnd r with
      | EmptyString => if isWhiteSpace c then EmptyString else String c EmptyString
      | r' => String c r'
      end
  end.

(** [s.trim()] *)
Definition trim (s : string) : string := trimEnd (trimStart s).

(** [arr.join(sep)] on an array of strings. *)
Fixpoint join (sep : string) (l : list string) : string :=
  match l with
  | [] => ""
  | [x] => x
  | x :: r => x ++ sep ++ join sep r
  end.

(** [arr.includes(x)] on an array of strings. *)
Definition includes (l : list string) (x : string) : bool :=
  existsb (String.eqb x) l.

(** [s.split(sep)] for a one-character separator. *)
Fixpoint split (sep : ascii) (s : string) : list string :=
  match s with
  | EmptyString => [""]
  | String c r =>
      if Ascii.eqb c sep then "" :: split sep r
      else match split sep r with
           | [] => [String c ""]
           | h :: t => String c h :: t
           end
  end.

(** [s.startsWith(p)] *)
Fixpoint startsWith (s p : string) : bool :=
  match p, s with
  | EmptyString, _ => true
  | String a p', String b s' => Ascii.eqb a b && startsWith s' p'
  | String _ _, EmptyString => false
  end.

(** [hay.includes(needle)] on strings. *)
Fixpoint stringIncludes (hay needle : string) : bool :=
  startsWith hay needle
  || match hay with
     | EmptyString => false
     | String _ r => stringIncludes r needle
     end.

(** [s.includes(c)] for a one-character needle. *)
Fixpoint hasChar (c : ascii) (s : string) : bool :=
  match s with
  | EmptyString => false
  | String d r => Ascii.eqb d c || hasChar c r
  end.

(** Value of a digit in the given radix, if it is one. *)
Definition digitValue (radix : Z) (c : ascii) : option Z :=
  let n := Z.of_nat (nat_of_ascii c) in
  let d := if ((48 <=? n) && (n <=? 57))%Z then Some (n - 48)%Z
           else if ((97 <=? n) && (n <=? 122))%Z then Some (n - 87)%Z
           else if ((65 <=? n) && (n <=? 90))%Z then Some (n - 55)%Z
           else None in
  match d with
  | Some v => if (v <? radix)%Z then Some v else None
  | None => None
  end.

(** Longest prefix of digits, accumulated; [None] when there is none. *)
Fixpoint digits (radix : Z) (s : string) (acc : option Z) : option Z :=
  match s with
  | EmptyString => acc
  | String c r =>
      match digitValue radix c with
      | Some v =>
          digits radix r
            (Some (match acc with Some a => a * radix + v | None => v end)%Z)
      | None => acc
      end
  end.

(** [parseInt(s)] with no radix argument: leading white space, a sign,
    a [0x] prefix selecting radix 16, then the longest run of digits. *)
Definition parseIntString (s : string) : number :=
  let s1 := trimStart s in
  let '(neg, s2) :=
    match s1 with
    | String "-" r => (true, r)
    | String "+" r => (false, r)
    | _ => (false, s1)
    end in
  let '(radix, s3) :=
    match s2 with
    | String "0" (String "x" r) => (16%Z, r)
    | String "0" (String "X" r) => (16%Z, r)
    | _ => (10%Z, s2)
    end in
  match digits radix s3 None with
  | Some v => Int (if neg then - v else v)
  | None => NaN
  end.

(** [String(z)] for an integer of the embedding: its decimal digits, as
    JavaScript prints every integer below [1e21] in absolute value (from
    there on it prints an exponent form, [1e+21]). *)
Definition stringOfZ (z : Z) : string :=
  NilZero.string_of_int (Z.to_int z).

Definition stringOfNumber (n : number) : string :=
  match n with
  | NaN => "NaN"
  | Int z => stringOfZ z
  end.

(** Truthiness, as used by [!x], [x || y] and [if (x)]. *)
Definition truthy (v : value) : bool :=
  match v with
  | VUndefined | VNull => false
  | VBool b => b
  | VNum NaN => false
  | VNum (Int z) => negb (z =? 0)%Z
  | VStr s => negb (s =? "")
  | VArr _ | VObj _ => true
  end.

Definition isNullish (v : value) : bool :=
  match v with
  | VUndefined | VNull => true
  | _ => false
  end.

Fixpoint lookupField (k : string) (fields : list (string * value)) : value :=
  match fields with
  | [] => VUndefined
  | (k', v) :: r => if k' =? k then v else lookupField k r
  end.

(** [v?.k] for one of the data property names read by the sources
    ([types], [locations], [units], [alpha3], ...): absent on everything
    but an object carrying it. *)
Definition optProp (v : value) (k : string) : value :=
  match v with
  | VObj fields => lookupField k fields
  | _ => VUndefined
  end.

Definition isArray (v : value) : bool :=
  match v with
  | VArr _ => true
  | _ => false
  end.

(** [v.length] of a value that is not null or undefined.  An object
    has the length its [length] field gives when that is a number. *)
Definition lengthOf (v : value) : number :=
  match v with
  | VArr items => Int (Z.of_nat (List.length items))
  | VStr s => Int (Z.of_nat (String.length s))
  | VObj fields =>
      match lookupField "length" fields with
      | VNum n => n
      | _ => NaN
      end
  | _ => NaN
  end.

(** [Math.max(a, b)] *)
Definition mathMax (a b : number) : number :=
  match a, b with
  | Int x, Int y => Int (Z.max x y)
  | _, _ => NaN
  end.

(** The elements of an array. *)
Definition itemsOf (v : value) : list value :=
  match v with
  | VArr items => items
  | _ => []
  end.

(** [String(v)]; inside [join], null and undefined elements print as the
    empty string. *)
Fixpoint toString (v : value) : string :=
  match v with
  | VUndefined => "undefined"
  | VNull => "null"
  | VBool true => "true"
  | VBool false => "false"
  | VNum n => stringOfNumber n
  | VStr s => s
  | VArr items =>
      join "," (map (fun x => if isNullish x then "" else toString x) items)
  | VObj _ => "[object Object]"
  end.

(** [items.join(sep)] on an array of values. *)
Definition joinValues (sep : string) (items : list value) : string :=
  join sep (map (fun x => if isNullish x then "" else toString x) items).

(** [v ?? d] *)
Definition coalesce (v d : value) : value :=
  if isNullish v then d else v.

(** [v || d] *)
Definition orElse (v d : value) : value :=
  if truthy v then v else d.

End JS.

(* ================================================================== *)
(** ** The host workbook, the remote service and the world *)
(* ================================================================== *)

Module Excel.

(** A cell value as [Range.values] reports it; an empty cell reads [""]. *)
Inductive cell : Type :=
  | CStr (s : string)
  | CNum (z : Z)
  | CBool (b : bool).

Definition blank : cell := CStr "".

Definition isBlank (c : cell) : bool :=
  match c with
  | CStr s => s =? ""
  | _ => false
  end.

(** [c.toString()] *)
Definition cellToString (c : cell) : string :=
  match c with
  | CStr s => s
  | CNum z => JS.stringOfZ z
  | CBool true => "true"
  | CBool false => "false"
  end.

Definition valueOf (c : cell) : JS.value :=
  match c with
  | CStr s => JS.VStr s
  | CNum z => JS.VNum (JS.Int z)
  | CBool b => JS.VBool b
  end.

(** What the host stores for a value assigned through [range.values]:
    primitives as they are, [null] and [undefined] leave the cell empty,
    anything else is refused. *)
Definition cellOfValue (v : JS.value) : option cell :=
  match v with
  | JS.VStr s => Some (CStr s)
  | JS.VNum (JS.Int z) => Some (CNum z)
  | JS.VBool b => Some (CBool b)
  | JS.VUndefined | JS.VNull => Some blank
  | JS.VNum JS.NaN | JS.VArr _ | JS.VObj _ => None
  end.

(** Rows from row 0, each row from column 0; cells past the end of a row
    and rows past the end of the grid are empty. *)
Definition Grid : Type := list (list cell).

Definition cellAt (g : Grid) (r c : nat) : cell := nth c (nth r g []) blank.

(** Values of [getRangeByIndexes(top, left, height, width)]. *)
Definition rangeValues (g : Grid) (top left height width : nat) : Grid :=
  map (fun r => map (fun c => cellAt g r c) (seq left width)) (seq top height).

(** Number of cells of a row up to its last non-empty one. *)
Fixpoint usedWidth (row : list cell) : nat :=
  match row with
  | [] => 0
  | c :: r =>
      match usedWidth r with
      | 0 => if isBlank c then 0 else 1
      | S w => S (S w)
      end
  end.

(** Number of leading empty cells of a row. *)
Fixpoint leadingBlanks (row : list cell) : nat :=
  match row with
  | [] => 0
  | c :: r => if isBlank c then S (leadingBlanks r) else 0
  end.

Definition rowUsed (row : list cell) : bool := negb (usedWidth row =? 0)%nat.

Fixpoint usedHeight (g : Grid) : nat :=
  match g with
  | [] => 0
  | row :: r =>
      match usedHeight r with
      | 0 => if rowUsed row then 1 else 0
      | S h => S (S h)
      end
  end.

Fixpoint leadingUnused (g : Grid) : nat :=
  match g with
  | [] => 0
  | row :: r => if rowUsed row then 0 else S (leadingUnused r)
  end.

(** Values of [worksheet.getUsedRange()]: the smallest rectangle holding
    every non-empty cell; the top-left cell when the sheet is empty.
    Cell formats are not modelled: the sources format only cells that
    also hold a value. *)
Definition usedRangeValues (g : Grid) : Grid :=
  let bottom := usedHeight g in
  if (bottom =? 0)%nat then [[blank]]
  else
    let top := leadingUnused g in
    let used := filter rowUsed g in
    let right := fold_right (fun row m => Nat.max (usedWidth row) m) 0 used in
    let left := fold_right (fun row m => Nat.min (leadingBlanks row) m) right used in
    rangeValues g top left (bottom - top) (right - left).

(** Overlay [vals] on a row from column [c] on. *)
Fixpoint overlay (c : nat) (vals row : list cell) : list cell :=
  match c with
  | 0 => (vals ++ skipn (List.length vals) row)%list
  | S c' => hd blank row :: overlay c' vals (tl row)
  end.

Fixpoint overlayRows (left : nat) (block g : Grid) : Grid :=
  match block with
  | [] => g
  | b :: bs => overlay left b (hd [] g) :: overlayRows left bs (tl g)
  end.

(** [getRangeByIndexes(top, left, ..).values = block] *)
Fixpoint writeBlock (top left : nat) (block g : Grid) : Grid :=
  match top with
  | 0 => overlayRows left block g
  | S t => hd [] g :: writeBlock t left block (tl g)
  end.

Record Worksheet : Type := mkWorksheet {
  name : string;
  hidden : bool;
  cells : Grid
}.

(** A list data-validation rule with its error alert. *)
Record Validation : Type := mkValidation {
  source : string;
  inCellDropDown : bool;
  alertTitle : string;
  alertMessage : string
}.

(** [sheets.items.find((s) => s.name === n)] *)
Definition findSheet (n : string) (sheets : list Worksheet) : option Worksheet :=
  find (fun s => name s =? n) sheets.

(** [sheet.delete()] on the sheet found under the name [n]. *)
Fixpoint removeSheet (n : string) (sheets : list Worksheet) : list Worksheet :=
  match sheets with
  | [] => []
  | s :: r => if name s =? n then r else s :: removeSheet n r
  end.

(** Replace the cells of the sheet found under the name [n]. *)
Fixpoint setCells (n : string) (g : Grid) (sheets : list Worksheet)
  : list Worksheet :=
  match sheets with
  | [] => []
  | s :: r =>
      if name s =? n then mkWorksheet (name s) (hidden s) g :: r
      else s :: setCells n g r
  end.

Definition column (g : Grid) (c : nat) : list cell :=
  map (fun row => nth c row blank) g.

(** [rowCount] of [sheet.getRange("X:X").getUsedRange()] for the column
    of index [c]; the host throws when the column holds nothing. *)
Definition columnUsedRowCount (g : Grid) (c : nat) : option nat :=
  let col := column g c in
  match usedWidth col with
  | 0 => None
  | S h => Some (S h - leadingBlanks col)
  end.

(** What the host makes of a block assigned to [range.values]. *)
Definition toCells (rows : list (list JS.value)) : option Grid :=
  let conv (row : list JS.value) : option (list cell) :=
    fold_right (fun v acc =>
                  match cellOfValue v, acc with
                  | Some c, Some cs => Some (c :: cs)
                  | _, _ => None
                  end) (Some []) row in
  fold_right (fun row acc =>
                match conv row, acc with
                | Some r, Some rs => Some (r :: rs)
                | _, _ => None
                end) (Some []) rows.

(** The message the host gives when a named item does not exist. *)
Definition itemNotFound : string := "The requested resource doesn't exist.".

(** The message the host gives when it refuses an argument. *)
Definition invalidArgument : string :=
  "The argument is invalid or missing or has an incorrect format.".

End Excel.

(** Errors a custom function reports to the cell. *)
Inductive ErrorCode : Type :=
  | invalidValue
  | notAvailable.

(** What a [throw] carries: a [CustomFunctions.Error], or any other
    error object (Error, TypeError, a host error) with its message. *)
Inductive exn : Type :=
  | CustomFunctionsError (code : ErrorCode) (message : string)
  | Error (message : string).

(** How a promise of the SDK settles. *)
Inductive Outcome : Type :=
  | Rejected (message : string)
  | Resolved (response : JS.value).

(** Observable steps: calls to the remote service, accesses to the
    worksheets of the workbook, and entries into a population routine. *)
Inductive Event : Type :=
  | RemoteGetClient
  | RemoteGetTypes (api : string)
  | RemoteGetArea (api : string)
  | RemoteGetUnits (api type : string)
  | SheetsListed
  | SheetRead (sheet : string)
  | SheetWritten (sheet : string)
  | SheetAdded (sheet : string)
  | SheetDeleted (sheet : string)
  | Populate (sheet : string)
  | TaskpaneShown.

Record World : Type := mkWorld {
  worksheets : list Excel.Worksheet;
  activeSheet : string;
  (** validation rules, by sheet name and cell reference *)
  validations : list (string * string * Excel.Validation);
  (** [Client["instance"]] is set *)
  clientInstance : bool;
  (** credentials are in memory or in storage *)
  credentials : bool;
  (** [Client.getClient]: [None] resolves, [Some m] rejects with [m] *)
  getClient : option string;
  (** [Date.now()] *)
  now : Z;
  getTypes : string -> Outcome;
  getArea : string -> Outcome;
  getUnits : string -> string -> Outcome;
  (** [JSON.parse]: [None] is a SyntaxError *)
  jsonParse : string -> option JS.value;
  trace : list Event
}.

Definition setWorksheets (ws : list Excel.Worksheet) (w : World) : World :=
  mkWorld ws (activeSheet w) (validations w) (clientInstance w)
          (credentials w) (getClient w) (now w) (getTypes w) (getArea w)
          (getUnits w) (jsonParse w) (trace w).

Definition setValidations (vs : list (string * string * Excel.Validation))
  (w : World) : World :=
  mkWorld (worksheets w) (activeSheet w) vs (clientInstance w)
          (credentials w) (getClient w) (now w) (getTypes w) (getArea w)
          (getUnits w) (jsonParse w) (trace w).

Definition setClientInstance (b : bool) (w : World) : World :=
  mkWorld (worksheets w) (activeSheet w) (validations w) b
          (credentials w) (getClient w) (now w) (getTypes w) (getArea w)
          (getUnits w) (jsonParse w) (trace w).

Definition addEvent (e : Event) (w : World) : World :=
  mkWorld (worksheets w) (activeSheet w) (validations w) (clientInstance w)
          (credentials w) (getClient w) (now w) (getTypes w) (getArea w)
          (getUnits w) (jsonParse w) (trace w ++ [e])%list.

(** *** Computations: state passing with exceptions *)

Inductive completion (A : Type) : Type :=
  | Throw (e : exn)
  | Return (a : A).
Arguments Throw {A} e.
Arguments Return {A} a.

Definition M (A : Type) : Type := World -> completion A * World.

Definition ret {A} (a : A) : M A := fun w => (Return a, w).

Definition throw {A} (e : exn) : M A := fun w => (Throw e, w).

Definition bind {A B} (c : M A) (k : A -> M B) : M B :=
  fun w =>
    match c w with
    | (Return a, w') => k a w'
    | (Throw e, w') => (Throw e, w')
    end.

(** [try { c } catch (e) { h e }] *)
Definition tryCatch {A} (c : M A) (h : exn -> M A) : M A :=
  fun w =>
    match c w with
    | (Return a, w') => (Return a, w')
    | (Throw e, w') => h e w'
    end.

Definition emit (e : Event) : M unit := fun w => (Return tt, addEvent e w).

Definition ask {A} (f : World -> A) : M A := fun w => (Return (f w), w).

Definition modify (f : World -> World) : M unit := fun w => (Return tt, f w).

(** A pure computation that returns or throws. *)
Definition lift {A} (r : completion A) : M A := fun w => (r, w).

Declare Scope comp_scope.
Delimit Scope comp_scope with comp.
Notation "x <- c ;; k" := (bind c (fun x => k))
  (at level 61, c at next level, right associativity) : comp_scope.
Notation "c ;; k" := (bind c (fun _ => k))
  (at level 61, right associativity) : comp_scope.
Local Open Scope comp_scope.

(** [Promise.all(configs.map(f))], the requests taken in order. *)
Fixpoint forEachM {A B} (f : A -> M B) (l : list A) : M (list B) :=
  match l with
  | [] => ret []
  | x :: r =>
      y <- f x ;;
      ys <- forEachM f r ;;
      ret (y :: ys)
  end.

(** [map.set(k, v)] on an insertion-ordered [Map]. *)
Fixpoint mapSet {A} (k : string) (v : A) (m : list (string * A))
  : list (string * A) :=
  match m with
  | [] => [(k, v)]
  | (k', v') :: r => if k' =? k then (k', v) :: r else (k', v') :: mapSet k v r
  end.

(** [map.get(k)] *)
Fixpoint mapGet {A} (k : string) (m : list (string * A)) : option A :=
  match m with
  | [] => None
  | (k', v) :: r => if k' =? k then Some v else mapGet k r
  end.

(** Results in order, stopping at the first that throws. *)
Fixpoint collect {A B} (f : A -> completion B) (l : list A)
  : completion (list B) :=
  match l with
  | [] => Return []
  | x :: r =>
      match f x with
      | Throw e => Throw e
      | Return y =>
          match collect f r with
          | Throw e => Throw e
          | Return ys => Return (y :: ys)
          end
      end
  end.

(** [e.message] *)
Definition messageOf (e : exn) : string :=
  match e with
  | CustomFunctionsError _ m => m
  | Error m => m
  end.

(** [m || "Unknown error"] *)
Definition orUnknown (m : string) : string :=
  if m =? "" then "Unknown error" else m.

(** [!p || typeof p !== "string" || p.trim() === ""] *)
Definition missingParameter (p : JS.value) : bool :=
  negb (JS.truthy p)
  || match p with
     | JS.VStr s => JS.trim s =? ""
     | _ => true
     end.

(** The string a checked parameter holds. *)
Definition stringOf (p : JS.value) : string :=
  match p with
  | JS.VStr s => s
  | _ => JS.toString p
  end.

(** [sheets.add(name)], hidden, with [cells] written in the same batch. *)
Definition addHiddenSheet (sheetName : string) (cells : Excel.Grid) : M unit :=
  ws <- ask worksheets ;;
  match Excel.findSheet sheetName ws with
  | Some _ => throw (Error Excel.invalidArgument)
  | None =>
      emit (SheetAdded sheetName) ;;
      emit (SheetWritten sheetName) ;;
      modify (setWorksheets
                (ws ++ [Excel.mkWorksheet sheetName true cells])%list)
  end.

(* ================================================================== *)
(** ** client.ts *)
(* ================================================================== *)

Module Client.

(** [ensureClient()], called without credentials.  The credential store
    and the SDK's [Client.getClient] are outside the sources: the world
    says whether credentials are available and how [getClient] settles. *)
Definition ensureClient : M unit :=
  inst <- ask clientInstance ;;
  if inst then ret tt
  else
    creds <- ask credentials ;;
    if creds then
      emit RemoteGetClient ;;
      r <- ask getClient ;;
      match r with
      | None => modify (setClientInstance true)
      | Some m => throw (Error m)
      end
    else
      emit TaskpaneShown ;;
      throw (CustomFunctionsError notAvailable
               "Enter your credentials in the task pane.").

(** [resetClient] *)
Definition resetClient : M unit := modify (setClientInstance false).

End Client.

(* ================================================================== *)
(** ** metadata-utils.ts *)
(* ================================================================== *)

Module MetadataUtils.

Definition VALID_API_NAMES : list string :=
  [ "location"; "mobile"; "fugitive"; "stationary"; "calculation";
    "transportationanddistribution"; "factor" ].

(** Names of [API_TYPES_CONFIGS], in column order A to F. *)
Definition API_TYPES_CONFIGS : list string :=
  [ "Location"; "Mobile"; "Fugitive"; "Stationary"; "Calculation";
    "TransportationAndDistribution" ].

(** Names of [API_AREA_CONFIGS]: the two representative APIs. *)
Definition API_AREA_CONFIGS : list string := [ "calculation"; "mobile" ].

Definition API_AREA_MAPPING : list (string * string) :=
  [ ("calculation", "calculation");
    ("location", "calculation");
    ("factor", "calculation");
    ("mobile", "mobile");
    ("stationary", "mobile");
    ("fugitive", "mobile");
    ("transportationanddistribution", "mobile") ].

Definition REFRESH_INTERVAL_MS : Z := 2 * 24 * 60 * 60 * 1000.
Definition REFRESH_INTERVAL_DAYS : Z := 2.

Record SheetMetadata : Type := mkSheetMetadata { timestamp : JS.number }.

(** [record[key]] on a constant table. *)
Fixpoint lookup {A} (key : string) (table : list (string * A)) : option A :=
  match table with
  | [] => None
  | (k, v) :: r => if k =? key then Some v else lookup key r
  end.

(** [v === "METADATA"] *)
Definition isMetadataMarker (v : Excel.cell) : bool :=
  match v with
  | Excel.CStr s => s =? "METADATA"
  | _ => false
  end.

(** [getSheetMetadata]: the first two cells of row 0; [null] when the
    first is not "METADATA" or when the sheet cannot be read. *)
Definition getSheetMetadata (sheetName : string) : M (option SheetMetadata) :=
  emit (SheetRead sheetName) ;;
  ws <- ask worksheets ;;
  match Excel.findSheet sheetName ws with
  | None => ret None
  | Some sheet =>
      let v0 := Excel.cellAt (Excel.cells sheet) 0 0 in
      let v1 := Excel.cellAt (Excel.cells sheet) 0 1 in
      if negb (isMetadataMarker v0) then ret None
      else ret (Some (mkSheetMetadata
                        (JS.parseIntString (Excel.cellToString v1))))
  end.

(** [setSheetMetadata] *)
Definition setSheetMetadata (sheetName : string) (metadata : SheetMetadata)
  : M unit :=
  ws <- ask worksheets ;;
  match Excel.findSheet sheetName ws with
  | None => throw (Error Excel.itemNotFound)
  | Some sheet =>
      emit (SheetWritten sheetName) ;;
      modify (setWorksheets
        (Excel.setCells sheetName
           (Excel.writeBlock 0 0
              [[Excel.CStr "METADATA";
                Excel.CStr (JS.stringOfNumber (timestamp metadata))]]
              (Excel.cells sheet))
           ws))
  end.

(** [isSheetDataStale] *)
Definition isSheetDataStale (sheetName : string) : M bool :=
  tryCatch
    (metadata <- getSheetMetadata sheetName ;;
     match metadata with
     | None => ret true
     | Some m =>
         t <- ask now ;;
         let age := JS.sub (JS.Int t) (timestamp m) in
         ret (JS.gt age (JS.Int REFRESH_INTERVAL_MS))
     end)
    (fun _ => ret true).

(** [deleteSheetIfExists] *)
Definition deleteSheetIfExists (sheetName : string) : M unit :=
  tryCatch
    (emit SheetsListed ;;
     ws <- ask worksheets ;;
     match Excel.findSheet sheetName ws with
     | Some _ =>
         emit (SheetDeleted sheetName) ;;
         modify (setWorksheets (Excel.removeSheet sheetName ws))
     | None => ret tt
     end)
    (fun _ => ret tt).

(** [sheetExists] *)
Definition sheetExists (sheetName : string) : M bool :=
  tryCatch
    (emit SheetsListed ;;
     ws <- ask worksheets ;;
     match Excel.findSheet sheetName ws with
     | Some _ => ret true
     | None => ret false
     end)
    (fun _ => ret false).

(** [refreshSheetIfStale] *)
Definition refreshSheetIfStale (sheetName : string) (recreateFunction : M unit)
  : M bool :=
  exists_ <- sheetExists sheetName ;;
  if negb exists_ then ret false
  else
    isStale <- isSheetDataStale sheetName ;;
    if isStale then
      deleteSheetIfExists sheetName ;;
      recreateFunction ;;
      ret true
    else ret false.

(** [refreshSheetOnLogin] *)
Definition refreshSheetOnLogin (sheetName : string) (recreateFunction : M unit)
  : M bool :=
  exists_ <- sheetExists sheetName ;;
  if negb exists_ then ret false
  else
    deleteSheetIfExists sheetName ;;
    recreateFunction ;;
    ret true.

Definition invalidApiNameMessage : string :=
  "Invalid API name. Valid options: " ++ JS.join ", " VALID_API_NAMES.

(** [validateApiName] *)
Definition validateApiName (apiName : string) : completion string :=
  let normalizedApiName := JS.trim (JS.toLowerCase apiName) in
  if negb (JS.includes VALID_API_NAMES normalizedApiName) then
    Throw (CustomFunctionsError invalidValue invalidApiNameMessage)
  else Return normalizedApiName.

(** A range proxy: the sheet it lies on and its reference. *)
Record Range : Type := mkRange { rangeSheet : string; rangeRef : string }.

(** [getTargetCell]: "Sheet!A1" names its sheet, a bare "A1" lies on the
    active sheet. *)
Definition getTargetCell (cellAddress : string) : M Range :=
  let '(sheetName, cellRef) :=
    if JS.hasChar "!" cellAddress then
      match JS.split "!" cellAddress with
      | a :: b :: _ => (a, b)
      | _ => ("", cellAddress)
      end
    else ("", cellAddress) in
  if negb (sheetName =? "") then ret (mkRange sheetName cellRef)
  else
    active <- ask activeSheet ;;
    ret (mkRange active cellRef).

Definition sameCell (sheet ref : string)
  (entry : string * string * Excel.Validation) : bool :=
  let '(s, r, _) := entry in (s =? sheet) && (r =? ref).

(** [applyListValidation] followed by the [context.sync()] that commits
    it: the rule on the cell is cleared and replaced; the host throws
    when the sheet of the range does not exist. *)
Definition applyListValidation (targetCell : Range) (values : list JS.value)
  (title message : string) : M unit :=
  ws <- ask worksheets ;;
  match Excel.findSheet (rangeSheet targetCell) ws with
  | None => throw (Error Excel.itemNotFound)
  | Some _ =>
      let valuesList := JS.joinValues "," values in
      modify (fun w =>
        setValidations
          ((rangeSheet targetCell, rangeRef targetCell,
            Excel.mkValidation valuesList true title message)
           :: filter (fun e => negb (sameCell (rangeSheet targetCell)
                                              (rangeRef targetCell) e))
                     (validations w))
          w)
  end.

(** [handleCustomFunctionError]: the error it throws. *)
Definition handleCustomFunctionError (error : exn) (defaultMessage : string)
  : exn :=
  match error with
  | CustomFunctionsError _ _ => error
  | Error m =>
      CustomFunctionsError notAvailable
        (defaultMessage ++ ": " ++ orUnknown m)
  end.

End MetadataUtils.

(* ================================================================== *)
(** ** area-loader.ts *)
(* ================================================================== *)

Module AreaLoader.
Import MetadataUtils.

Definition AREA_DATA_SHEET_NAME : string := "API_Area_Data".

(** [AREA_COLUMN_MAP] *)
Definition apiNameColumn : nat := 0.
Definition alpha3Column : nat := 1.
Definition countryNameColumn : nat := 2.
Definition stateProvinceColumn : nat := 3.
Definition powerGridColumn : nat := 4.

(** One request of [fetchAllAreaData]: the locations of one API, or the
    empty list when the call fails, the text is not JSON, or the
    response has no [locations] array. *)
Definition fetchAreaFor (config : string) : M (string * list JS.value) :=
  emit (RemoteGetArea config) ;;
  settle <- ask (fun w => getArea w config) ;;
  parse <- ask jsonParse ;;
  match settle with
  | Rejected _ => ret (config, [])
  | Resolved rawResponse =>
      let parsed :=
        match rawResponse with
        | JS.VStr text => parse text
        | _ => Some rawResponse
        end in
      match parsed with
      | None => ret (config, [])
      | Some response =>
          let locations := JS.optProp response "locations" in
          if negb (JS.truthy locations) || negb (JS.isArray locations)
          then ret (config, [])
          else ret (config, JS.itemsOf locations)
      end
  end.

(** [fetchAllAreaData] *)
Definition fetchAllAreaData : M (list (string * list JS.value)) :=
  results <- forEachM fetchAreaFor API_AREA_CONFIGS ;;
  ret (fold_left (fun m result => mapSet (fst result) (snd result) m)
                 results []).

(** [x?.join(", ") || ""] for an optional array property.  The texts of
    the TypeErrors here and below are abridged. *)
Definition joinedOrEmpty (x : JS.value) : completion string :=
  match x with
  | JS.VUndefined | JS.VNull => Return ""
  | JS.VArr items => Return (JS.joinValues ", " items)
  | _ => Throw (Error "join is not a function")
  end.

(** The row written for one location of [apiName]. *)
Definition areaRow (apiName : string) (location : JS.value)
  : completion (list JS.value) :=
  if JS.isNullish location then
    Throw (Error "Cannot read properties of null or undefined")
  else
    match joinedOrEmpty (JS.optProp location "stateProvinces") with
    | Throw e => Throw e
    | Return stateProvinces =>
        match joinedOrEmpty (JS.optProp location "powerGrids") with
        | Throw e => Throw e
        | Return powerGrids =>
            let countryName := JS.optProp location "countryName" in
            Return [ JS.VStr apiName;
                     JS.optProp location "alpha3";
                     (if JS.truthy countryName then countryName
                      else JS.VStr "");
                     JS.VStr stateProvinces;
                     JS.VStr powerGrids ]
        end
    end.

Definition areaHeader : list JS.value :=
  map JS.VStr
      [ "API Name"; "Alpha3"; "Country Name"; "State/Province"; "Power Grid" ].

(** The rows of the sheet below the metadata row: header, then one row
    per location of each API in map order. *)
Definition areaRows (areaDataMap : list (string * list JS.value))
  : completion (list (list JS.value)) :=
  match collect (fun entry => collect (areaRow (fst entry)) (snd entry))
                areaDataMap with
  | Throw e => Throw e
  | Return perApi => Return (areaHeader :: List.concat perApi)
  end.

(** [writeAreaDataToSheet]: an existing sheet is deleted first (its own
    batch); the rows are computed; the new hidden sheet and its rows are
    committed together; the metadata row is written last. *)
Definition writeAreaDataToSheet (areaDataMap : list (string * list JS.value))
  : M unit :=
  emit SheetsListed ;;
  ws <- ask worksheets ;;
  match Excel.findSheet AREA_DATA_SHEET_NAME ws with
  | Some _ =>
      emit (SheetDeleted AREA_DATA_SHEET_NAME) ;;
      modify (setWorksheets (Excel.removeSheet AREA_DATA_SHEET_NAME ws))
  | None => ret tt
  end ;;
  rows <- lift (areaRows areaDataMap) ;;
  match Excel.toCells rows with
  | None => throw (Error Excel.invalidArgument)
  | Some block =>
      addHiddenSheet AREA_DATA_SHEET_NAME (Excel.writeBlock 1 0 block []) ;;
      t <- ask now ;;
      setSheetMetadata AREA_DATA_SHEET_NAME (mkSheetMetadata (JS.Int t))
  end.

(** [loadAndPopulateAreaData] *)
Definition loadAndPopulateAreaData : M unit :=
  emit (Populate AREA_DATA_SHEET_NAME) ;;
  tryCatch
    (areaDataMap <- fetchAllAreaData ;;
     writeAreaDataToSheet areaDataMap)
    (fun error => throw error).

End AreaLoader.

(* ================================================================== *)
(** ** api-types-loader.ts *)
(* ================================================================== *)

Module ApiTypesLoader.
Import MetadataUtils.

Definition API_COLUMN_MAP : list (string * nat) :=
  [ ("location", 0); ("mobile", 1); ("fugitive", 2); ("stationary", 3);
    ("calculation", 4); ("transportationanddistribution", 5);
    ("factor", 4) ]%nat.

Definition API_TYPES_SHEET_NAME : string := "API_Types_Data".

(** One request of [fetchAllApiTypes]: [response?.types || []], or the
    empty array when the call fails. *)
Definition fetchTypesFor (config : string) : M (string * JS.value) :=
  emit (RemoteGetTypes config) ;;
  settle <- ask (fun w => getTypes w config) ;;
  match settle with
  | Rejected _ => ret (config, JS.VArr [])
  | Resolved response =>
      let types := JS.optProp response "types" in
      ret (config, if JS.truthy types then types else JS.VArr [])
  end.

(** [fetchAllApiTypes] *)
Definition fetchAllApiTypes : M (list (string * JS.value)) :=
  Client.ensureClient ;;
  results <- forEachM fetchTypesFor API_TYPES_CONFIGS ;;
  ret (fold_left (fun m result => mapSet (fst result) (snd result) m)
                 results []).

(** The largest [types.length] of the map; reading the length of null
    or undefined throws. *)
Fixpoint maxTypesOf (entries : list (string * JS.value)) (maxTypes : JS.number)
  : completion JS.number :=
  match entries with
  | [] => Return maxTypes
  | (_, types) :: r =>
      if JS.isNullish types then
        Throw (Error "Cannot read properties of null or undefined")
      else maxTypesOf r (JS.mathMax maxTypes (JS.lengthOf types))
  end.

(** [apiTypesMap.get(name) || []], which must then have [forEach]. *)
Definition typesColumn (apiTypesMap : list (string * JS.value))
  (config : string) : completion (list JS.value) :=
  let types :=
    match mapGet config apiTypesMap with
    | Some v => if JS.truthy v then v else JS.VArr []
    | None => JS.VArr []
    end in
  match types with
  | JS.VArr items => Return items
  | _ => Throw (Error "types.forEach is not a function")
  end.

(** [data.slice(1)]: the header row, then [maxTypes] rows holding the
    i-th type of each column, [null] where a column is shorter. *)
Definition typesBlock (apiTypesMap : list (string * JS.value))
  : completion (list (list JS.value)) :=
  match maxTypesOf apiTypesMap (JS.Int 0) with
  | Throw e => Throw e
  | Return JS.NaN => Throw (Error "Invalid array length")
  | Return (JS.Int maxTypes) =>
      match collect (typesColumn apiTypesMap) API_TYPES_CONFIGS with
      | Throw e => Throw e
      | Return columns =>
          Return (map JS.VStr API_TYPES_CONFIGS
                  :: map (fun i => map (fun col => nth i col JS.VNull) columns)
                         (seq 0 (Z.to_nat maxTypes)))
      end
  end.

(** [writeApiTypesToSheet]: the sheet is created when missing, cleared
    and rewritten from row 1 in one batch; the metadata row is written
    last.  Nothing of the batch is applied when the block cannot be
    built or is refused. *)
Definition writeApiTypesToSheet (apiTypesMap : list (string * JS.value))
  : M unit :=
  emit SheetsListed ;;
  ws <- ask worksheets ;;
  block <- lift (typesBlock apiTypesMap) ;;
  match Excel.toCells block with
  | None => throw (Error Excel.invalidArgument)
  | Some cells =>
      match Excel.findSheet API_TYPES_SHEET_NAME ws with
      | None =>
          addHiddenSheet API_TYPES_SHEET_NAME
            (Excel.writeBlock 1 0 cells [])
      | Some _ =>
          emit (SheetWritten API_TYPES_SHEET_NAME) ;;
          modify (setWorksheets
                    (Excel.setCells API_TYPES_SHEET_NAME
                       (Excel.writeBlock 1 0 cells []) ws))
      end ;;
      t <- ask now ;;
      setSheetMetadata API_TYPES_SHEET_NAME (mkSheetMetadata (JS.Int t))
  end.

(** [loadAndPopulateApiTypes] *)
Definition loadAndPopulateApiTypes : M unit :=
  emit (Populate API_TYPES_SHEET_NAME) ;;
  tryCatch
    (apiTypesMap <- fetchAllApiTypes ;;
     writeApiTypesToSheet apiTypesMap)
    (fun error => throw error).

End ApiTypesLoader.

(* ================================================================== *)
(** ** area-handler.ts *)
(* ================================================================== *)

Module AreaHandler.
Import MetadataUtils AreaLoader.

(** [areaDataSheetExists] *)
Definition areaDataSheetExists : M bool :=
  emit SheetsListed ;;
  ws <- ask worksheets ;;
  match Excel.findSheet AREA_DATA_SHEET_NAME ws with
  | Some _ => ret true
  | None => ret false
  end.

(** [ensureAreaDataSheet] *)
Definition ensureAreaDataSheet : M unit :=
  sheetExists <- areaDataSheetExists ;;
  if negb sheetExists then loadAndPopulateAreaData else ret tt.

(** [mapApiNameForAreaData]: [API_AREA_MAPPING[apiName] || apiName] *)
Definition mapApiNameForAreaData (apiName : string) : string :=
  match lookup apiName API_AREA_MAPPING with
  | Some g => if g =? "" then apiName else g
  | None => apiName
  end.

(** [row[i]?.toString()]: absent past the end of the row. *)
Definition cellString (row : list Excel.cell) (i : nat) : option string :=
  option_map Excel.cellToString (nth_error row i).

(** [a === b] for a possibly undefined [a]. *)
Definition strictEquals (a : option string) (b : string) : bool :=
  match a with
  | Some s => s =? b
  | None => false
  end.

(** Truthiness of a possibly undefined string. *)
Definition isTruthy (a : option string) : bool :=
  match a with
  | Some s => negb (s =? "")
  | None => false
  end.

(** The loop of [getAlpha3CodesForApi] over the rows after index 0. *)
Fixpoint alpha3Loop (queryApiName : string) (rows : Excel.Grid)
  : list string :=
  match rows with
  | [] => []
  | row :: rest =>
      let rowApiName := option_map JS.toLowerCase (cellString row apiNameColumn) in
      let alpha3 := cellString row alpha3Column in
      if strictEquals rowApiName queryApiName && isTruthy alpha3 then
        match alpha3 with
        | Some a => a :: alpha3Loop queryApiName rest
        | None => alpha3Loop queryApiName rest
        end
      else alpha3Loop queryApiName rest
  end.

(** The body of [getAlpha3CodesForApi] on the values of the used range. *)
Definition alpha3CodesIn (apiName : string) (values : Excel.Grid)
  : list string :=
  alpha3Loop (mapApiNameForAreaData apiName) (tl values).

(** [worksheets.getItem(AREA_DATA_SHEET_NAME).getUsedRange().values] *)
Definition areaSheetValues : M Excel.Grid :=
  emit (SheetRead AREA_DATA_SHEET_NAME) ;;
  ws <- ask worksheets ;;
  match Excel.findSheet AREA_DATA_SHEET_NAME ws with
  | None => throw (Error Excel.itemNotFound)
  | Some sheet => ret (Excel.usedRangeValues (Excel.cells sheet))
  end.

(** [getAlpha3CodesForApi] *)
Definition getAlpha3CodesForApi (apiName : string) : M (list string) :=
  values <- areaSheetValues ;;
  ret (alpha3CodesIn apiName values).

(** [dataString.split(",").map(trim).filter(item => item)] *)
Definition splitList (dataString : string) : list string :=
  filter (fun item => negb (item =? ""))
         (map JS.trim (JS.split "," dataString)).

(** The loop of [getAreaDataForCountry]: the first row of the API and
    country decides. *)
Fixpoint areaDataLoop (queryApiName alpha3 : string) (columnIndex : nat)
  (rows : Excel.Grid) : list string :=
  match rows with
  | [] => []
  | row :: rest =>
      let rowApiName := option_map JS.toLowerCase (cellString row apiNameColumn) in
      let rowAlpha3 := cellString row alpha3Column in
      if strictEquals rowApiName queryApiName && strictEquals rowAlpha3 alpha3 then
        let dataString :=
          match cellString row columnIndex with
          | Some d => d
          | None => ""
          end in
        if negb (dataString =? "") then splitList dataString else []
      else areaDataLoop queryApiName alpha3 columnIndex rest
  end.

Definition areaDataIn (apiName alpha3 : string) (columnIndex : nat)
  (values : Excel.Grid) : list string :=
  areaDataLoop (mapApiNameForAreaData apiName) alpha3 columnIndex (tl values).

(** [getAreaDataForCountry] *)
Definition getAreaDataForCountry (apiName alpha3 : string) (columnIndex : nat)
  : M (list string) :=
  values <- areaSheetValues ;;
  ret (areaDataIn apiName alpha3 columnIndex values).

(** The steps each of the three handlers takes once its parameters are
    checked: session, API name, refresh when stale, create when absent. *)
Definition prepareAreaData (apiName : string) : M string :=
  Client.ensureClient ;;
  normalizedApiName <- lift (validateApiName apiName) ;;
  refreshSheetIfStale AREA_DATA_SHEET_NAME loadAndPopulateAreaData ;;
  ensureAreaDataSheet ;;
  ret normalizedApiName.

(** [handleCountryFunction] *)
Definition handleCountryFunction (apiName address : string) : M string :=
  tryCatch
    (normalizedApiName <- prepareAreaData apiName ;;
     alpha3Codes <- getAlpha3CodesForApi normalizedApiName ;;
     if (List.length alpha3Codes =? 0)%nat then
       throw (Error ("No countries found for API: " ++ apiName))
     else
       targetCell <- getTargetCell address ;;
       applyListValidation targetCell (map JS.VStr alpha3Codes)
         "Invalid Country"
         "Please select a valid country code from the dropdown list" ;;
       ret "")
    (fun error =>
       throw (handleCustomFunctionError error
                "Failed to set up country validation")).

(** [handleStateProvinceFunction] *)
Definition handleStateProvinceFunction (apiName : string) (country : JS.value)
  (address : string) : M string :=
  tryCatch
    (if missingParameter country then
       throw (CustomFunctionsError invalidValue
                "Country parameter is required and must be a non-empty string")
     else
       normalizedApiName <- prepareAreaData apiName ;;
       stateProvinces <-
         getAreaDataForCountry normalizedApiName
           (JS.toUpperCase (JS.trim (stringOf country))) stateProvinceColumn ;;
       if (List.length stateProvinces =? 0)%nat then
         throw (CustomFunctionsError notAvailable
                  ("No stateProvince data available for " ++ stringOf country))
       else
         targetCell <- getTargetCell address ;;
         applyListValidation targetCell (map JS.VStr stateProvinces)
           "Invalid State/Province"
           "Please select a valid state/province from the dropdown list" ;;
         ret "")
    (fun error =>
       throw (handleCustomFunctionError error
                "Failed to set up state/province validation")).

(** [handlePowerGridFunction] *)
Definition handlePowerGridFunction (apiName : string) (country : JS.value)
  (address : string) : M string :=
  tryCatch
    (if missingParameter country then
       throw (CustomFunctionsError invalidValue
                "Country parameter is required and must be a non-empty string")
     else
       normalizedApiName <- prepareAreaData apiName ;;
       powerGrids <-
         getAreaDataForCountry normalizedApiName
           (JS.toUpperCase (JS.trim (stringOf country))) powerGridColumn ;;
       if (List.length powerGrids =? 0)%nat then
         throw (CustomFunctionsError notAvailable
                  ("No power grid data available for " ++ stringOf country))
       else
         targetCell <- getTargetCell address ;;
         applyListValidation targetCell (map JS.VStr powerGrids)
           "Invalid Power Grid"
           "Please select a valid power grid from the dropdown list" ;;
         ret "")
    (fun error =>
       throw (handleCustomFunctionError error
                "Failed to set up power grid validation")).

End AreaHandler.

(* ================================================================== *)
(** ** types-handler.ts *)
(* ================================================================== *)

Module TypesHandler.
Import MetadataUtils ApiTypesLoader.

(** [apiTypesSheetExists] *)
Definition apiTypesSheetExists : M bool :=
  emit SheetsListed ;;
  ws <- ask worksheets ;;
  match Excel.findSheet API_TYPES_SHEET_NAME ws with
  | Some _ => ret true
  | None => ret false
  end.

(** [ensureApiTypesSheet] *)
Definition ensureApiTypesSheet : M unit :=
  sheetExists <- apiTypesSheetExists ;;
  if negb sheetExists then loadAndPopulateApiTypes else ret tt.

(** The values [applyDataValidation] reads for a column: the cells of
    rows 2 to [rowCount] (in A1 numbering) of that column, where
    [rowCount] is the height of the column's used range, the empty ones
    dropped. *)
Definition columnOptions (apiName : string) (columnIndex : nat)
  (g : Excel.Grid) : completion (list JS.value) :=
  match Excel.columnUsedRowCount g columnIndex with
  | None => Throw (Error Excel.itemNotFound)
  | Some rowCount =>
      if (rowCount <=? 1)%nat then
        Throw (Error ("No types found for API: " ++ apiName))
      else
        let dataRange :=
          Excel.rangeValues g 1 columnIndex (rowCount - 1) 1 in
        Return (map Excel.valueOf
                  (filter (fun v => negb (Excel.isBlank v))
                          (List.concat dataRange)))
  end.

(** [applyDataValidation] *)
Definition applyDataValidation (cellAddress apiName : string) : M unit :=
  match lookup apiName API_COLUMN_MAP with
  | None => throw (Error ("Unknown API name: " ++ apiName))
  | Some columnIndex =>
      emit (SheetRead API_TYPES_SHEET_NAME) ;;
      ws <- ask worksheets ;;
      match Excel.findSheet API_TYPES_SHEET_NAME ws with
      | None => throw (Error Excel.itemNotFound)
      | Some apiTypesSheet =>
          values <- lift (columnOptions apiName columnIndex
                            (Excel.cells apiTypesSheet)) ;;
          targetCell <- getTargetCell cellAddress ;;
          applyListValidation targetCell values
            "Invalid Type"
            "Please select a valid type from the dropdown list"
      end
  end.

(** The first steps of [handleTypesFunction]: session, API name,
    refresh when stale, create when absent. *)
Definition prepareTypesData (apiName : string) : M string :=
  Client.ensureClient ;;
  normalizedApiName <- lift (validateApiName apiName) ;;
  refreshSheetIfStale API_TYPES_SHEET_NAME loadAndPopulateApiTypes ;;
  ensureApiTypesSheet ;;
  ret normalizedApiName.

(** [handleTypesFunction] *)
Definition handleTypesFunction (apiName address : string) : M string :=
  tryCatch
    (normalizedApiName <- prepareTypesData apiName ;;
     applyDataValidation address normalizedApiName ;;
     ret "")
    (fun error =>
       throw (handleCustomFunctionError error "Failed to set up validation")).

End TypesHandler.

(* ================================================================== *)
(** ** units-handler.ts *)
(* ================================================================== *)

Module UnitsHandler.
Import MetadataUtils.

(** The keys of [API_CLASS_MAP]: every API, [factor] with its own class. *)
Definition API_CLASS_MAP : list string :=
  [ "location"; "mobile"; "fugitive"; "stationary"; "calculation";
    "transportationanddistribution"; "factor" ].

(** [fetchUnits] *)
Definition fetchUnits (apiName type : string) : M (list JS.value) :=
  tryCatch
    (if negb (JS.includes API_CLASS_MAP apiName) then
       throw (Error ("Unknown API name: " ++ apiName))
     else
       emit (RemoteGetUnits apiName type) ;;
       settle <- ask (fun w => getUnits w apiName type) ;;
       match settle with
       | Rejected m => throw (Error m)
       | Resolved response =>
           let units := JS.optProp response "units" in
           if negb (JS.truthy units) || negb (JS.isArray units) then
             throw (Error ("Invalid response format from " ++ apiName ++ " API"))
           else if (List.length (JS.itemsOf units) =? 0)%nat then
             throw (Error ("No units found for type: " ++ type))
           else ret (JS.itemsOf units)
       end)
    (fun error =>
       throw (Error ("Failed to fetch units: " ++ orUnknown (messageOf error)))).

(** [applyUnitsValidation] *)
Definition applyUnitsValidation (cellAddress : string) (units : list JS.value)
  : M unit :=
  targetCell <- getTargetCell cellAddress ;;
  applyListValidation targetCell units
    "Invalid Unit"
    "Please select a valid unit from the dropdown list".

(** [handleUnitsFunction] *)
Definition handleUnitsFunction (apiName : string) (type : JS.value)
  (address : string) : M string :=
  tryCatch
    (if missingParameter type then
       throw (CustomFunctionsError invalidValue
                "Type parameter is required and must be a non-empty string")
     else
       Client.ensureClient ;;
       normalizedApiName <- lift (validateApiName apiName) ;;
       units <- fetchUnits normalizedApiName
                  (JS.trim (stringOf type)) ;;
       applyUnitsValidation address units ;;
       ret "")
    (fun error =>
       throw (handleCustomFunctionError error
                "Failed to set up units validation")).

End UnitsHandler.

(* ================================================================== *)
(** ** taskpane.ts *)
(* ================================================================== *)

Module Taskpane.
Import MetadataUtils.

Definition setCredentials (b : bool) (w : World) : World :=
  mkWorld (worksheets w) (activeSheet w) (validations w) (clientInstance w)
          b (getClient w) (now w) (getTypes w) (getArea w)
          (getUnits w) (jsonParse w) (trace w).

(** [postLogin]: both hidden sheets are recreated when they exist; an
    error is logged and dropped. *)
Definition postLogin : M unit :=
  tryCatch
    (refreshSheetOnLogin "API_Types_Data"
       ApiTypesLoader.loadAndPopulateApiTypes ;;
     refreshSheetOnLogin "API_Area_Data"
       AreaLoader.loadAndPopulateAreaData ;;
     ret tt)
    (fun _ => ret tt).

(** [logout], as far as the session goes: the credentials are dropped
    from memory and from storage and the client is reset.  The form
    fields and the page shown are not part of the world. *)
Definition logout : M unit :=
  modify (setCredentials false) ;;
  Client.resetClient.

End Taskpane.

(* ================================================================== *)
(** ** factorSearchHelper.ts *)
(* ================================================================== *)

Module FactorSearchHelper.

Section Remote.

(** [convertExcelDateToISO] of [utils.ts], which is outside the
    sources: any function that returns a date text or throws. *)
Variable convertExcelDateToISO : string -> completion string.

(** [Factor.search(apiParams)]: [inl e] rejects with the error [e],
    [inr response] resolves. *)
Variable search : JS.value -> JS.value + JS.value.

(** [date?.trim()], then the [time] entry when it is not empty. *)
Definition timeEntry (date : JS.value)
  : completion (list (string * JS.value)) :=
  match date with
  | JS.VUndefined | JS.VNull => Return []
  | JS.VStr d =>
      if negb (JS.trim d =? "") then
        match convertExcelDateToISO d with
        | Throw e => Throw e
        | Return formattedDate =>
            Return [("time", JS.VObj [("date", JS.VStr formattedDate)])]
        end
      else Return []
  | _ => Throw (Error "date.trim is not a function")
  end.

(** [buildFactorSearchParams] *)
Definition buildFactorSearchParams (search_ country : string)
  (stateProvince date page size : JS.value) : completion JS.value :=
  match timeEntry date with
  | Throw e => Throw e
  | Return time =>
      Return
        (JS.VObj
           ([ ("activity", JS.VObj [("search", JS.VStr search_)]);
              ("location",
               JS.VObj
                 (("country", JS.VStr country)
                  :: (if JS.truthy stateProvince
                      then [("stateProvince", stateProvince)]
                      else []))) ]
            ++ time
            ++ [ ("pagination",
                  JS.VObj [ ("page", JS.orElse page (JS.VNum (JS.Int 1)));
                            ("size", JS.orElse size (JS.VNum (JS.Int 30))) ])
               ])%list)
  end.

(** [Array.isArray(x) ? x.join(", ") : (x ?? "")] *)
Definition activityUnitOf (x : JS.value) : JS.value :=
  if JS.isArray x then JS.VStr (JS.joinValues ", " (JS.itemsOf x))
  else JS.coalesce x (JS.VStr "").

(** The row of one factor. *)
Definition formatFactor (factor : JS.value) : completion (list JS.value) :=
  if JS.isNullish factor then
    Throw (Error "Cannot read properties of null or undefined")
  else
    Return [ JS.coalesce (JS.optProp factor "factorSet") (JS.VStr "");
             JS.coalesce (JS.optProp factor "source") (JS.VStr "");
             JS.coalesce (JS.optProp factor "activityType") (JS.VStr "");
             activityUnitOf (JS.optProp factor "activityUnit");
             JS.coalesce (JS.optProp factor "region") (JS.VStr "");
             JS.coalesce (JS.optProp factor "factorId") (JS.VStr "") ].

(** [formatFactorSearchResponse], on the [factors] of the response. *)
Definition formatFactorSearchResponse (factors : list JS.value)
  : completion (list (list JS.value)) :=
  collect formatFactor factors.

(** The error thrown for a caught [e] that is not a
    [CustomFunctions.Error]: the message is
    [e?.response?.data?.message || e?.message || "Unknown error"] (a
    message that is not a string is shown as [String] shows it), the
    code is InvalidValue when [e?.status === 400]. *)
Definition searchError (e : JS.value) : exn :=
  let message :=
    JS.orElse
      (JS.optProp (JS.optProp (JS.optProp e "response") "data") "message")
      (JS.orElse (JS.optProp e "message") (JS.VStr "Unknown error")) in
  CustomFunctionsError
    (match JS.optProp e "status" with
     | JS.VNum (JS.Int 400) => invalidValue
     | _ => notAvailable
     end)
    (JS.toString message).

(** The [try] block of [factorSearch]: [inl e] when [Factor.search]
    rejects with [e]. *)
Definition searchAttempt (search_ country : string)
  (stateProvince date page size : JS.value)
  : M (JS.value + list (list JS.value)) :=
  Client.ensureClient ;;
  apiParams <-
    lift (buildFactorSearchParams search_ country stateProvince date
            page size) ;;
  match search apiParams with
  | inl e => ret (inl e)
  | inr response =>
      if negb (JS.truthy response)
         || negb (JS.isArray (JS.optProp response "factors"))
      then
        throw (CustomFunctionsError notAvailable
                 "Invalid API response structure: Missing 'factors' array")
      else
        rows <- lift (formatFactorSearchResponse
                        (JS.itemsOf (JS.optProp response "factors"))) ;;
        ret (inr rows)
  end.

(** [factorSearch] *)
Definition factorSearch (search_ country : string)
  (stateProvince date page size : JS.value) : M (list (list JS.value)) :=
  fun w =>
    match searchAttempt search_ country stateProvince date page size w with
    | (Return (inr rows), w') => (Return rows, w')
    | (Return (inl e), w') => (Throw (searchError e), w')
    | (Throw (CustomFunctionsError code message), w') =>
        (Throw (CustomFunctionsError code message), w')
    | (Throw (Error message), w') =>
        (Throw (searchError (JS.VObj [("message", JS.VStr message)])), w')
    end.

End Remote.

End FactorSearchHelper.

(* ================================================================== *)
(** ** factorHelper.ts *)
(* ================================================================== *)

Module FactorHelper.

Section Remote.

Variable convertExcelDateToISO : string -> completion string.

(** [Factor.retrieveFactor(apiParams)]: [inl e] rejects with the error
    [e], [inr response] resolves. *)
Variable retrieveFactor : JS.value -> JS.value + JS.value.

(** The parameters [factorHelper] sends. *)
Definition factorParams (typeOrId unit country stateProvince date : JS.value)
  : completion JS.value :=
  match typeOrId with
  | JS.VStr type =>
      match FactorSearchHelper.timeEntry convertExcelDateToISO date with
      | Throw e => Throw e
      | Return time =>
          Return
            (JS.VObj
               ([ ("activity",
                   JS.VObj [("unit", unit); ("type", JS.VStr type)]) ]
                ++ (if JS.truthy country then
                      [ ("location",
                         JS.VObj
                           (("country", country)
                            :: (if JS.truthy stateProvince
                                then [("stateProvince", stateProvince)]
                                else []))) ]
                    else [])
                ++ time)%list)
      end
  | _ =>
      Return
        (JS.VObj
           [ ("activity",
              JS.VObj [("unit", unit); ("factorId", typeOrId)]) ])
  end.

(** The text columns of the row, with [""] for a missing value. *)
Definition textOf (response : JS.value) (field : string) : JS.value :=
  JS.coalesce (JS.optProp response field) (JS.VStr "").

(** The emission columns of the row, with [0] for a missing value. *)
Definition amountOf (response : JS.value) (field : string) : JS.value :=
  JS.coalesce (JS.optProp response field) (JS.VNum (JS.Int 0)).

(** The single row [factorHelper] returns for a response. *)
Definition factorRow (response : JS.value) : list JS.value :=
  [ textOf response "factorSet";
    textOf response "source";
    textOf response "activityType";
    FactorSearchHelper.activityUnitOf (JS.optProp response "activityUnit");
    textOf response "name";
    textOf response "description";
    textOf response "effectiveFrom";
    textOf response "effectiveTo";
    textOf response "publishedFrom";
    textOf response "publishedTo";
    textOf response "region";
    amountOf response "totalCO2e";
    amountOf response "CO2";
    amountOf response "CH4";
    amountOf response "N2O";
    amountOf response "HFC";
    amountOf response "PFC";
    amountOf response "SF6";
    amountOf response "NF3";
    amountOf response "bioCO2";
    amountOf response "indirectCO2e";
    textOf response "unit";
    textOf response "factorId";
    textOf response "transactionId" ].

(** [factorHelper].  There is no [catch]: [inl e] is the promise
    rejecting with the error [e] of [Factor.retrieveFactor] as it is. *)
Definition factorHelper (typeOrId unit country stateProvince date : JS.value)
  : M (JS.value + list (list JS.value)) :=
  Client.ensureClient ;;
  apiParams <-
    lift (factorParams typeOrId unit country stateProvince date) ;;
  match retrieveFactor apiParams with
  | inl e => ret (inl e)
  | inr response =>
      if negb (JS.truthy response) then
        throw (CustomFunctionsError notAvailable "Invalid API response")
      else ret (inr [factorRow response])
  end.

(** [factor] of functions.ts *)
Definition factor (type unit country stateProvince date : JS.value)
  : M (JS.value + list (list JS.value)) :=
  factorHelper type unit country stateProvince date.

(** [factor_by_id] of functions.ts: country, state and date are left
    undefined. *)
Definition factor_by_id (factorId unit : JS.value)
  : M (JS.value + list (list JS.value)) :=
  factorHelper factorId unit JS.VUndefined JS.VUndefined JS.VUndefined.

End Remote.

End FactorHelper.

(* ================================================================== *)
(** ** Worlds used in the examples *)
(* ================================================================== *)

Module Examples.
Import Excel.

Definition noTypes : string -> Outcome :=
  fun _ => Resolved (JS.VObj [("types", JS.VArr [])]).

Definition noArea : string -> Outcome :=
  fun _ => Resolved (JS.VObj [("locations", JS.VArr [])]).

Definition noUnits : string -> string -> Outcome :=
  fun _ _ => Resolved (JS.VObj [("units", JS.VArr [])]).

(** A signed-in workbook with one visible sheet and the given hidden
    sheets, at time [t]. *)
Definition workbook (hiddenSheets : list Worksheet) (t : Z) : World :=
  mkWorld (mkWorksheet "Sheet1" false [] :: hiddenSheets) "Sheet1" []
          true true None t noTypes noArea noUnits (fun _ => None) [].

Definition areaHeaderRow : list cell :=
  [ CStr "API Name"; CStr "Alpha3"; CStr "Country Name";
    CStr "State/Province"; CStr "Power Grid" ].

(** The same workbook with no session and no credentials. *)
Definition signedOut (hiddenSheets : list Worksheet) (t : Z) : World :=
  mkWorld (mkWorksheet "Sheet1" false [] :: hiddenSheets) "Sheet1" []
          false false None t noTypes noArea noUnits (fun _ => None) [].

(** A remote service that knows two units for every type. *)
Definition twoUnits : string -> string -> Outcome :=
  fun _ _ => Resolved (JS.VObj [("units", JS.VArr [JS.VStr "kg"; JS.VStr "l"])]).

Definition withUnits (hiddenSheets : list Worksheet) (t : Z) : World :=
  mkWorld (mkWorksheet "Sheet1" false [] :: hiddenSheets) "Sheet1" []
          true true None t noTypes noArea twoUnits (fun _ => None) [].

Definition typesOf (names : list string) : Outcome :=
  Resolved (JS.VObj [("types", JS.VArr (map JS.VStr names))]).

(** Every category answers with two types, except Location, whose
    request is rejected. *)
Definition locationRejected : string -> Outcome :=
  fun api => if api =? "Location" then Rejected "503"
             else typesOf ["t1"; "t2"].

(** Every category answers with two types, except Location, whose
    response carries a string where the array is expected. *)
Definition locationMalformed : string -> Outcome :=
  fun api => if api =? "Location"
             then Resolved (JS.VObj [("types", JS.VStr "abc")])
             else typesOf ["t1"; "t2"].

Definition location (alpha3 countryName : string)
  (stateProvinces powerGrids : list string) : JS.value :=
  JS.VObj [ ("alpha3", JS.VStr alpha3);
            ("countryName", JS.VStr countryName);
            ("stateProvinces", JS.VArr (map JS.VStr stateProvinces));
            ("powerGrids", JS.VArr (map JS.VStr powerGrids)) ].

(** The calculation group answers with two countries; the request of
    the mobile group is rejected. *)
Definition mobileRejected : string -> Outcome :=
  fun api =>
    if api =? "mobile" then Rejected "503"
    else Resolved (JS.VObj [("locations", JS.VArr
           [ location "USA" "United States" ["California"; "Texas"] ["WECC"];
             location "CAN" "Canada" ["Ontario"] [] ])]).

Definition withRemote (types area : string -> Outcome)
  (hiddenSheets : list Worksheet) (t : Z) : World :=
  mkWorld (mkWorksheet "Sheet1" false [] :: hiddenSheets) "Sheet1" []
          true true None t types area noUnits (fun _ => None) [].

(** An area sheet written at time [1700000000000]. *)
Definition areaSheet (rows : Grid) : Worksheet :=
  mkWorksheet "API_Area_Data" true
    ([CStr "METADATA"; CStr "1700000000000"] :: areaHeaderRow :: rows).

(** The rows of the area-handler test. *)
Definition testRows : Grid :=
  [ [ CStr "calculation"; CStr "USA"; CStr "United States";
      CStr "California, Texas, New York"; CStr "WECC, ERCOT, NPCC" ];
    [ CStr "calculation"; CStr "CAN"; CStr "Canada";
      CStr "Ontario, Quebec, British Columbia"; CStr "" ];
    [ CStr "mobile"; CStr "USA"; CStr "United States";
      CStr "California, Texas"; CStr "WECC, ERCOT" ] ].

(** A types sheet written at time [1700000000000], with two types in
    every column, whose Fugitive header has since been cleared. *)
Definition clearedHeaderSheet : Worksheet :=
  mkWorksheet "API_Types_Data" true
    [ [ CStr "METADATA"; CStr "1700000000000" ];
      [ CStr "Location"; CStr "Mobile"; CStr ""; CStr "Stationary";
        CStr "Calculation"; CStr "TransportationAndDistribution" ];
      [ CStr "l1"; CStr "m1"; CStr "f1"; CStr "s1"; CStr "c1"; CStr "t1" ];
      [ CStr "l2"; CStr "m2"; CStr "f2"; CStr "s2"; CStr "c2"; CStr "t2" ] ].

(** A sheet whose timestamp cell holds no number. *)
Definition legacySheet : Worksheet :=
  mkWorksheet "API_Area_Data" true
    [ [CStr "METADATA"; CStr "abc"]; areaHeaderRow ].

(** Two locations of the mobile group with the same alpha-3 code. *)
Definition duplicatedRows : Grid :=
  [ [ CStr "mobile"; CStr "USA"; CStr "United States";
      CStr "California, Texas"; CStr "WECC, ERCOT" ];
    [ CStr "mobile"; CStr "USA"; CStr "United States of America";
      CStr "New York"; CStr "NPCC" ];
    [ CStr "mobile"; CStr "CAN"; CStr "Canada"; CStr "Ontario"; CStr "" ] ].

End Examples.

(* ================================================================== *)
(** ** Vocabulary of the properties *)
(* ================================================================== *)

(** The sheet [sheetName] exists and its first row starts with the
    marker and a cell that [parseInt] reads as [writtenAt]. *)
Definition carriesTimestamp (w : World) (sheetName : string) (writtenAt : Z)
  : Prop :=
  exists sheet,
    Excel.findSheet sheetName (worksheets w) = Some sheet
    /\ MetadataUtils.isMetadataMarker (Excel.cellAt (Excel.cells sheet) 0 0) = true
    /\ JS.parseIntString
         (Excel.cellToString (Excel.cellAt (Excel.cells sheet) 0 1))
       = JS.Int writtenAt.

(** The row is recorded under the group [queryApiName]. *)
Definition rowOfGroup (queryApiName : string) (row : list Excel.cell) : bool :=
  AreaHandler.strictEquals
    (option_map JS.toLowerCase
       (AreaHandler.cellString row AreaLoader.apiNameColumn))
    queryApiName.

(** Empty, white space only, or not a string. *)
Definition blankParameter (p : JS.value) : Prop :=
  match p with
  | JS.VStr s => JS.trim s = ""
  | _ => True
  end.

(** Entries into a population routine. *)
Definition isPopulate (e : Event) : bool :=
  match e with
  | Populate _ => true
  | _ => false
  end.

(** Number of times a population routine was entered. *)
Definition populations (w : World) : nat :=
  List.length (filter isPopulate (trace w)).

(** Accesses to the worksheets of the workbook, the hidden datasets
    among them, and entries into their population routines. *)
Definition isCacheAccess (e : Event) : bool :=
  match e with
  | SheetsListed | SheetRead _ | SheetWritten _ | SheetAdded _
  | SheetDeleted _ | Populate _ => true
  | _ => false
  end.

Definition cacheAccesses (w : World) : list Event :=
  filter isCacheAccess (trace w).

Definition isGetUnits (e : Event) : bool :=
  match e with
  | RemoteGetUnits _ _ => true
  | _ => false
  end.

(** The [getUnits] calls made so far, in order. *)
Definition unitsCalls (w : World) : list Event :=
  filter isGetUnits (trace w).

(** A computation leaves an observation of the world as it was. *)
Definition preserves {X A} (obs : World -> X) (c : M A) : Prop :=
  forall w, obs (snd (c w)) = obs w.

(** What follows the checks of [handleUnitsFunction]. *)
Definition unitsRequest (name type address : string) : M string :=
  tryCatch
    (units <- UnitsHandler.fetchUnits name type ;;
     UnitsHandler.applyUnitsValidation address units ;;
     ret "")
    (fun error =>
       throw (MetadataUtils.handleCustomFunctionError error
                "Failed to set up units validation")).

(** A computation enters a population routine at most [k] times. *)
Definition atMost {A} (k : nat) (c : M A) : Prop :=
  forall w, populations (snd (c w)) <= populations w + k.

(** Whenever the computation returns, [P] holds of the world it leaves. *)
Definition onReturn {A} (P : World -> Prop) (c : M A) : Prop :=
  forall w, match c w with
            | (Return _, w') => P w'
            | (Throw _, _) => True
            end.

Definition sheetPresent (sheetName : string) (w : World) : Prop :=
  Excel.findSheet sheetName (worksheets w) <> None.

(** The shape shared by [ensureAreaDataSheet] and [ensureApiTypesSheet]:
    look the sheet up, populate when it is absent. *)
Definition ensureSheet (sheetName : string) (populate : M unit) : M unit :=
  sheetExists <-
    (emit SheetsListed ;;
     ws <- ask worksheets ;;
     match Excel.findSheet sheetName ws with
     | Some _ => ret true
     | None => ret false
     end) ;;
  if negb sheetExists then populate else ret tt.

(** The handler result: the given error, and the validation rules of
    the workbook as they were in [w]. *)
Definition failsWith (r : completion string * World) (w : World)
  (code : ErrorCode) (message : string) : Prop :=
  fst r = Throw (CustomFunctionsError code message)
  /\ validations (snd r) = validations w.

(** The value of a run of decimal digits read after [acc]. *)
Fixpoint uintValue (d : Decimal.uint) (acc : Z) : Z :=
  match d with
  | Decimal.Nil => acc
  | Decimal.D0 l => uintValue l (acc * 10 + 0)
  | Decimal.D1 l => uintValue l (acc * 10 + 1)
  | Decimal.D2 l => uintValue l (acc * 10 + 2)
  | Decimal.D3 l => uintValue l (acc * 10 + 3)
  | Decimal.D4 l => uintValue l (acc * 10 + 4)
  | Decimal.D5 l => uintValue l (acc * 10 + 5)
  | Decimal.D6 l => uintValue l (acc * 10 + 6)
  | Decimal.D7 l => uintValue l (acc * 10 + 7)
  | Decimal.D8 l => uintValue l (acc * 10 + 8)
  | Decimal.D9 l => uintValue l (acc * 10 + 9)
  end%Z.

(** The numbers the embedding holds exactly: [NaN] and the integers of
    [Number.isSafeInteger], which a double represents without rounding
    and [String] prints digit by digit. *)
Definition isSafeNumber (t : JS.number) : Prop :=
  match t with
  | JS.NaN => True
  | JS.Int z => (- (2 ^ 53 - 1) <= z <= 2 ^ 53 - 1)%Z
  end.

(** The same world when the clock reads [t]. *)
Definition atTime (t : Z) (w : World) : World :=
  mkWorld (worksheets w) (activeSheet w) (validations w) (clientInstance w)
          (credentials w) (getClient w) t (getTypes w) (getArea w)
          (getUnits w) (jsonParse w) (trace w).

(** The worksheets other than [sheetName] are in [w'] what they were in
    [w]. *)
Definition untouchedOutside (sheetName : string) (w w' : World) : Prop :=
  forall other, other <> sheetName ->
    Excel.findSheet other (worksheets w')
    = Excel.findSheet other (worksheets w).

(** Every run of the computation takes the world to one that [R] relates
    to the world it started from. *)
Definition relates {A} (R : World -> World -> Prop) (c : M A) : Prop :=
  forall w, R w (snd (c w)).

(** An entry that survives [join(", ")] followed by the split of
    [getAreaDataForCountry]: not empty, without a comma, and without
    white space at either end. *)
Definition cleanItem (s : string) : bool :=
  negb (s =? "") && negb (JS.hasChar "," s) && (JS.trim s =? s).

(** The text read back from the cell that receives [location.alpha3]. *)
Definition alpha3Text (location : JS.value) : string :=
  match Excel.cellOfValue (JS.optProp location "alpha3") with
  | Some c => Excel.cellToString c
  | None => ""
  end.

(** The codes of a list of locations, in order, the empty ones left out. *)
Definition codesOf (locations : list JS.value) : list string :=
  filter (fun a => negb (a =? "")) (map alpha3Text locations).

(** The text of the cell that receives [location[k]?.join(", ") || ""]. *)
Definition listText (location : JS.value) (k : string) : string :=
  match JS.optProp location k with
  | JS.VArr items => JS.joinValues ", " items
  | _ => ""
  end.

(** The entries read back for the first location with the given code. *)
Definition entriesOf (locations : list JS.value) (alpha3 k : string)
  : list string :=
  match find (fun location => alpha3Text location =? alpha3) locations with
  | Some location => AreaHandler.splitList (listText location k)
  | None => []
  end.

(** The locations stored for the group an API reads from. *)
Definition locationsFor (apiName : string)
  (calculation mobile : list JS.value) : list JS.value :=
  if AreaHandler.mapApiNameForAreaData apiName =? "calculation"
  then calculation else mobile.

(** The locations [fetchAllAreaData] records for one API. *)
Definition fetchedLocations (w : World) (config : string) : list JS.value :=
  match fst (AreaLoader.fetchAreaFor config w) with
  | Return (_, locations) => locations
  | Throw _ => []
  end.

(** A computation that throws leaves the validation rules as they were. *)
Definition failsClean {A} (c : M A) : Prop :=
  forall w, match c w with
            | (Throw _, w') => validations w' = validations w
            | (Return _, _) => True
            end.

(** The validation rules attached to one cell. *)
Definition rulesAt (sheet ref : string) (w : World)
  : list (string * string * Excel.Validation) :=
  filter (MetadataUtils.sameCell sheet ref) (validations w).

(** What a lookup may end with: the empty string, or a
    [CustomFunctions.Error]. *)
Definition lookupOutcome (r : completion string) : Prop :=
  match r with
  | Return s => s = ""
  | Throw (CustomFunctionsError _ _) => True
  | Throw (Error _) => False
  end.

(** In [w'] the cell [targetCell] carries exactly one validation rule,
    and every other cell the rules it carried in [w]. *)
Definition attachedTo (targetCell : MetadataUtils.Range) (w w' : World)
  : Prop :=
  List.length (rulesAt (MetadataUtils.rangeSheet targetCell)
                 (MetadataUtils.rangeRef targetCell) w') = 1
  /\ forall sheet' ref',
       sheet' <> MetadataUtils.rangeSheet targetCell
       \/ ref' <> MetadataUtils.rangeRef targetCell ->
       rulesAt sheet' ref' w' = rulesAt sheet' ref' w.

(** Whenever the computation returns, it has attached one rule to the
    cell the address names. *)
Definition attaches {A} (address : string) (c : M A) : Prop :=
  forall w a w' targetCell,
    c w = (Return a, w') ->
    fst (MetadataUtils.getTargetCell address w) = Return targetCell ->
    attachedTo targetCell w w'.

(* ================================================================== *)
(** ** Properties *)
(* ================================================================== *)

(** *** Strings *)

Lemma includes_In (l : list string) (x : string) :
  JS.includes l x = true <-> In x l.
Proof.
  unfold JS.includes. rewrite existsb_exists. split.
  - intros [y [Hy Heq]]. apply String.eqb_eq in Heq. now subst.
  - intros H. exists x. split; [assumption | apply String.eqb_refl].
Qed.

Lemma startsWith_sound (p s : string) :
  JS.startsWith s p = true -> exists post, s = p ++ post.
Proof.
  revert s. induction p as [|a p IH]; intros s H.
  - exists s. reflexivity.
  - destruct s as [|b s]; simpl in H; [discriminate|].
    apply andb_true_iff in H. destruct H as [Hab Hrest].
    apply Ascii.eqb_eq in Hab. subst b.
    destruct (IH s Hrest) as [post Hpost].
    exists post. simpl. now rewrite <- Hpost.
Qed.

Lemma stringIncludes_sound (needle hay : string) :
  JS.stringIncludes hay needle = true ->
  exists pre post, hay = pre ++ needle ++ post.
Proof.
  induction hay as [|c hay IH]; intros H.
  - destruct needle; [|discriminate H].
    exists "", "". reflexivity.
  - cbn [JS.stringIncludes] in H.
    apply orb_true_iff in H. destruct H as [H|H].
    + destruct (startsWith_sound needle (String c hay) H) as [post Hpost].
      exists "", post. exact Hpost.
    + destruct (IH H) as [pre [post Hpp]].
      exists (String c pre), post. simpl. now rewrite <- Hpp.
Qed.

Example parseInt_decimal :
  JS.parseIntString "1700000000000" = JS.Int 1700000000000.
Proof. reflexivity. Qed.

Example parseInt_prefix : JS.parseIntString "  42abc" = JS.Int 42.
Proof. reflexivity. Qed.

Example parseInt_hex : JS.parseIntString "-0x1F" = JS.Int (-31).
Proof. reflexivity. Qed.

Example parseInt_no_digit :
  JS.parseIntString "abc" = JS.NaN /\ JS.parseIntString "" = JS.NaN.
Proof. split; reflexivity. Qed.

Example parseInt_of_number_cell :
  JS.parseIntString (Excel.cellToString (Excel.CNum 1700000000000))
  = JS.Int 1700000000000.
Proof. reflexivity. Qed.

Example trim_keeps_inner : JS.trim "  a b  " = "a b".
Proof. reflexivity. Qed.

Example split_keeps_empty : JS.split "," "a,b,,c" = ["a"; "b"; ""; "c"].
Proof. reflexivity. Qed.

Example join_nested :
  JS.joinValues ", "
    [JS.VStr "a"; JS.VNull; JS.VArr [JS.VNum (JS.Int 3); JS.VStr "b"]]
  = "a, , 3,b".
Proof. reflexivity. Qed.

Example used_range_of_area_sheet :
  Excel.usedRangeValues
    [ [Excel.CStr "METADATA"; Excel.CStr "17"];
      [Excel.CStr "h1"; Excel.CStr "h2"; Excel.CStr "h3"];
      [Excel.CStr ""; Excel.CStr "x"] ]
  = [ [Excel.CStr "METADATA"; Excel.CStr "17"; Excel.CStr ""];
      [Excel.CStr "h1"; Excel.CStr "h2"; Excel.CStr "h3"];
      [Excel.CStr ""; Excel.CStr "x"; Excel.CStr ""] ].
Proof. reflexivity. Qed.

Example used_range_without_metadata :
  Excel.usedRangeValues [ []; [Excel.CStr ""; Excel.CStr "x"]; [] ]
  = [ [Excel.CStr "x"] ].
Proof. reflexivity. Qed.

(** *** validateApiName *)

Section ValidateApiName.
Import MetadataUtils.

(** C6.  An input whose lower-cased, trimmed form is one of the seven
    API names is answered with that form; any other input throws an
    InvalidValue error whose message contains each of the seven names. *)
Theorem validateApiName_spec (apiName : string) :
  let normalized := JS.trim (JS.toLowerCase apiName) in
  (In normalized VALID_API_NAMES ->
   validateApiName apiName = Return normalized)
  /\ (~ In normalized VALID_API_NAMES ->
      exists message,
        validateApiName apiName
          = Throw (CustomFunctionsError invalidValue message)
        /\ forall valid, In valid VALID_API_NAMES ->
             exists pre post, message = pre ++ valid ++ post).
Proof.
  intros normalized. unfold validateApiName. fold normalized.
  destruct (JS.includes VALID_API_NAMES normalized) eqn:Hin.
  - apply includes_In in Hin. split; [reflexivity | contradiction].
  - split.
    + intros H. apply includes_In in H. congruence.
    + intros _. exists invalidApiNameMessage. split; [reflexivity|].
      intros valid Hvalid. apply stringIncludes_sound.
      simpl in Hvalid.
      repeat (destruct Hvalid as [<-|Hvalid]; [reflexivity|]).
      contradiction.
Qed.

Lemma validateApiName_spec_witness :
  validateApiName "  MoBiLe " = Return "mobile"
  /\ exists message,
       validateApiName "mobility"
         = Throw (CustomFunctionsError invalidValue message)
       /\ forall valid, In valid VALID_API_NAMES ->
            exists pre post, message = pre ++ valid ++ post.
Proof.
  split.
  - apply (proj1 (validateApiName_spec "  MoBiLe ")).
    simpl. tauto.
  - apply (proj2 (validateApiName_spec "mobility")).
    simpl. intros H.
    repeat (destruct H as [H|H]; [discriminate H|]). exact H.
Defined.

Example validateApiName_upper :
  validateApiName "TransportationAndDistribution"
  = Return "transportationanddistribution".
Proof. reflexivity. Qed.

Example validateApiName_inner_space :
  validateApiName "mo bile"
  = Throw (CustomFunctionsError invalidValue
             ("Invalid API name. Valid options: location, mobile, fugitive, "
              ++ "stationary, calculation, transportationanddistribution, "
              ++ "factor")).
Proof. reflexivity. Qed.

End ValidateApiName.

(** *** The staleness check *)

Section Staleness.
Import MetadataUtils.

Lemma getSheetMetadata_missing_sheet (w : World) (sheetName : string) :
  Excel.findSheet sheetName (worksheets w) = None ->
  fst (getSheetMetadata sheetName w) = Return None.
Proof.
  intros H. unfold getSheetMetadata, bind, emit, ask. simpl.
  now rewrite H.
Qed.

Lemma getSheetMetadata_no_marker (w : World) (sheetName : string)
  (sheet : Excel.Worksheet) :
  Excel.findSheet sheetName (worksheets w) = Some sheet ->
  isMetadataMarker (Excel.cellAt (Excel.cells sheet) 0 0) = false ->
  fst (getSheetMetadata sheetName w) = Return None.
Proof.
  intros H Hm. unfold getSheetMetadata, bind, emit, ask. simpl.
  now rewrite H, Hm.
Qed.

Lemma getSheetMetadata_marker (w : World) (sheetName : string)
  (sheet : Excel.Worksheet) :
  Excel.findSheet sheetName (worksheets w) = Some sheet ->
  isMetadataMarker (Excel.cellAt (Excel.cells sheet) 0 0) = true ->
  getSheetMetadata sheetName w
  = (Return (Some (mkSheetMetadata
       (JS.parseIntString
          (Excel.cellToString (Excel.cellAt (Excel.cells sheet) 0 1))))),
     addEvent (SheetRead sheetName) w).
Proof.
  intros H Hm. unfold getSheetMetadata, bind, emit, ask. simpl.
  now rewrite H, Hm.
Qed.

(** The part of C1 the code keeps: a sheet that cannot be read, or whose
    first cell is not the marker, is stale. *)
Lemma stale_without_marker (w : World) (sheetName : string) :
  (Excel.findSheet sheetName (worksheets w) = None
   \/ exists sheet,
        Excel.findSheet sheetName (worksheets w) = Some sheet
        /\ isMetadataMarker (Excel.cellAt (Excel.cells sheet) 0 0) = false) ->
  fst (isSheetDataStale sheetName w) = Return true.
Proof.
  intros H. unfold isSheetDataStale, tryCatch, bind.
  destruct H as [H | [sheet [H Hm]]].
  - pose proof (getSheetMetadata_missing_sheet w sheetName H) as E.
    destruct (getSheetMetadata sheetName w) as [r w']. simpl in E.
    subst r. reflexivity.
  - pose proof (getSheetMetadata_no_marker w sheetName sheet H Hm) as E.
    destruct (getSheetMetadata sheetName w) as [r w']. simpl in E.
    subst r. reflexivity.
Qed.

(** With the marker in place and a second cell that [parseInt] cannot
    read, the age is NaN and the check answers "not stale". *)
Lemma unparsed_timestamp_not_stale (w : World) (sheetName : string)
  (sheet : Excel.Worksheet) :
  Excel.findSheet sheetName (worksheets w) = Some sheet ->
  isMetadataMarker (Excel.cellAt (Excel.cells sheet) 0 0) = true ->
  JS.parseIntString
    (Excel.cellToString (Excel.cellAt (Excel.cells sheet) 0 1)) = JS.NaN ->
  fst (isSheetDataStale sheetName w) = Return false.
Proof.
  intros H Hm Hp. unfold isSheetDataStale, tryCatch, bind.
  rewrite (getSheetMetadata_marker w sheetName sheet H Hm), Hp.
  reflexivity.
Qed.

(** C1, at the input where the code departs from it: the area sheet
    exists, its first cell is "METADATA" and its second cell is "abc";
    the check answers [false]. *)
Theorem legacy_timestamp_judged_fresh :
  fst (isSheetDataStale "API_Area_Data"
         (Examples.workbook [Examples.legacySheet] 1700000000000))
  = Return false.
Proof. reflexivity. Qed.

(** C2.  For a sheet carrying the timestamp [writtenAt], the check
    answers [true] exactly when [now - writtenAt] exceeds
    [REFRESH_INTERVAL_MS], which is two days of milliseconds; at exactly
    that age the answer is [false]. *)
Theorem stale_iff_older_than_interval (w : World) (sheetName : string)
  (writtenAt : Z) :
  carriesTimestamp w sheetName writtenAt ->
  exists stale,
    fst (isSheetDataStale sheetName w) = Return stale
    /\ (stale = true <-> (now w - writtenAt > REFRESH_INTERVAL_MS)%Z)
    /\ ((now w - writtenAt = REFRESH_INTERVAL_MS)%Z -> stale = false)
    /\ REFRESH_INTERVAL_MS = 172800000%Z.
Proof.
  intros [sheet [H [Hm Hp]]].
  exists (REFRESH_INTERVAL_MS <? now w - writtenAt)%Z.
  split; [|split; [|split]].
  - unfold isSheetDataStale, tryCatch, bind.
    rewrite (getSheetMetadata_marker w sheetName sheet H Hm), Hp.
    reflexivity.
  - rewrite Z.ltb_lt. lia.
  - intros E. rewrite E. apply Z.ltb_irrefl.
  - reflexivity.
Qed.

Lemma stale_iff_older_than_interval_witness :
  exists stale,
    fst (isSheetDataStale "API_Area_Data"
           (Examples.workbook [Examples.areaSheet Examples.testRows]
              (1700000000000 + 172800000)))
    = Return stale
    /\ (stale = true
        <-> (1700000000000 + 172800000 - 1700000000000
             > REFRESH_INTERVAL_MS)%Z)
    /\ ((1700000000000 + 172800000 - 1700000000000
         = REFRESH_INTERVAL_MS)%Z -> stale = false)
    /\ REFRESH_INTERVAL_MS = 172800000%Z.
Proof.
  apply (stale_iff_older_than_interval
           (Examples.workbook [Examples.areaSheet Examples.testRows]
              (1700000000000 + 172800000))
           "API_Area_Data" 1700000000000).
  exists (Examples.areaSheet Examples.testRows).
  repeat split; reflexivity.
Defined.

(** At exactly two days the sheet is kept; one millisecond later it is
    refreshed. *)
Example two_days_old_not_stale :
  fst (isSheetDataStale "API_Area_Data"
         (Examples.workbook [Examples.areaSheet Examples.testRows]
            (1700000000000 + 172800000)))
  = Return false.
Proof. reflexivity. Qed.

Example older_than_two_days_stale :
  fst (isSheetDataStale "API_Area_Data"
         (Examples.workbook [Examples.areaSheet Examples.testRows]
            (1700000000000 + 172800001)))
  = Return true.
Proof. reflexivity. Qed.

(** An empty timestamp cell is read as NaN like any other text. *)
Example empty_timestamp_not_stale :
  fst (isSheetDataStale "API_Area_Data"
         (Examples.workbook
            [Excel.mkWorksheet "API_Area_Data" true
               [[Excel.CStr "METADATA"]; Examples.areaHeaderRow]]
            1700000000000))
  = Return false.
Proof. reflexivity. Qed.

Example missing_sheet_stale :
  fst (isSheetDataStale "API_Area_Data" (Examples.workbook [] 1700000000000))
  = Return true.
Proof. reflexivity. Qed.

End Staleness.

(** *** Reading the area sheet *)

Section AreaLookups.
Import MetadataUtils AreaLoader AreaHandler.

(** The loop keeps one entry per row of the group with a non-empty
    alpha-3 cell, in row order. *)
Lemma alpha3Loop_per_row (queryApiName : string) (rows : Excel.Grid) :
  alpha3Loop queryApiName rows
  = flat_map (fun row =>
                if rowOfGroup queryApiName row
                   && isTruthy (cellString row alpha3Column)
                then match cellString row alpha3Column with
                     | Some a => [a]
                     | None => []
                     end
                else [])
             rows.
Proof.
  induction rows as [|row rest IH]; [reflexivity|].
  cbn [alpha3Loop flat_map]. unfold rowOfGroup. rewrite IH.
  destruct (strictEquals _ queryApiName && isTruthy (cellString row alpha3Column));
    [|reflexivity].
  destruct (cellString row alpha3Column); reflexivity.
Qed.

(** The part of C3 the code keeps: the codes returned are exactly the
    non-empty alpha-3 cells of the rows of the group, after row 0. *)
Lemma alpha3CodesIn_member (apiName : string) (values : Excel.Grid)
  (a : string) :
  In a (alpha3CodesIn apiName values)
  <-> exists row,
        In row (tl values)
        /\ rowOfGroup (mapApiNameForAreaData apiName) row = true
        /\ cellString row alpha3Column = Some a
        /\ a <> "".
Proof.
  unfold alpha3CodesIn. rewrite alpha3Loop_per_row, in_flat_map.
  split.
  - intros [row [Hrow Hin]]. exists row.
    destruct (rowOfGroup _ row) eqn:Hg; [|destruct Hin].
    destruct (cellString row alpha3Column) as [b|] eqn:Hc;
      simpl in Hin; [|destruct Hin].
    destruct (b =? "") eqn:Hb; simpl in Hin; [destruct Hin|].
    destruct Hin as [<-|[]].
    apply String.eqb_neq in Hb. auto.
  - intros [row [Hrow [Hg [Hc Hne]]]]. exists row. split; [assumption|].
    rewrite Hg, Hc. simpl.
    apply String.eqb_neq in Hne. rewrite Hne. simpl. auto.
Qed.

(** C3, at the input where the code departs from it: two rows of the
    mobile group carry "USA"; the lookup returns "USA" twice. *)
Theorem duplicate_alpha3_kept :
  fst (getAlpha3CodesForApi "mobile"
         (Examples.workbook [Examples.areaSheet Examples.duplicatedRows]
            1700000000000))
  = Return ["USA"; "USA"; "CAN"]
  /\ ~ NoDup ["USA"; "USA"; "CAN"].
Proof.
  split; [reflexivity|].
  intros H. inversion H as [|x l Hnotin _]; subst.
  apply Hnotin. left. reflexivity.
Qed.

(** C7.  "factor" and "calculation" have the same column of the types
    sheet and the same representative group of the area sheet; the
    country, state/province and power-grid reads and the types read
    give the same result and leave the same world for both names. *)
Theorem factor_aliases_calculation :
  lookup "factor" ApiTypesLoader.API_COLUMN_MAP
    = lookup "calculation" ApiTypesLoader.API_COLUMN_MAP
  /\ lookup "factor" API_AREA_MAPPING = lookup "calculation" API_AREA_MAPPING
  /\ mapApiNameForAreaData "factor" = mapApiNameForAreaData "calculation"
  /\ (forall w, getAlpha3CodesForApi "factor" w
                = getAlpha3CodesForApi "calculation" w)
  /\ (forall alpha3 columnIndex w,
        getAreaDataForCountry "factor" alpha3 columnIndex w
        = getAreaDataForCountry "calculation" alpha3 columnIndex w)
  /\ (forall columnIndex g options,
        TypesHandler.columnOptions "factor" columnIndex g = Return options
        <-> TypesHandler.columnOptions "calculation" columnIndex g
            = Return options)
  /\ (forall address w,
        snd (TypesHandler.applyDataValidation address "factor" w)
        = snd (TypesHandler.applyDataValidation address "calculation" w)).
Proof.
  split; [reflexivity|]. split; [reflexivity|]. split; [reflexivity|].
  split; [reflexivity|]. split; [reflexivity|]. split.
  - intros columnIndex g options. unfold TypesHandler.columnOptions.
    destruct (Excel.columnUsedRowCount g columnIndex) as [n|];
      [|split; discriminate].
    destruct (n <=? 1)%nat; [split; discriminate | tauto].
  - intros address w. unfold TypesHandler.applyDataValidation.
    change (lookup "factor" ApiTypesLoader.API_COLUMN_MAP) with (Some 4%nat).
    change (lookup "calculation" ApiTypesLoader.API_COLUMN_MAP)
      with (Some 4%nat).
    unfold bind, emit, ask, lift. cbn [fst snd].
    destruct (Excel.findSheet _ _) as [sheet|]; [|reflexivity].
    unfold TypesHandler.columnOptions.
    destruct (Excel.columnUsedRowCount (Excel.cells sheet) 4) as [n|];
      [|reflexivity].
    destruct (n <=? 1)%nat; reflexivity.
Qed.

(** The lookups of the area-handler test. *)
Example country_codes_of_mobile_group :
  alpha3CodesIn "stationary"
    (Excel.usedRangeValues
       (Excel.cells (Examples.areaSheet Examples.testRows)))
  = ["USA"].
Proof. reflexivity. Qed.

Example state_provinces_of_usa :
  areaDataIn "calculation" "USA" stateProvinceColumn
    (Excel.usedRangeValues
       (Excel.cells (Examples.areaSheet Examples.testRows)))
  = ["California"; "Texas"; "New York"].
Proof. reflexivity. Qed.

Example power_grids_of_canada :
  areaDataIn "calculation" "CAN" powerGridColumn
    (Excel.usedRangeValues
       (Excel.cells (Examples.areaSheet Examples.testRows)))
  = [].
Proof. reflexivity. Qed.

(** The whole COUNTRY lookup attaches the same rule for both names. *)
Example factor_and_calculation_attach_the_same_rule :
  validations
    (snd (handleCountryFunction "factor" "Sheet1!A1"
            (Examples.workbook [Examples.areaSheet Examples.testRows]
               1700000000000)))
  = validations
      (snd (handleCountryFunction "calculation" "Sheet1!A1"
              (Examples.workbook [Examples.areaSheet Examples.testRows]
                 1700000000000)))
  /\ map (fun entry => Excel.source (snd entry))
         (validations
            (snd (handleCountryFunction "factor" "Sheet1!A1"
                    (Examples.workbook [Examples.areaSheet Examples.testRows]
                       1700000000000))))
     = ["USA,CAN"].
Proof. split; reflexivity. Qed.

End AreaLookups.

(** *** Frame rules for computations *)

Lemma filter_trace_addEvent (f : Event -> bool) (e : Event) (w : World) :
  f e = false -> filter f (trace (addEvent e w)) = filter f (trace w).
Proof.
  intros H. cbn [trace addEvent]. rewrite filter_app. cbn [filter].
  rewrite H. apply app_nil_r.
Qed.

Section Frame.
Context {X : Type} (obs : World -> X).

Lemma preserves_ret {A} (a : A) : preserves obs (ret a).
Proof. intros w. reflexivity. Qed.

Lemma preserves_throw {A} (e : exn) : preserves obs (@throw A e).
Proof. intros w. reflexivity. Qed.

Lemma preserves_ask {A} (f : World -> A) : preserves obs (ask f).
Proof. intros w. reflexivity. Qed.

Lemma preserves_lift {A} (r : completion A) : preserves obs (lift r).
Proof. intros w. reflexivity. Qed.

Lemma preserves_bind {A B} (c : M A) (k : A -> M B) :
  preserves obs c -> (forall a, preserves obs (k a)) ->
  preserves obs (bind c k).
Proof.
  intros Hc Hk w. unfold bind. specialize (Hc w).
  destruct (c w) as [[e|a] w1]; simpl in *.
  - exact Hc.
  - rewrite (Hk a w1). exact Hc.
Qed.

Lemma preserves_tryCatch {A} (c : M A) (h : exn -> M A) :
  preserves obs c -> (forall e, preserves obs (h e)) ->
  preserves obs (tryCatch c h).
Proof.
  intros Hc Hh w. unfold tryCatch. specialize (Hc w).
  destruct (c w) as [[e|a] w1]; simpl in *.
  - rewrite (Hh e w1). exact Hc.
  - exact Hc.
Qed.

Lemma preserves_forEachM {A B} (f : A -> M B) (l : list A) :
  (forall x, preserves obs (f x)) -> preserves obs (forEachM f l).
Proof.
  intros Hf. induction l as [|x l IH]; cbn [forEachM].
  - apply preserves_ret.
  - apply preserves_bind; [apply Hf|]. intros y.
    apply preserves_bind; [apply IH|]. intros ys. apply preserves_ret.
Qed.

Lemma preserves_emit (e : Event) :
  (forall w, obs (addEvent e w) = obs w) -> preserves obs (emit e).
Proof. intros H w. apply H. Qed.

Lemma preserves_modify (f : World -> World) :
  (forall w, obs (f w) = obs w) -> preserves obs (modify f).
Proof. intros H w. apply H. Qed.

End Frame.

(** An observation of the world is untouched by a state change. *)
Ltac untouched :=
  intros;
  first
    [ reflexivity
    | unfold populations, cacheAccesses, unitsCalls;
      rewrite filter_trace_addEvent by reflexivity; reflexivity ].

(** Walk through a computation, rule by rule. *)
Ltac frame :=
  repeat first
    [ apply preserves_ret
    | apply preserves_throw
    | apply preserves_ask
    | apply preserves_lift
    | apply preserves_emit; solve [untouched]
    | apply preserves_modify; solve [untouched]
    | apply preserves_bind; [|intros ?]
    | apply preserves_tryCatch; [|intros ?]
    | apply preserves_forEachM; intros ?
    | match goal with
      | |- preserves _ (match ?x with _ => _ end) => destruct x
      | |- preserves _ (let _ := _ in _) => cbv zeta
      end ].

(** *** Parameter checks come first *)

Section ParameterChecks.
Import MetadataUtils AreaHandler UnitsHandler.

Lemma missingParameter_blank (p : JS.value) :
  missingParameter p = true <-> blankParameter p.
Proof.
  unfold missingParameter, blankParameter.
  destruct p as [| |b|n|s|items|fields]; simpl;
    try (rewrite ?orb_true_r; tauto).
  - rewrite orb_true_iff, String.eqb_eq. split; [|auto].
    intros [H|H]; [|exact H].
    apply negb_true_iff, negb_false_iff, String.eqb_eq in H.
    subst s. reflexivity.
Qed.

(** C10.  When the country of STATE_PROVINCE or POWER_GRID, or the type
    of UNITS, is empty, white space only or not a string, the handler
    throws InvalidValue and the world is as it was: no session check,
    no remote call, no access to a worksheet.  This holds in every
    world, signed in or not. *)
Theorem blank_parameter_rejected_first (apiName : string) (p : JS.value)
  (address : string) (w : World) :
  blankParameter p ->
  handleStateProvinceFunction apiName p address w
    = (Throw (CustomFunctionsError invalidValue
                "Country parameter is required and must be a non-empty string"),
       w)
  /\ handlePowerGridFunction apiName p address w
    = (Throw (CustomFunctionsError invalidValue
                "Country parameter is required and must be a non-empty string"),
       w)
  /\ handleUnitsFunction apiName p address w
    = (Throw (CustomFunctionsError invalidValue
                "Type parameter is required and must be a non-empty string"),
       w).
Proof.
  intros H. apply missingParameter_blank in H.
  unfold handleStateProvinceFunction, handlePowerGridFunction,
    handleUnitsFunction, tryCatch.
  rewrite H. repeat split; reflexivity.
Qed.

Lemma blank_parameter_rejected_first_witness :
  handleStateProvinceFunction "mobile" (JS.VStr "   ") "Sheet1!A1"
      (Examples.signedOut [] 1700000000000)
    = (Throw (CustomFunctionsError invalidValue
                "Country parameter is required and must be a non-empty string"),
       Examples.signedOut [] 1700000000000)
  /\ handlePowerGridFunction "mobile" (JS.VStr "   ") "Sheet1!A1"
      (Examples.signedOut [] 1700000000000)
    = (Throw (CustomFunctionsError invalidValue
                "Country parameter is required and must be a non-empty string"),
       Examples.signedOut [] 1700000000000)
  /\ handleUnitsFunction "mobile" (JS.VStr "   ") "Sheet1!A1"
      (Examples.signedOut [] 1700000000000)
    = (Throw (CustomFunctionsError invalidValue
                "Type parameter is required and must be a non-empty string"),
       Examples.signedOut [] 1700000000000).
Proof.
  apply (blank_parameter_rejected_first "mobile" (JS.VStr "   ")
           "Sheet1!A1" (Examples.signedOut [] 1700000000000)).
  reflexivity.
Defined.

(** With a country given, the same signed-out caller is asked to sign in. *)
Example signed_out_caller_with_country :
  fst (handlePowerGridFunction "mobile" (JS.VStr "USA") "Sheet1!A1"
         (Examples.signedOut [] 1700000000000))
  = Throw (CustomFunctionsError notAvailable
             "Enter your credentials in the task pane.").
Proof. reflexivity. Qed.

(** A number where the country is expected is rejected the same way. *)
Example number_for_country :
  fst (handleStateProvinceFunction "mobile" (JS.VNum (JS.Int 42)) "Sheet1!A1"
         (Examples.signedOut [] 1700000000000))
  = Throw (CustomFunctionsError invalidValue
             "Country parameter is required and must be a non-empty string").
Proof. reflexivity. Qed.

End ParameterChecks.

(** *** The units lookup *)

Section UnitsLookup.
Import MetadataUtils UnitsHandler.

Lemma validateApiName_valid (apiName name : string) :
  validateApiName apiName = Return name -> In name VALID_API_NAMES.
Proof.
  unfold validateApiName.
  destruct (JS.includes VALID_API_NAMES (JS.trim (JS.toLowerCase apiName)))
    eqn:Hin; cbn [negb]; [|discriminate].
  intros H. injection H as <-. apply includes_In. exact Hin.
Qed.

Lemma ensureClient_frame {X} (obs : World -> X) :
  (forall e w, isCacheAccess e = false -> isGetUnits e = false ->
               obs (addEvent e w) = obs w) ->
  (forall b w, obs (setClientInstance b w) = obs w) ->
  preserves obs Client.ensureClient.
Proof.
  intros He' Hm.
  assert (He : forall e, isCacheAccess e = false -> isGetUnits e = false ->
                         forall w, obs (addEvent e w) = obs w)
    by (intros; now apply He').
  unfold Client.ensureClient.
  apply preserves_bind; [apply preserves_ask|]. intros inst.
  destruct inst; [apply preserves_ret|].
  apply preserves_bind; [apply preserves_ask|]. intros creds.
  destruct creds.
  - apply preserves_bind; [apply preserves_emit, He; reflexivity|].
    intros _.
    apply preserves_bind; [apply preserves_ask|]. intros r.
    destruct r; [apply preserves_throw | apply preserves_modify, Hm].
  - apply preserves_bind; [apply preserves_emit, He; reflexivity|].
    intros _. apply preserves_throw.
Qed.

Lemma ensureClient_signed_in (w w1 : World) :
  Client.ensureClient w = (Return tt, w1) -> clientInstance w1 = true.
Proof.
  unfold Client.ensureClient, bind, ask, emit, modify, throw, ret.
  destruct (clientInstance w) eqn:Hi.
  - intros H. injection H as <-. exact Hi.
  - destruct (credentials w); cbn.
    + destruct (getClient w); [discriminate|].
      intros H. injection H as <-. reflexivity.
    + discriminate.
Qed.

Lemma ensureClient_once (w : World) :
  clientInstance w = true -> Client.ensureClient w = (Return tt, w).
Proof.
  intros H. unfold Client.ensureClient, bind, ask. now rewrite H.
Qed.

Lemma getTargetCell_frame {X} (obs : World -> X) (address : string) :
  preserves obs (getTargetCell address).
Proof.
  unfold getTargetCell.
  destruct (if JS.hasChar "!" address then _ else _) as [sheetName cellRef].
  destruct (negb (sheetName =? "")); frame.
Qed.

Lemma applyListValidation_frame {X} (obs : World -> X) (targetCell : Range)
  (values : list JS.value) (title message : string) :
  (forall vs w, obs (setValidations vs w) = obs w) ->
  preserves obs (applyListValidation targetCell values title message).
Proof.
  intros Hv. unfold applyListValidation.
  apply preserves_bind; [apply preserves_ask|]. intros ws.
  destruct (Excel.findSheet (rangeSheet targetCell) ws) as [sheet|];
    [|apply preserves_throw].
  apply preserves_modify. intros w. apply Hv.
Qed.

Lemma handleUnitsFunction_checked (apiName : string) (type : JS.value)
  (address : string) (w w1 : World) (name : string) :
  missingParameter type = false ->
  Client.ensureClient w = (Return tt, w1) ->
  validateApiName apiName = Return name ->
  handleUnitsFunction apiName type address w
  = unitsRequest name (JS.trim (stringOf type)) address w1.
Proof.
  intros Hp Hc Hv.
  unfold handleUnitsFunction, unitsRequest, tryCatch, bind, lift.
  rewrite Hp, Hc, Hv. reflexivity.
Qed.

Lemma unitsRequest_frame {X} (obs : World -> X) (name type address : string) :
  (forall api t w, obs (addEvent (RemoteGetUnits api t) w) = obs w) ->
  (forall vs w, obs (setValidations vs w) = obs w) ->
  preserves obs (unitsRequest name type address).
Proof.
  intros He Hv. unfold unitsRequest, fetchUnits, applyUnitsValidation.
  apply preserves_tryCatch; [|intros e; apply preserves_throw].
  apply preserves_bind.
  - apply preserves_tryCatch; [|intros e; apply preserves_throw].
    destruct (negb (JS.includes API_CLASS_MAP name));
      [apply preserves_throw|].
    apply preserves_bind; [apply preserves_emit, He|]. intros _.
    apply preserves_bind; [apply preserves_ask|]. intros settle.
    destruct settle as [m|response]; [apply preserves_throw|].
    destruct (negb (JS.truthy (JS.optProp response "units"))
              || negb (JS.isArray (JS.optProp response "units")));
      [apply preserves_throw|].
    destruct (List.length (JS.itemsOf (JS.optProp response "units")) =? 0)%nat;
      [apply preserves_throw | apply preserves_ret].
  - intros units.
    apply preserves_bind; [|intros _; apply preserves_ret].
    apply preserves_bind; [apply getTargetCell_frame|]. intros targetCell.
    apply applyListValidation_frame, Hv.
Qed.

Lemma handleUnitsFunction_frame {X} (obs : World -> X) (apiName : string)
  (type : JS.value) (address : string) :
  (forall e w, isCacheAccess e = false -> obs (addEvent e w) = obs w) ->
  (forall b w, obs (setClientInstance b w) = obs w) ->
  (forall vs w, obs (setValidations vs w) = obs w) ->
  preserves obs (handleUnitsFunction apiName type address).
Proof.
  intros He' Hm Hv w.
  assert (He : forall e w, isCacheAccess e = false -> isGetUnits e = false ->
                           obs (addEvent e w) = obs w)
    by (intros; now apply He').
  assert (Hu : forall api t w, obs (addEvent (RemoteGetUnits api t) w) = obs w)
    by (intros; now apply He').
  destruct (missingParameter type) eqn:Hp.
  - unfold handleUnitsFunction, tryCatch. rewrite Hp. reflexivity.
  - destruct (Client.ensureClient w) as [[e|[]] w1] eqn:Hc.
    + unfold handleUnitsFunction, tryCatch, bind. rewrite Hp, Hc.
      cbn [snd throw]. pose proof (ensureClient_frame obs He Hm w) as E.
      rewrite Hc in E. exact E.
    + destruct (validateApiName apiName) as [e|name] eqn:Hv'.
      * unfold handleUnitsFunction, tryCatch, bind, lift.
        rewrite Hp, Hc, Hv'. cbn [snd throw].
        pose proof (ensureClient_frame obs He Hm w) as E.
        rewrite Hc in E. exact E.
      * rewrite (handleUnitsFunction_checked _ _ _ _ _ _ Hp Hc Hv').
        rewrite (unitsRequest_frame obs _ _ _ Hu Hv w1).
        pose proof (ensureClient_frame obs He Hm w) as E.
        rewrite Hc in E. exact E.
Qed.

Lemma unitsCalls_addEvent (api type : string) (w : World) :
  unitsCalls (addEvent (RemoteGetUnits api type) w)
  = (unitsCalls w ++ [RemoteGetUnits api type])%list.
Proof.
  unfold unitsCalls. cbn [trace addEvent]. rewrite filter_app. reflexivity.
Qed.

(** A request for a valid name makes exactly one [getUnits] call. *)
Lemma unitsRequest_calls (name type address : string) (w : World) :
  In name VALID_API_NAMES ->
  unitsCalls (snd (unitsRequest name type address w))
  = (unitsCalls w ++ [RemoteGetUnits name type])%list.
Proof.
  intros Hin. apply includes_In in Hin.
  rewrite <- unitsCalls_addEvent.
  unfold unitsRequest, fetchUnits.
  change (JS.includes API_CLASS_MAP name)
    with (JS.includes VALID_API_NAMES name).
  rewrite Hin. cbn [negb].
  match goal with
  | |- unitsCalls (snd (tryCatch (bind (tryCatch (bind (emit ?e) ?k1) ?h1) ?k2)
                                 ?h2 w)) = _ =>
      change (unitsCalls
                (snd (tryCatch (bind (tryCatch (k1 tt) h1) k2) h2
                               (addEvent e w)))
              = unitsCalls (addEvent e w));
      assert (H : preserves unitsCalls
                    (tryCatch (bind (tryCatch (k1 tt) h1) k2) h2))
  end.
  { unfold applyUnitsValidation.
    apply preserves_tryCatch; [|intros e; apply preserves_throw].
    apply preserves_bind.
    - apply preserves_tryCatch; [|intros e; apply preserves_throw].
      apply preserves_bind; [apply preserves_ask|]. intros settle.
      destruct settle as [m|response]; [apply preserves_throw|].
      destruct (negb (JS.truthy (JS.optProp response "units"))
                || negb (JS.isArray (JS.optProp response "units")));
        [apply preserves_throw|].
      destruct (List.length (JS.itemsOf (JS.optProp response "units")) =? 0)%nat;
        [apply preserves_throw | apply preserves_ret].
    - intros units.
      apply preserves_bind; [|intros _; apply preserves_ret].
      apply preserves_bind; [apply getTargetCell_frame|]. intros targetCell.
      apply applyListValidation_frame. reflexivity. }
  apply H.
Qed.

(** C8, as the code has it.  For every input and world the units
    lookup leaves the worksheets as they were and makes no access to
    them.  When the type is a non-blank string, the session check
    passes and the API name is valid, it makes exactly one [getUnits]
    call, for the normalized name and the trimmed type; two such
    lookups in a row make two calls, each with its own type, and the
    worksheets are still as they were. *)
Theorem units_lookup_uncached :
  (forall apiName type address,
     preserves worksheets (handleUnitsFunction apiName type address)
     /\ preserves cacheAccesses (handleUnitsFunction apiName type address))
  /\ (forall apiName type address w name,
        missingParameter type = false ->
        fst (Client.ensureClient w) = Return tt ->
        validateApiName apiName = Return name ->
        unitsCalls (snd (handleUnitsFunction apiName type address w))
        = (unitsCalls w
           ++ [RemoteGetUnits name (JS.trim (stringOf type))])%list)
  /\ (forall apiName1 type1 address1 apiName2 type2 address2 w name1 name2,
        missingParameter type1 = false ->
        missingParameter type2 = false ->
        fst (Client.ensureClient w) = Return tt ->
        validateApiName apiName1 = Return name1 ->
        validateApiName apiName2 = Return name2 ->
        let w1 := snd (handleUnitsFunction apiName1 type1 address1 w) in
        let w2 := snd (handleUnitsFunction apiName2 type2 address2 w1) in
        unitsCalls w2
        = (unitsCalls w
           ++ [ RemoteGetUnits name1 (JS.trim (stringOf type1));
                RemoteGetUnits name2 (JS.trim (stringOf type2)) ])%list
        /\ worksheets w2 = worksheets w
        /\ cacheAccesses w2 = cacheAccesses w).
Proof.
  assert (Hframe : forall apiName type address,
            preserves worksheets (handleUnitsFunction apiName type address)
            /\ preserves cacheAccesses
                 (handleUnitsFunction apiName type address)).
  { intros. split; apply handleUnitsFunction_frame; try reflexivity.
    intros e w He. unfold cacheAccesses.
    now rewrite filter_trace_addEvent. }
  assert (Hone : forall apiName type address w name,
            missingParameter type = false ->
            fst (Client.ensureClient w) = Return tt ->
            validateApiName apiName = Return name ->
            unitsCalls (snd (handleUnitsFunction apiName type address w))
            = (unitsCalls w
               ++ [RemoteGetUnits name (JS.trim (stringOf type))])%list
            /\ clientInstance
                 (snd (handleUnitsFunction apiName type address w)) = true).
  { intros apiName type address w name Hp Hs Hv.
    destruct (Client.ensureClient w) as [r w1] eqn:Hc.
    cbn [fst] in Hs. subst r.
    rewrite (handleUnitsFunction_checked _ _ _ _ _ _ Hp Hc Hv).
    split.
    - rewrite unitsRequest_calls by (eapply validateApiName_valid; eauto).
      assert (E : unitsCalls (snd (Client.ensureClient w)) = unitsCalls w).
      { apply ensureClient_frame; [|reflexivity].
        intros e w' _ He. unfold unitsCalls.
        now rewrite filter_trace_addEvent. }
      rewrite Hc in E. cbn [snd] in E. now rewrite E.
    - rewrite (unitsRequest_frame clientInstance) by reflexivity.
      eapply ensureClient_signed_in; eauto. }
  split; [exact Hframe|]. split.
  - intros. now apply Hone.
  - intros apiName1 type1 address1 apiName2 type2 address2 w name1 name2
      Hp1 Hp2 Hs Hv1 Hv2 w1 w2.
    destruct (Hone apiName1 type1 address1 w name1 Hp1 Hs Hv1) as [E1 Hi].
    fold w1 in E1, Hi.
    assert (Hs1 : fst (Client.ensureClient w1) = Return tt)
      by (now rewrite ensureClient_once).
    destruct (Hone apiName2 type2 address2 w1 name2 Hp2 Hs1 Hv2) as [E2 _].
    fold w2 in E2.
    split; [|split].
    + rewrite E2, E1, <- app_assoc. reflexivity.
    + unfold w2, w1.
      now rewrite (proj1 (Hframe _ _ _)), (proj1 (Hframe _ _ _)).
    + unfold w2, w1.
      now rewrite (proj2 (Hframe _ _ _)), (proj2 (Hframe _ _ _)).
Qed.

(** C8 as it is worded fails: a blank type is refused before any call. *)
Lemma units_blank_type_makes_no_call :
  trace (snd (handleUnitsFunction "mobile" (JS.VStr "") "Sheet1!A1"
                (Examples.withUnits [] 1700000000000))) = []
  /\ ~ (forall apiName type address w,
          exists api t,
            In (RemoteGetUnits api t)
               (trace (snd (handleUnitsFunction apiName type address w)))).
Proof.
  split; [reflexivity|].
  intros H.
  destruct (H "mobile" (JS.VStr "") "Sheet1!A1"
              (Examples.withUnits [] 1700000000000)) as [api [t Hin]].
  exact Hin.
Qed.

Lemma units_lookup_uncached_witness :
  let w := Examples.withUnits [Examples.areaSheet Examples.testRows]
             1700000000000 in
  let w1 := snd (handleUnitsFunction "Mobile" (JS.VStr " diesel ")
                   "Sheet1!A1" w) in
  let w2 := snd (handleUnitsFunction "factor" (JS.VStr "coal")
                   "Sheet1!A2" w1) in
  unitsCalls w2
  = [ RemoteGetUnits "mobile" "diesel"; RemoteGetUnits "factor" "coal" ]
  /\ worksheets w2 = worksheets w
  /\ cacheAccesses w2 = cacheAccesses w.
Proof.
  intros w.
  apply (proj2 (proj2 units_lookup_uncached)
           "Mobile" (JS.VStr " diesel ") "Sheet1!A1"
           "factor" (JS.VStr "coal") "Sheet1!A2" w "mobile" "factor");
    reflexivity.
Defined.

End UnitsLookup.

(** *** At most one population per lookup *)

Section OnePopulation.
Import MetadataUtils.

Lemma atMost_preserves {A} (c : M A) :
  preserves populations c -> atMost 0 c.
Proof. intros H w. rewrite (H w). lia. Qed.

Lemma atMost_le {A} (a b : nat) (c : M A) :
  a <= b -> atMost a c -> atMost b c.
Proof. intros Hab Hc w. specialize (Hc w). lia. Qed.

Lemma atMost_bind {A B} (a b : nat) (c : M A) (k : A -> M B) :
  atMost a c -> (forall x, atMost b (k x)) -> atMost (a + b) (bind c k).
Proof.
  intros Hc Hk w. unfold bind. specialize (Hc w).
  destruct (c w) as [[e|x] w1]; cbn [snd] in *.
  - lia.
  - specialize (Hk x w1). lia.
Qed.

Lemma atMost_tryCatch_throw {A} (k : nat) (c : M A) (f : exn -> exn) :
  atMost k c -> atMost k (tryCatch c (fun e => throw (f e))).
Proof.
  intros Hc w. unfold tryCatch, throw. specialize (Hc w).
  destruct (c w) as [[e|x] w1]; exact Hc.
Qed.

Lemma onReturn_bind {A B} (P : World -> Prop) (c : M A) (k : A -> M B) :
  (forall x, onReturn P (k x)) -> onReturn P (bind c k).
Proof.
  intros Hk w. unfold bind.
  destruct (c w) as [[e|x] w1]; [exact I | apply Hk].
Qed.

Lemma onReturn_throw {A} (P : World -> Prop) (e : exn) :
  onReturn P (@throw A e).
Proof. intros w. exact I. Qed.

Lemma onReturn_tryCatch {A} (P : World -> Prop) (c : M A) (h : exn -> M A) :
  onReturn P c -> (forall e, onReturn P (h e)) -> onReturn P (tryCatch c h).
Proof.
  intros Hc Hh w. unfold tryCatch. specialize (Hc w).
  destruct (c w) as [[e|x] w1]; [apply Hh | exact Hc].
Qed.

Lemma findSheet_setCells (n : string) (g : Excel.Grid)
  (ws : list Excel.Worksheet) :
  Excel.findSheet n ws <> None ->
  Excel.findSheet n (Excel.setCells n g ws) <> None.
Proof.
  unfold Excel.findSheet.
  induction ws as [|s r IH]; cbn [find Excel.setCells]; [tauto|].
  destruct (Excel.name s =? n) eqn:E.
  - intros _. cbn [find Excel.name]. rewrite E. discriminate.
  - intros H. cbn [find]. rewrite E. apply IH, H.
Qed.

(** A successful [setSheetMetadata] leaves the sheet in the workbook. *)
Lemma setSheetMetadata_present (sheetName : string) (metadata : SheetMetadata) :
  onReturn (sheetPresent sheetName) (setSheetMetadata sheetName metadata).
Proof.
  intros w. unfold setSheetMetadata, bind, ask, emit, modify, throw.
  destruct (Excel.findSheet sheetName (worksheets w)) as [sheet|] eqn:Hf;
    [|exact I].
  unfold sheetPresent. cbn [worksheets setWorksheets addEvent].
  apply findSheet_setCells. rewrite Hf. discriminate.
Qed.

Lemma sheetExists_run (sheetName : string) (w : World) :
  sheetExists sheetName w
  = (Return (match Excel.findSheet sheetName (worksheets w) with
             | Some _ => true
             | None => false
             end),
     addEvent SheetsListed w).
Proof.
  unfold sheetExists, tryCatch, bind, emit, ask. cbn [worksheets addEvent].
  destruct (Excel.findSheet sheetName (worksheets w)); reflexivity.
Qed.

Lemma getSheetMetadata_frame {X} (obs : World -> X) (sheetName : string) :
  (forall w, obs (addEvent (SheetRead sheetName) w) = obs w) ->
  preserves obs (getSheetMetadata sheetName).
Proof.
  intros He. unfold getSheetMetadata.
  apply preserves_bind; [apply preserves_emit, He|]. intros _.
  apply preserves_bind; [apply preserves_ask|]. intros ws.
  destruct (Excel.findSheet sheetName ws) as [sheet|]; [|apply preserves_ret].
  destruct (negb (isMetadataMarker (Excel.cellAt (Excel.cells sheet) 0 0)));
    apply preserves_ret.
Qed.

Lemma isSheetDataStale_frame {X} (obs : World -> X) (sheetName : string) :
  (forall w, obs (addEvent (SheetRead sheetName) w) = obs w) ->
  preserves obs (isSheetDataStale sheetName).
Proof.
  intros He. unfold isSheetDataStale.
  apply preserves_tryCatch; [|intros e; apply preserves_ret].
  apply preserves_bind; [apply getSheetMetadata_frame, He|].
  intros [m|]; [|apply preserves_ret].
  apply preserves_bind; [apply preserves_ask|]. intros t. apply preserves_ret.
Qed.

(** The staleness check always answers. *)
Lemma isSheetDataStale_returns (sheetName : string) (w : World) :
  exists stale, fst (isSheetDataStale sheetName w) = Return stale.
Proof.
  unfold isSheetDataStale, tryCatch, bind.
  destruct (getSheetMetadata sheetName w) as [[e|[m|]] w1]; cbn;
    eexists; reflexivity.
Qed.

Lemma deleteSheetIfExists_frame {X} (obs : World -> X) (sheetName : string) :
  (forall e w, isPopulate e = false -> obs (addEvent e w) = obs w) ->
  (forall ws w, obs (setWorksheets ws w) = obs w) ->
  preserves obs (deleteSheetIfExists sheetName).
Proof.
  intros He Hw. unfold deleteSheetIfExists.
  apply preserves_tryCatch; [|intros e; apply preserves_ret].
  apply preserves_bind; [apply preserves_emit; intros; now apply He|].
  intros _. apply preserves_bind; [apply preserves_ask|]. intros ws.
  destruct (Excel.findSheet sheetName ws) as [sheet|]; [|apply preserves_ret].
  apply preserves_bind; [apply preserves_emit; intros; now apply He|].
  intros _. apply preserves_modify. intros w. apply Hw.
Qed.

Lemma populations_addEvent (e : Event) (w : World) :
  isPopulate e = false -> populations (addEvent e w) = populations w.
Proof.
  intros H. unfold populations. now rewrite filter_trace_addEvent.
Qed.

Section Generic.
Variable sheetName : string.
Variable populate : M unit.
Hypothesis populate_once : atMost 1 populate.
Hypothesis populate_present : onReturn (sheetPresent sheetName) populate.

(** A refresh followed by the existence check enters the population
    routine at most once: after a refresh that returned, the sheet is
    there and the check finds it. *)
Lemma refresh_then_ensure_once {A} (k : M A) :
  atMost 0 k ->
  atMost 1 (refreshSheetIfStale sheetName populate ;;
            ensureSheet sheetName populate ;;
            k).
Proof.
  intros Hk w. unfold refreshSheetIfStale.
  unfold bind at 1. unfold bind at 1. rewrite sheetExists_run.
  assert (Hensure_absent : forall w0,
            Excel.findSheet sheetName (worksheets w0) = None ->
            populations
              (snd (bind (ensureSheet sheetName populate) (fun _ => k) w0))
            <= populations w0 + 1).
  { intros w0 Hf. unfold ensureSheet, bind, emit, ask.
    cbn [worksheets addEvent]. rewrite Hf. cbn [ret negb].
    pose proof (populate_once (addEvent SheetsListed w0)) as Hp.
    rewrite populations_addEvent in Hp by reflexivity.
    destruct (populate (addEvent SheetsListed w0)) as [[e|[]] w1];
      cbn [snd] in *; [lia|].
    specialize (Hk w1). lia. }
  assert (Hensure_present : forall w0,
            sheetPresent sheetName w0 ->
            populations
              (snd (bind (ensureSheet sheetName populate) (fun _ => k) w0))
            <= populations w0).
  { intros w0 Hf. unfold ensureSheet, bind, emit, ask.
    cbn [worksheets addEvent]. unfold sheetPresent in Hf.
    destruct (Excel.findSheet sheetName (worksheets w0)); [|contradiction].
    cbn [ret negb].
    specialize (Hk (addEvent SheetsListed w0)).
    rewrite populations_addEvent in Hk by reflexivity. lia. }
  destruct (Excel.findSheet sheetName (worksheets w)) as [sheet|] eqn:Hf;
    cbn [negb].
  - (* the sheet exists *)
    pose proof (isSheetDataStale_frame populations sheetName
                  ltac:(untouched) (addEvent SheetsListed w)) as Hp.
    pose proof (isSheetDataStale_frame worksheets sheetName
                  ltac:(untouched) (addEvent SheetsListed w)) as Hw.
    destruct (isSheetDataStale_returns sheetName (addEvent SheetsListed w))
      as [stale Hs].
    unfold bind at 1.
    destruct (isSheetDataStale sheetName (addEvent SheetsListed w))
      as [r w2]. cbn [fst snd] in *. subst r.
    rewrite populations_addEvent in Hp by reflexivity.
    destruct stale.
    + (* stale: delete, populate *)
      unfold bind at 1.
      pose proof (deleteSheetIfExists_frame populations sheetName
                    populations_addEvent ltac:(reflexivity) w2) as Hd.
      destruct (deleteSheetIfExists sheetName w2) as [[e|[]] w3];
        cbn [snd] in *; [lia|].
      unfold bind at 1.
      pose proof (populate_once w3) as Hp1.
      pose proof (populate_present w3) as Hp2.
      destruct (populate w3) as [[e|[]] w4]; cbn [snd] in *; [lia|].
      cbn [ret]. specialize (Hensure_present w4 Hp2). lia.
    + (* fresh *)
      cbn [ret].
      assert (Hpres : sheetPresent sheetName w2).
      { unfold sheetPresent. rewrite Hw. cbn [worksheets addEvent].
        rewrite Hf. discriminate. }
      specialize (Hensure_present w2 Hpres). lia.
  - (* the sheet is absent *)
    cbn [ret].
    assert (Hf' : Excel.findSheet sheetName
                    (worksheets (addEvent SheetsListed w)) = None)
      by exact Hf.
    specialize (Hensure_absent _ Hf').
    rewrite populations_addEvent in Hensure_absent by reflexivity. lia.
Qed.

End Generic.

End OnePopulation.

Section PopulationRoutines.
Import MetadataUtils AreaLoader ApiTypesLoader AreaHandler TypesHandler.

Lemma populations_not_cache (e : Event) (w : World) :
  isCacheAccess e = false -> populations (addEvent e w) = populations w.
Proof.
  intros H. apply populations_addEvent. destruct e; try reflexivity.
  discriminate H.
Qed.

Lemma setSheetMetadata_pops (n : string) (m : SheetMetadata) :
  preserves populations (setSheetMetadata n m).
Proof. unfold setSheetMetadata. frame. Qed.

Lemma addHiddenSheet_pops (n : string) (g : Excel.Grid) :
  preserves populations (addHiddenSheet n g).
Proof. unfold addHiddenSheet. frame. Qed.

Lemma fetchAllAreaData_pops : preserves populations fetchAllAreaData.
Proof. unfold fetchAllAreaData, fetchAreaFor. frame. Qed.

Lemma writeAreaDataToSheet_pops (m : list (string * list JS.value)) :
  preserves populations (writeAreaDataToSheet m).
Proof.
  unfold writeAreaDataToSheet. frame.
Qed.

Lemma ensureClient_pops : preserves populations Client.ensureClient.
Proof.
  apply ensureClient_frame; [|reflexivity].
  intros e w H _. now apply populations_not_cache.
Qed.

Lemma fetchAllApiTypes_pops : preserves populations fetchAllApiTypes.
Proof.
  unfold fetchAllApiTypes, fetchTypesFor.
  apply preserves_bind; [apply ensureClient_pops|]. intros _. frame.
Qed.

Lemma writeApiTypesToSheet_pops (m : list (string * JS.value)) :
  preserves populations (writeApiTypesToSheet m).
Proof.
  unfold writeApiTypesToSheet. frame.
Qed.

Lemma populations_Populate (n : string) (w : World) :
  populations (addEvent (Populate n) w) = populations w + 1.
Proof.
  unfold populations. cbn [trace addEvent].
  rewrite filter_app, length_app. reflexivity.
Qed.

(** Each entry into [loadAndPopulateAreaData] counts once. *)
Lemma loadAndPopulateAreaData_once : atMost 1 loadAndPopulateAreaData.
Proof.
  intros w. unfold loadAndPopulateAreaData.
  unfold bind at 1. unfold emit at 1.
  match goal with
  | |- populations (snd (?c ?w1)) <= _ =>
      assert (H : preserves populations c)
  end.
  { apply preserves_tryCatch; [|intros e; apply preserves_throw].
    apply preserves_bind; [apply fetchAllAreaData_pops|].
    intros m. apply writeAreaDataToSheet_pops. }
  rewrite H, populations_Populate. lia.
Qed.

Lemma loadAndPopulateApiTypes_once : atMost 1 loadAndPopulateApiTypes.
Proof.
  intros w. unfold loadAndPopulateApiTypes.
  unfold bind at 1. unfold emit at 1.
  match goal with
  | |- populations (snd (?c ?w1)) <= _ =>
      assert (H : preserves populations c)
  end.
  { apply preserves_tryCatch; [|intros e; apply preserves_throw].
    apply preserves_bind; [apply fetchAllApiTypes_pops|].
    intros m. apply writeApiTypesToSheet_pops. }
  rewrite H, populations_Populate. lia.
Qed.

(** A population that returns has left its sheet in the workbook. *)
Lemma loadAndPopulateAreaData_present :
  onReturn (sheetPresent AREA_DATA_SHEET_NAME) loadAndPopulateAreaData.
Proof.
  unfold loadAndPopulateAreaData, writeAreaDataToSheet.
  apply onReturn_bind. intros _.
  apply onReturn_tryCatch; [|intros e; apply onReturn_throw].
  apply onReturn_bind. intros m.
  apply onReturn_bind. intros _.
  apply onReturn_bind. intros ws.
  apply onReturn_bind. intros _.
  apply onReturn_bind. intros rows.
  destruct (Excel.toCells rows) as [block|]; [|apply onReturn_throw].
  apply onReturn_bind. intros _.
  apply onReturn_bind. intros t.
  apply setSheetMetadata_present.
Qed.

Lemma loadAndPopulateApiTypes_present :
  onReturn (sheetPresent API_TYPES_SHEET_NAME) loadAndPopulateApiTypes.
Proof.
  unfold loadAndPopulateApiTypes, writeApiTypesToSheet.
  apply onReturn_bind. intros _.
  apply onReturn_tryCatch; [|intros e; apply onReturn_throw].
  apply onReturn_bind. intros m.
  apply onReturn_bind. intros _.
  apply onReturn_bind. intros ws.
  apply onReturn_bind. intros block.
  destruct (Excel.toCells block) as [cells|]; [|apply onReturn_throw].
  apply onReturn_bind. intros _.
  apply onReturn_bind. intros t.
  apply setSheetMetadata_present.
Qed.

Lemma getTargetCell_pops (address : string) :
  preserves populations (getTargetCell address).
Proof. apply getTargetCell_frame. Qed.

Lemma applyListValidation_pops (targetCell : Range) (values : list JS.value)
  (title message : string) :
  preserves populations (applyListValidation targetCell values title message).
Proof. apply applyListValidation_frame. reflexivity. Qed.

Lemma areaSheetValues_pops : preserves populations areaSheetValues.
Proof. unfold areaSheetValues. frame. Qed.

(** The prelude of the area handlers enters the routine at most once. *)
Lemma prepareAreaData_once (apiName : string) :
  atMost 1 (prepareAreaData apiName).
Proof.
  unfold prepareAreaData.
  apply (atMost_bind 0 1); [apply atMost_preserves, ensureClient_pops|].
  intros _.
  apply (atMost_bind 0 1); [apply atMost_preserves, preserves_lift|].
  intros name.
  apply (refresh_then_ensure_once AREA_DATA_SHEET_NAME
           loadAndPopulateAreaData loadAndPopulateAreaData_once
           loadAndPopulateAreaData_present (ret name)).
  apply atMost_preserves, preserves_ret.
Qed.

Lemma prepareTypesData_once (apiName : string) :
  atMost 1 (prepareTypesData apiName).
Proof.
  unfold prepareTypesData.
  apply (atMost_bind 0 1); [apply atMost_preserves, ensureClient_pops|].
  intros _.
  apply (atMost_bind 0 1); [apply atMost_preserves, preserves_lift|].
  intros name.
  apply (refresh_then_ensure_once API_TYPES_SHEET_NAME
           loadAndPopulateApiTypes loadAndPopulateApiTypes_once
           loadAndPopulateApiTypes_present (ret name)).
  apply atMost_preserves, preserves_ret.
Qed.

(** C4.  One call of a lookup backed by a hidden sheet (COUNTRY,
    STATE_PROVINCE, POWER_GRID, TYPES) enters the population routine at
    most once, whatever the workbook holds when it starts. *)
Theorem one_population_per_lookup (apiName : string) (country : JS.value)
  (address : string) (w : World) :
  populations (snd (handleCountryFunction apiName address w))
    <= populations w + 1
  /\ populations (snd (handleStateProvinceFunction apiName country address w))
    <= populations w + 1
  /\ populations (snd (handlePowerGridFunction apiName country address w))
    <= populations w + 1
  /\ populations (snd (handleTypesFunction apiName address w))
    <= populations w + 1.
Proof.
  assert (Harea : forall columnIndex alpha3 name,
            preserves populations
              (getAreaDataForCountry name alpha3 columnIndex)).
  { intros. unfold getAreaDataForCountry.
    apply preserves_bind; [apply areaSheetValues_pops|].
    intros values. apply preserves_ret. }
  assert (Hattach : forall values title message,
            preserves populations
              (targetCell <- getTargetCell address ;;
               applyListValidation targetCell values title message ;;
               ret "")).
  { intros.
    apply preserves_bind; [apply getTargetCell_pops|]. intros targetCell.
    apply preserves_bind; [apply applyListValidation_pops|]. intros _.
    apply preserves_ret. }
  split; [|split; [|split]].
  - apply (atMost_tryCatch_throw 1).
    apply (atMost_bind 1 0); [apply prepareAreaData_once|]. intros name.
    apply atMost_preserves. unfold getAlpha3CodesForApi.
    apply preserves_bind.
    + apply preserves_bind; [apply areaSheetValues_pops|].
      intros values. apply preserves_ret.
    + intros codes. destruct (List.length codes =? 0)%nat;
        [apply preserves_throw | apply Hattach].
  - apply (atMost_tryCatch_throw 1).
    destruct (missingParameter country);
      [apply (atMost_le 0 1); [lia | apply atMost_preserves, preserves_throw]|].
    apply (atMost_bind 1 0); [apply prepareAreaData_once|]. intros name.
    apply atMost_preserves.
    apply preserves_bind; [apply Harea|]. intros l.
    destruct (List.length l =? 0)%nat; [apply preserves_throw | apply Hattach].
  - apply (atMost_tryCatch_throw 1).
    destruct (missingParameter country);
      [apply (atMost_le 0 1); [lia | apply atMost_preserves, preserves_throw]|].
    apply (atMost_bind 1 0); [apply prepareAreaData_once|]. intros name.
    apply atMost_preserves.
    apply preserves_bind; [apply Harea|]. intros l.
    destruct (List.length l =? 0)%nat; [apply preserves_throw | apply Hattach].
  - apply (atMost_tryCatch_throw 1).
    apply (atMost_bind 1 0); [apply prepareTypesData_once|]. intros name.
    apply atMost_preserves.
    apply preserves_bind; [|intros _; apply preserves_ret].
    unfold applyDataValidation.
    destruct (lookup name API_COLUMN_MAP) as [columnIndex|];
      [|apply preserves_throw].
    apply preserves_bind; [apply preserves_emit; untouched|]. intros _.
    apply preserves_bind; [apply preserves_ask|]. intros ws.
    destruct (Excel.findSheet API_TYPES_SHEET_NAME ws) as [sheet|];
      [|apply preserves_throw].
    apply preserves_bind; [apply preserves_lift|]. intros values.
    apply preserves_bind; [apply getTargetCell_pops|]. intros targetCell.
    apply applyListValidation_pops.
Qed.

(** The three initial states of the area sheet: absent, fresh, stale. *)
Example population_when_absent :
  populations
    (snd (handleCountryFunction "location" "Sheet1!A1"
            (Examples.withRemote Examples.noTypes Examples.mobileRejected
               [] 1700000000000))) = 1.
Proof. reflexivity. Qed.

Example no_population_when_fresh :
  populations
    (snd (handleCountryFunction "location" "Sheet1!A1"
            (Examples.withRemote Examples.noTypes Examples.mobileRejected
               [Examples.areaSheet Examples.testRows]
               (1700000000000 + 172800000)))) = 0.
Proof. reflexivity. Qed.

Example one_population_when_stale :
  populations
    (snd (handleCountryFunction "location" "Sheet1!A1"
            (Examples.withRemote Examples.noTypes Examples.mobileRejected
               [Examples.areaSheet Examples.testRows]
               (1700000000000 + 172800001)))) = 1.
Proof. reflexivity. Qed.

End PopulationRoutines.

(** *** Empty option lists *)

Section EmptyOptions.
Import MetadataUtils AreaLoader ApiTypesLoader AreaHandler TypesHandler
  UnitsHandler.

Lemma loadAndPopulateAreaData_validations :
  preserves validations loadAndPopulateAreaData.
Proof.
  unfold loadAndPopulateAreaData, fetchAllAreaData, fetchAreaFor,
    writeAreaDataToSheet, addHiddenSheet, setSheetMetadata.
  frame.
Qed.

Lemma loadAndPopulateApiTypes_validations :
  preserves validations loadAndPopulateApiTypes.
Proof.
  unfold loadAndPopulateApiTypes, fetchAllApiTypes, fetchTypesFor,
    writeApiTypesToSheet, addHiddenSheet, setSheetMetadata,
    Client.ensureClient.
  frame.
Qed.

Lemma refreshSheetIfStale_validations (sheetName : string) (populate : M unit) :
  preserves validations populate ->
  preserves validations (refreshSheetIfStale sheetName populate).
Proof.
  intros H.
  unfold refreshSheetIfStale, sheetExists, isSheetDataStale, getSheetMetadata,
    deleteSheetIfExists.
  frame; exact H.
Qed.

Lemma prepareAreaData_validations (apiName : string) :
  preserves validations (prepareAreaData apiName).
Proof.
  unfold prepareAreaData.
  apply preserves_bind; [unfold Client.ensureClient; frame|]. intros _.
  apply preserves_bind; [apply preserves_lift|]. intros name.
  apply preserves_bind;
    [apply refreshSheetIfStale_validations,
       loadAndPopulateAreaData_validations|].
  intros _.
  apply preserves_bind; [|intros _; apply preserves_ret].
  unfold ensureAreaDataSheet, areaDataSheetExists.
  frame; apply loadAndPopulateAreaData_validations.
Qed.

Lemma prepareTypesData_validations (apiName : string) :
  preserves validations (prepareTypesData apiName).
Proof.
  unfold prepareTypesData.
  apply preserves_bind; [unfold Client.ensureClient; frame|]. intros _.
  apply preserves_bind; [apply preserves_lift|]. intros name.
  apply preserves_bind;
    [apply refreshSheetIfStale_validations,
       loadAndPopulateApiTypes_validations|].
  intros _.
  apply preserves_bind; [|intros _; apply preserves_ret].
  unfold ensureApiTypesSheet, apiTypesSheetExists.
  frame; apply loadAndPopulateApiTypes_validations.
Qed.

Lemma areaSheetValues_validations : preserves validations areaSheetValues.
Proof. unfold areaSheetValues. frame. Qed.

(** No row of the group and country: the loop returns nothing. *)
Lemma areaDataLoop_no_row (queryApiName alpha3 : string) (columnIndex : nat)
  (rows : Excel.Grid) :
  (forall row, In row rows ->
     rowOfGroup queryApiName row
     && strictEquals (cellString row alpha3Column) alpha3 = false) ->
  areaDataLoop queryApiName alpha3 columnIndex rows = [].
Proof.
  induction rows as [|row rest IH]; intros H; [reflexivity|].
  cbn [areaDataLoop]. unfold rowOfGroup in H.
  rewrite (H row (or_introl eq_refl)).
  apply IH. intros r Hr. apply H. now right.
Qed.

(** The first row of the group and country has an empty cell in the
    column: the loop returns nothing. *)
Lemma areaDataLoop_empty_cell (queryApiName alpha3 : string)
  (columnIndex : nat) (row : list Excel.cell) (rest : Excel.Grid) :
  rowOfGroup queryApiName row = true ->
  strictEquals (cellString row alpha3Column) alpha3 = true ->
  (cellString row columnIndex = None \/ cellString row columnIndex = Some "") ->
  areaDataLoop queryApiName alpha3 columnIndex (row :: rest) = [].
Proof.
  intros Hg Ha Hc. cbn [areaDataLoop]. unfold rowOfGroup in Hg.
  rewrite Hg, Ha. cbn [andb].
  destruct Hc as [-> | ->]; reflexivity.
Qed.

(** A column of the types sheet whose header cell (row 1) is not empty
    never yields an empty option list: the read throws or has options. *)
Lemma columnOptions_not_empty (apiName : string) (columnIndex : nat)
  (g : Excel.Grid) :
  Excel.isBlank (Excel.cellAt g 1 columnIndex) = false ->
  columnOptions apiName columnIndex g <> Return [].
Proof.
  intros Hh. unfold columnOptions.
  destruct (Excel.columnUsedRowCount g columnIndex) as [rowCount|];
    [|discriminate].
  destruct (rowCount <=? 1)%nat eqn:Hle; [discriminate|].
  apply Nat.leb_gt in Hle.
  destruct rowCount as [|[|n]]; try lia.
  unfold Excel.rangeValues.
  replace (S (S n) - 1) with (S n) by lia.
  cbn [seq map List.concat app filter]. rewrite Hh.
  cbn [negb map]. discriminate.
Qed.

(** The four lookups that test the length of their option list: when
    the list is empty they throw a NotAvailable error and leave the
    validation rules of the workbook as they were.  POWER_GRID and
    STATE_PROVINCE name the country as given, COUNTRY names the API as
    given, UNITS names the trimmed type.  The power-grid list is empty
    in particular when no row has the group and country, and when the
    first such row has an empty power-grid cell. *)
Lemma length_tested_lookups_reject_empty_list :
  (forall apiName country address w name w1 w2,
     missingParameter country = false ->
     prepareAreaData apiName w = (Return name, w1) ->
     getAreaDataForCountry name (JS.toUpperCase (JS.trim (stringOf country)))
       powerGridColumn w1 = (Return [], w2) ->
     failsWith (handlePowerGridFunction apiName country address w) w
       notAvailable
       ("No power grid data available for " ++ stringOf country))
  /\ (forall apiName country address w name w1 w2,
        missingParameter country = false ->
        prepareAreaData apiName w = (Return name, w1) ->
        getAreaDataForCountry name
          (JS.toUpperCase (JS.trim (stringOf country)))
          stateProvinceColumn w1 = (Return [], w2) ->
        failsWith (handleStateProvinceFunction apiName country address w) w
          notAvailable
          ("No stateProvince data available for " ++ stringOf country))
  /\ (forall apiName address w name w1 w2,
        prepareAreaData apiName w = (Return name, w1) ->
        getAlpha3CodesForApi name w1 = (Return [], w2) ->
        failsWith (handleCountryFunction apiName address w) w
          notAvailable
          ("Failed to set up country validation: No countries found for API: "
           ++ apiName))
  /\ (forall apiName type address w name w1 response,
        missingParameter type = false ->
        Client.ensureClient w = (Return tt, w1) ->
        validateApiName apiName = Return name ->
        getUnits w1 name (JS.trim (stringOf type)) = Resolved response ->
        JS.optProp response "units" = JS.VArr [] ->
        failsWith (handleUnitsFunction apiName type address w) w
          notAvailable
          ("Failed to set up units validation: Failed to fetch units: "
           ++ "No units found for type: " ++ JS.trim (stringOf type)))
  /\ (forall queryApiName alpha3 columnIndex rows,
        (forall row, In row rows ->
           rowOfGroup queryApiName row
           && strictEquals (cellString row alpha3Column) alpha3 = false) ->
        areaDataLoop queryApiName alpha3 columnIndex rows = [])
  /\ (forall queryApiName alpha3 columnIndex row rest,
        rowOfGroup queryApiName row = true ->
        strictEquals (cellString row alpha3Column) alpha3 = true ->
        (cellString row columnIndex = None
         \/ cellString row columnIndex = Some "") ->
        areaDataLoop queryApiName alpha3 columnIndex (row :: rest) = []).
Proof.
  assert (Hprep : forall apiName w name w1,
            prepareAreaData apiName w = (Return name, w1) ->
            validations w1 = validations w).
  { intros apiName w name w1 H.
    pose proof (prepareAreaData_validations apiName w) as E.
    now rewrite H in E. }
  assert (Hget : forall name alpha3 columnIndex w1 l w2,
            getAreaDataForCountry name alpha3 columnIndex w1 = (Return l, w2) ->
            validations w2 = validations w1).
  { intros name alpha3 columnIndex w1 l w2 H.
    assert (E : preserves validations
                  (getAreaDataForCountry name alpha3 columnIndex)).
    { unfold getAreaDataForCountry.
      apply preserves_bind; [apply areaSheetValues_validations|].
      intros values. apply preserves_ret. }
    specialize (E w1). now rewrite H in E. }
  split; [|split; [|split; [|split; [|split]]]].
  - intros apiName country address w name w1 w2 Hp Hprepare Hlist.
    unfold failsWith, handlePowerGridFunction, tryCatch, bind.
    rewrite Hp, Hprepare, Hlist. cbn. split; [reflexivity|].
    rewrite (Hget _ _ _ _ _ _ Hlist). eapply Hprep; eauto.
  - intros apiName country address w name w1 w2 Hp Hprepare Hlist.
    unfold failsWith, handleStateProvinceFunction, tryCatch, bind.
    rewrite Hp, Hprepare, Hlist. cbn. split; [reflexivity|].
    rewrite (Hget _ _ _ _ _ _ Hlist). eapply Hprep; eauto.
  - intros apiName address w name w1 w2 Hprepare Hlist.
    unfold failsWith, handleCountryFunction, tryCatch, bind.
    rewrite Hprepare, Hlist. cbn [List.length Nat.eqb throw fst snd].
    split.
    + unfold handleCustomFunctionError, orUnknown. reflexivity.
    + assert (E : preserves validations (getAlpha3CodesForApi name)).
      { unfold getAlpha3CodesForApi.
        apply preserves_bind; [apply areaSheetValues_validations|].
        intros values. apply preserves_ret. }
      specialize (E w1). rewrite Hlist in E. cbn [snd] in E.
      rewrite E. eapply Hprep; eauto.
  - intros apiName type address w name w1 response Hp Hc Hv Hr Hu.
    rewrite (handleUnitsFunction_checked _ _ _ _ _ _ Hp Hc Hv).
    assert (Hin : JS.includes API_CLASS_MAP name = true)
      by (apply includes_In; eapply validateApiName_valid; eauto).
    unfold failsWith, unitsRequest, fetchUnits, tryCatch, bind, emit, ask.
    rewrite Hin. cbn [negb getUnits addEvent]. rewrite Hr, Hu.
    cbn. split.
    + reflexivity.
    + assert (E : preserves validations Client.ensureClient)
        by (unfold Client.ensureClient; frame).
      specialize (E w). now rewrite Hc in E.
  - apply areaDataLoop_no_row.
  - apply areaDataLoop_empty_cell.
Qed.

(** The test [handleTypesFunction] makes instead: a column whose used
    range has at most one row gives a NotAvailable error naming the
    normalized API, and no rule. *)
Lemma types_lookup_tests_row_count (apiName address : string) (w w1 : World)
  (name : string) (columnIndex : nat) (sheet : Excel.Worksheet)
  (rowCount : nat) :
  prepareTypesData apiName w = (Return name, w1) ->
  lookup name API_COLUMN_MAP = Some columnIndex ->
  Excel.findSheet API_TYPES_SHEET_NAME (worksheets w1) = Some sheet ->
  Excel.columnUsedRowCount (Excel.cells sheet) columnIndex = Some rowCount ->
  rowCount <= 1 ->
  failsWith (handleTypesFunction apiName address w) w
    notAvailable
    ("Failed to set up validation: No types found for API: " ++ name).
Proof.
  intros Hprepare Hcol Hsheet Hcount Hle.
  unfold failsWith, handleTypesFunction, tryCatch, bind.
  rewrite Hprepare. unfold applyDataValidation. rewrite Hcol.
  unfold bind, emit, ask, lift. cbn [worksheets addEvent].
  rewrite Hsheet. unfold columnOptions. rewrite Hcount.
  apply Nat.leb_le in Hle. rewrite Hle. cbn. split; [reflexivity|].
  pose proof (prepareTypesData_validations apiName w) as E.
  now rewrite Hprepare in E.
Qed.

(** The power-grid lookup of the area-handler test for Canada, whose
    power-grid cell is empty. *)
Example power_grid_lookup_without_grids :
  failsWith
    (handlePowerGridFunction "Location" (JS.VStr " can ") "Sheet1!A1"
       (Examples.workbook [Examples.areaSheet Examples.testRows]
          1700000000000))
    (Examples.workbook [Examples.areaSheet Examples.testRows] 1700000000000)
    notAvailable
    "No power grid data available for  can ".
Proof.
  eapply (proj1 length_tested_lookups_reject_empty_list); reflexivity.
Qed.

End EmptyOptions.

(** *** Population with a failing category *)

Section FailingCategory.
Import MetadataUtils AreaLoader ApiTypesLoader.

(** A rejected request is recorded as an empty list of types. *)
Lemma fetchTypesFor_rejected (config message : string) (w : World) :
  getTypes w config = Rejected message ->
  fetchTypesFor config w
  = (Return (config, JS.VArr []), addEvent (RemoteGetTypes config) w).
Proof.
  intros H. unfold fetchTypesFor, bind, emit, ask.
  cbn [getTypes addEvent]. now rewrite H.
Qed.

(** So is a response without [types], or with a falsy one. *)
Lemma fetchTypesFor_missing (config : string) (response : JS.value)
  (w : World) :
  getTypes w config = Resolved response ->
  JS.truthy (JS.optProp response "types") = false ->
  fetchTypesFor config w
  = (Return (config, JS.VArr []), addEvent (RemoteGetTypes config) w).
Proof.
  intros H Ht. unfold fetchTypesFor, bind, emit, ask.
  cbn [getTypes addEvent]. now rewrite H, Ht.
Qed.

(** Any other [types] is recorded as it is, array or not. *)
Lemma fetchTypesFor_recorded (config : string) (response : JS.value)
  (w : World) :
  getTypes w config = Resolved response ->
  JS.truthy (JS.optProp response "types") = true ->
  fetchTypesFor config w
  = (Return (config, JS.optProp response "types"),
     addEvent (RemoteGetTypes config) w).
Proof.
  intros H Ht. unfold fetchTypesFor, bind, emit, ask.
  cbn [getTypes addEvent]. now rewrite H, Ht.
Qed.

(** A request for area data never throws, and records the empty list
    unless the response (parsed when it is text) has a [locations]
    array. *)
Lemma fetchAreaFor_returns (config : string) (w : World) :
  exists locations,
    fetchAreaFor config w
    = (Return (config, locations), addEvent (RemoteGetArea config) w)
    /\ (locations = []
        \/ exists response,
             (getArea w config = Resolved response
              \/ exists text, getArea w config = Resolved (JS.VStr text)
                              /\ jsonParse w text = Some response)
             /\ JS.optProp response "locations" = JS.VArr locations).
Proof.
  unfold fetchAreaFor, bind, emit, ask. cbn [getArea jsonParse addEvent].
  destruct (getArea w config) as [m|raw] eqn:Hr.
  - exists []. split; [reflexivity | now left].
  - assert (Hshape : forall response,
              (raw = response
               \/ exists text, raw = JS.VStr text
                               /\ jsonParse w text = Some response) ->
              exists locations,
                (let locations := JS.optProp response "locations" in
                 if negb (JS.truthy locations) || negb (JS.isArray locations)
                 then ret (config, [])
                 else ret (config, JS.itemsOf locations))
                  (addEvent (RemoteGetArea config) w)
                = (Return (config, locations),
                   addEvent (RemoteGetArea config) w)
                /\ (locations = []
                    \/ exists response0,
                         (Resolved raw = Resolved response0
                          \/ exists text,
                               Resolved raw = Resolved (JS.VStr text)
                               /\ jsonParse w text = Some response0)
                         /\ JS.optProp response0 "locations"
                            = JS.VArr locations)).
    { intros response Hresp. cbv zeta.
      destruct (JS.optProp response "locations") as [| |b|n|s|items|fields]
        eqn:Hl; cbn [JS.truthy JS.isArray negb orb];
        try (exists []; split; [try destruct b; try destruct n as [|[| |]];
                                try destruct (negb (s =? ""));
                                reflexivity | now left]).
      exists items. split; [reflexivity|]. right. exists response.
      split; [|exact Hl].
      destruct Hresp as [-> | [text [-> Hp]]]; [now left|].
      right. exists text. now split. }
    destruct raw as [| |b|n|text|items|fields];
      try (apply Hshape; now left).
    destruct (jsonParse w text) as [response|] eqn:Hp.
    + apply Hshape. right. exists text. now split.
    + exists []. split; [reflexivity | now left].
Qed.

(** One rejected category among six: the population returns, the
    Location column holds its header only, the other five hold their
    types. *)
Example one_rejected_category_of_six :
  let w := Examples.withRemote Examples.locationRejected Examples.noArea
             [] 1700000000000 in
  fst (loadAndPopulateApiTypes w) = Return tt
  /\ option_map Excel.cells
       (Excel.findSheet API_TYPES_SHEET_NAME
          (worksheets (snd (loadAndPopulateApiTypes w))))
     = Some
         [ [ Excel.CStr "METADATA"; Excel.CStr "1700000000000" ];
           map Excel.CStr API_TYPES_CONFIGS;
           Excel.blank :: repeat (Excel.CStr "t1") 5;
           Excel.blank :: repeat (Excel.CStr "t2") 5 ].
Proof. split; reflexivity. Qed.

(** One rejected group of two: the area population returns and writes
    the rows of the other group. *)
Example one_rejected_group_of_two :
  let w := Examples.withRemote Examples.noTypes Examples.mobileRejected
             [] 1700000000000 in
  fst (loadAndPopulateAreaData w) = Return tt
  /\ option_map Excel.cells
       (Excel.findSheet AREA_DATA_SHEET_NAME
          (worksheets (snd (loadAndPopulateAreaData w))))
     = Some
         [ [ Excel.CStr "METADATA"; Excel.CStr "1700000000000" ];
           Examples.areaHeaderRow;
           [ Excel.CStr "calculation"; Excel.CStr "USA";
             Excel.CStr "United States"; Excel.CStr "California, Texas";
             Excel.CStr "WECC" ];
           [ Excel.CStr "calculation"; Excel.CStr "CAN"; Excel.CStr "Canada";
             Excel.CStr "Ontario"; Excel.CStr "" ] ].
Proof. split; reflexivity. Qed.

(** C5, at the input where the code departs from it: the Location
    request resolves with [{types: "abc"}], the other five with two
    types each.  The string is recorded in place of an empty list, the
    write throws on it, the population throws, and no sheet is written. *)
Theorem malformed_types_break_population :
  let w := Examples.withRemote Examples.locationMalformed Examples.noArea
             [] 1700000000000 in
  (exists m, fst (fetchAllApiTypes w) = Return m
              /\ mapGet "Location" m = Some (JS.VStr "abc"))
  /\ fst (loadAndPopulateApiTypes w)
     = Throw (Error "types.forEach is not a function")
  /\ Excel.findSheet API_TYPES_SHEET_NAME
       (worksheets (snd (loadAndPopulateApiTypes w))) = None.
Proof.
  intros w. split; [|split]; try reflexivity.
  eexists. split; reflexivity.
Qed.

End FailingCategory.

(* ================================================================== *)
(** ** Further properties of the sources *)
(* ================================================================== *)

(** *** Timestamps are read back as written *)

Section TimestampRoundTrip.
Import MetadataUtils.

Lemma digits_uint (d : Decimal.uint) (acc : Z) :
  JS.digits 10 (NilEmpty.string_of_uint d) (Some acc)
  = Some (uintValue d acc).
Proof.
  revert acc. induction d; intros acc; cbn [NilEmpty.string_of_uint uintValue];
    [reflexivity|..];
    cbn [JS.digits]; cbv [JS.digitValue]; cbn; apply IHd.
Qed.

Lemma uintValue_acc (d : Decimal.uint) (p : positive) :
  uintValue d (Z.pos p) = Z.pos (Pos.of_uint_acc d p).
Proof.
  revert p. induction d; intros p; cbn [uintValue Pos.of_uint_acc];
    [reflexivity|..];
    rewrite <- IHd; f_equal; lia.
Qed.

Lemma uintValue_of_uint (d : Decimal.uint) :
  uintValue d 0 = Z.of_N (Pos.of_uint d).
Proof.
  induction d; cbn [uintValue Pos.of_uint]; [reflexivity | exact IHd |..];
    cbn [Z.mul Z.add Z.of_N]; apply uintValue_acc.
Qed.

Lemma trimStart_nonspace (c : ascii) (r : string) :
  JS.isWhiteSpace c = false -> JS.trimStart (String c r) = String c r.
Proof. intros H. cbn [JS.trimStart]. now rewrite H. Qed.

Lemma digits_step (c : ascii) (r : string) (acc : option Z) (k : Z) :
  JS.digitValue 10 c = Some k ->
  JS.digits 10 (String c r) acc
  = JS.digits 10 r
      (Some (match acc with Some a => a * 10 + k | None => k end)%Z).
Proof. intros H. cbn [JS.digits]. now rewrite H. Qed.

(** [parseInt] reads a run of decimal digits as its value, with or
    without a minus sign. *)
Lemma parseInt_decimal_digits (d : Decimal.uint) :
  d <> Decimal.Nil ->
  JS.parseIntString (NilEmpty.string_of_uint d) = JS.Int (uintValue d 0)
  /\ JS.parseIntString (String "-" (NilEmpty.string_of_uint d))
     = JS.Int (- uintValue d 0).
Proof.
  intros Hd. destruct d as [|d|d|d|d|d|d|d|d|d|d]; [contradiction|..];
    try (destruct d as [|d|d|d|d|d|d|d|d|d|d]);
    unfold JS.parseIntString;
    cbn [NilEmpty.string_of_uint];
    rewrite !trimStart_nonspace by reflexivity;
    lazy beta iota zeta;
    repeat (erewrite digits_step by reflexivity);
    rewrite ?digits_uint; split; reflexivity.
Qed.

(** [parseInt(String(z))] is [z]. *)
Lemma parseInt_stringOfZ (z : Z) :
  JS.parseIntString (JS.stringOfZ z) = JS.Int z.
Proof.
  destruct z as [|p|p]; [reflexivity|..]; unfold JS.stringOfZ;
    cbn [Z.to_int NilZero.string_of_int];
    pose proof (DecimalPos.Unsigned.to_uint_nonnil p) as Hn;
    pose proof (DecimalPos.Unsigned.of_to p) as Hp;
    pose proof (uintValue_of_uint (Pos.to_uint p)) as Hv;
    rewrite Hp in Hv; cbn [Z.of_N] in Hv;
    unfold NilZero.string_of_uint;
    destruct (Pos.to_uint p) eqn:E; try contradiction;
    rewrite <- E in *;
    destruct (parseInt_decimal_digits (Pos.to_uint p) Hn) as [H1 H2];
    rewrite E in H1, H2 |- *; cbn [NilEmpty.string_of_uint] in *;
    rewrite ?H1, ?H2, <- ?E, Hv; reflexivity.
Qed.

Lemma parseInt_stringOfNumber (t : JS.number) :
  JS.parseIntString (JS.stringOfNumber t) = t.
Proof. destruct t as [|z]; [reflexivity | apply parseInt_stringOfZ]. Qed.

Lemma findSheet_name (n : string) (ws : list Excel.Worksheet)
  (s : Excel.Worksheet) :
  Excel.findSheet n ws = Some s -> Excel.name s = n.
Proof.
  unfold Excel.findSheet. intros H. apply find_some in H.
  now apply String.eqb_eq.
Qed.

Lemma findSheet_setCells_eq (n : string) (g : Excel.Grid)
  (ws : list Excel.Worksheet) (s : Excel.Worksheet) :
  Excel.findSheet n ws = Some s ->
  Excel.findSheet n (Excel.setCells n g ws)
  = Some (Excel.mkWorksheet (Excel.name s) (Excel.hidden s) g).
Proof.
  unfold Excel.findSheet.
  induction ws as [|x r IH]; cbn [find Excel.setCells]; [discriminate|].
  destruct (Excel.name x =? n) eqn:E.
  - intros H. injection H as <-. cbn [find Excel.name]. now rewrite E.
  - intros H. cbn [find]. rewrite E. now apply IH.
Qed.

(** Setting the cells of one sheet leaves the sheets of other names. *)
Lemma findSheet_setCells_other (n m : string) (g : Excel.Grid)
  (ws : list Excel.Worksheet) :
  n <> m ->
  Excel.findSheet n (Excel.setCells m g ws) = Excel.findSheet n ws.
Proof.
  intros Hnm. unfold Excel.findSheet.
  induction ws as [|x r IH]; cbn [find Excel.setCells]; [reflexivity|].
  destruct (Excel.name x =? m) eqn:E.
  - cbn [find Excel.name]. apply String.eqb_eq in E.
    assert (Hx : (Excel.name x =? n) = false)
      by (apply String.eqb_neq; congruence).
    now rewrite Hx.
  - cbn [find]. destruct (Excel.name x =? n); [reflexivity | exact IH].
Qed.

Lemma nth_tl {A} (l : list A) (i : nat) (d : A) :
  nth i (tl l) d = nth (S i) l d.
Proof. destruct l; [destruct i|]; reflexivity. Qed.

Lemma nth_skipn_from {A} (n : nat) (l : list A) (i : nat) (d : A) :
  nth i (skipn n l) d = nth (n + i) l d.
Proof.
  revert l. induction n as [|n IH]; intros l; [reflexivity|].
  destruct l as [|x l]; cbn [skipn Nat.add nth]; [destruct i; reflexivity|].
  apply IH.
Qed.

(** The metadata row overwrites the first two cells of row 0 only. *)
Lemma cellAt_metadata (a b : Excel.cell) (g : Excel.Grid) (r c : nat) :
  Excel.cellAt (Excel.writeBlock 0 0 [[a; b]] g) r c
  = match r, c with
    | 0, 0 => a
    | 0, 1 => b
    | _, _ => Excel.cellAt g r c
    end.
Proof.
  unfold Excel.cellAt.
  cbn [Excel.writeBlock Excel.overlayRows Excel.overlay List.length].
  destruct r as [|r].
  - cbn [nth]. destruct c as [|[|c]]; [reflexivity | reflexivity |].
    cbn [app nth]. rewrite nth_skipn_from.
    destruct g; [destruct c|]; reflexivity.
  - cbn [nth]. now rewrite nth_tl.
Qed.

(** X1.  On a sheet that exists, [setSheetMetadata] returns, changes
    only the first two cells of row 0 of that sheet, and a following
    [getSheetMetadata] returns the timestamp that was written, when that
    timestamp is a safe integer (at most [2^53 - 1] in absolute value)
    or [NaN]. *)
Theorem metadata_round_trip (sheetName : string) (t : JS.number) (w : World) :
  isSafeNumber t ->
  sheetPresent sheetName w ->
  exists w1 before after,
    setSheetMetadata sheetName (mkSheetMetadata t) w = (Return tt, w1)
    /\ fst (getSheetMetadata sheetName w1)
       = Return (Some (mkSheetMetadata t))
    /\ Excel.findSheet sheetName (worksheets w) = Some before
    /\ Excel.findSheet sheetName (worksheets w1) = Some after
    /\ (forall r c, (r <> 0 \/ 2 <= c) ->
          Excel.cellAt (Excel.cells after) r c
          = Excel.cellAt (Excel.cells before) r c)
    /\ (forall other, other <> sheetName ->
          Excel.findSheet other (worksheets w1)
          = Excel.findSheet other (worksheets w)).
Proof.
  unfold sheetPresent. intros _ Hp.
  destruct (Excel.findSheet sheetName (worksheets w)) as [before|] eqn:Hf;
    [|contradiction].
  eexists. exists before. eexists.
  split; [|split; [|split; [|split; [|split]]]].
  - unfold setSheetMetadata, bind, ask, emit, modify. rewrite Hf. reflexivity.
  - unfold getSheetMetadata, bind, ask, emit.
    cbn [worksheets addEvent setWorksheets fst snd].
    rewrite (findSheet_setCells_eq _ _ _ _ Hf).
    cbn [Excel.cells]. rewrite !cellAt_metadata.
    cbn [isMetadataMarker negb String.eqb Ascii.eqb Bool.eqb timestamp
         Excel.cellToString ret fst].
    now rewrite parseInt_stringOfNumber.
  - reflexivity.
  - cbn [worksheets addEvent setWorksheets].
    apply (findSheet_setCells_eq _ _ _ _ Hf).
  - intros r c Hrc. cbn [Excel.cells]. rewrite cellAt_metadata.
    destruct r as [|r]; [|reflexivity].
    destruct c as [|[|c]]; [lia | lia | reflexivity].
  - intros other Ho. cbn [worksheets addEvent setWorksheets].
    now apply findSheet_setCells_other.
Qed.

Lemma metadata_round_trip_witness :
  isSafeNumber (JS.Int 1700000123456)
  /\ exists w1 before after,
    setSheetMetadata "API_Area_Data" (mkSheetMetadata (JS.Int 1700000123456))
      (Examples.workbook [Examples.areaSheet Examples.testRows] 0)
    = (Return tt, w1)
    /\ fst (getSheetMetadata "API_Area_Data" w1)
       = Return (Some (mkSheetMetadata (JS.Int 1700000123456)))
    /\ Excel.findSheet "API_Area_Data"
         (worksheets (Examples.workbook
                        [Examples.areaSheet Examples.testRows] 0))
       = Some before
    /\ Excel.findSheet "API_Area_Data" (worksheets w1) = Some after
    /\ (forall r c, (r <> 0 \/ 2 <= c) ->
          Excel.cellAt (Excel.cells after) r c
          = Excel.cellAt (Excel.cells before) r c)
    /\ (forall other, other <> "API_Area_Data" ->
          Excel.findSheet other (worksheets w1)
          = Excel.findSheet other
              (worksheets (Examples.workbook
                             [Examples.areaSheet Examples.testRows] 0))).
Proof.
  assert (Hs : isSafeNumber (JS.Int 1700000123456))
    by (unfold isSafeNumber; lia).
  split; [exact Hs|].
  apply (metadata_round_trip "API_Area_Data" (JS.Int 1700000123456)
           (Examples.workbook [Examples.areaSheet Examples.testRows] 0) Hs).
  unfold sheetPresent. cbn. discriminate.
Defined.

End TimestampRoundTrip.

(** *** Refreshing by age and on login *)

Section Refreshing.
Import MetadataUtils AreaLoader ApiTypesLoader.

(** X2.  Neither refresh creates a sheet: when the sheet does not exist,
    both return [false] after listing the sheets, and the function that
    would recreate it is not run. *)
Theorem refresh_skips_absent_sheet (sheetName : string) (recreate : M unit)
  (w : World) :
  Excel.findSheet sheetName (worksheets w) = None ->
  refreshSheetIfStale sheetName recreate w
    = (Return false, addEvent SheetsListed w)
  /\ refreshSheetOnLogin sheetName recreate w
    = (Return false, addEvent SheetsListed w).
Proof.
  intros H. unfold refreshSheetIfStale, refreshSheetOnLogin, bind.
  rewrite sheetExists_run, H. split; reflexivity.
Qed.

Lemma refresh_skips_absent_sheet_witness :
  refreshSheetIfStale "API_Area_Data" loadAndPopulateAreaData
      (Examples.workbook [] 1700000000000)
    = (Return false, addEvent SheetsListed (Examples.workbook [] 1700000000000))
  /\ refreshSheetOnLogin "API_Area_Data" loadAndPopulateAreaData
      (Examples.workbook [] 1700000000000)
    = (Return false,
       addEvent SheetsListed (Examples.workbook [] 1700000000000)).
Proof.
  apply (refresh_skips_absent_sheet "API_Area_Data" loadAndPopulateAreaData
           (Examples.workbook [] 1700000000000)).
  reflexivity.
Defined.

Lemma carriesTimestamp_addEvent (e : Event) (w : World) (n : string) (ts : Z) :
  carriesTimestamp w n ts -> carriesTimestamp (addEvent e w) n ts.
Proof. intros [sheet H]. exists sheet. exact H. Qed.

(** X3.  On a sheet that carries a timestamp, [refreshSheetIfStale]
    looks at the age only: up to [REFRESH_INTERVAL_MS] it returns
    [false] and neither deletes nor recreates; beyond it, it deletes the
    sheet, runs the recreation and returns [true] (or throws what the
    recreation throws). *)
Theorem refreshSheetIfStale_by_age (sheetName : string) (recreate : M unit)
  (w : World) (writtenAt : Z) :
  carriesTimestamp w sheetName writtenAt ->
  ((now w - writtenAt <= REFRESH_INTERVAL_MS)%Z ->
   refreshSheetIfStale sheetName recreate w
   = (Return false,
      addEvent (SheetRead sheetName) (addEvent SheetsListed w)))
  /\ ((now w - writtenAt > REFRESH_INTERVAL_MS)%Z ->
      refreshSheetIfStale sheetName recreate w
      = (deleteSheetIfExists sheetName ;; recreate ;; ret true)
          (addEvent (SheetRead sheetName) (addEvent SheetsListed w))).
Proof.
  intros Hc.
  assert (Hstale : isSheetDataStale sheetName (addEvent SheetsListed w)
                   = (Return (REFRESH_INTERVAL_MS <? now w - writtenAt)%Z,
                      addEvent (SheetRead sheetName)
                               (addEvent SheetsListed w))).
  { destruct Hc as [sheet [Hf [Hm Hp]]].
    unfold isSheetDataStale, tryCatch, bind.
    rewrite (getSheetMetadata_marker (addEvent SheetsListed w) sheetName
               sheet Hf Hm), Hp.
    reflexivity. }
  destruct Hc as [sheet [Hf _]].
  split; intros Hage.
  - assert (E : (REFRESH_INTERVAL_MS <? now w - writtenAt)%Z = false)
      by (apply Z.ltb_ge; lia).
    rewrite E in Hstale.
    unfold refreshSheetIfStale. unfold bind at 1. rewrite sheetExists_run, Hf.
    cbn [negb]. unfold bind at 1. rewrite Hstale. reflexivity.
  - assert (E : (REFRESH_INTERVAL_MS <? now w - writtenAt)%Z = true)
      by (apply Z.ltb_lt; lia).
    rewrite E in Hstale.
    unfold refreshSheetIfStale. unfold bind at 1. rewrite sheetExists_run, Hf.
    cbn [negb]. unfold bind at 1. rewrite Hstale. reflexivity.
Qed.

Lemma refreshSheetIfStale_by_age_witness :
  let w := Examples.withRemote Examples.noTypes Examples.mobileRejected
             [Examples.areaSheet Examples.testRows]
             (1700000000000 + 172800000) in
  refreshSheetIfStale "API_Area_Data" loadAndPopulateAreaData w
  = (Return false,
     addEvent (SheetRead "API_Area_Data") (addEvent SheetsListed w)).
Proof.
  intros w.
  apply (proj1 (refreshSheetIfStale_by_age "API_Area_Data"
                  loadAndPopulateAreaData w 1700000000000
                  ltac:(exists (Examples.areaSheet Examples.testRows);
                        repeat split; reflexivity))).
  unfold REFRESH_INTERVAL_MS. cbn. lia.
Defined.

Lemma loadAndPopulateAreaData_counts (w : World) :
  populations (snd (loadAndPopulateAreaData w)) = populations w + 1.
Proof.
  unfold loadAndPopulateAreaData.
  unfold bind at 1. unfold emit at 1.
  match goal with
  | |- populations (snd (?c ?w1)) = _ =>
      assert (H : preserves populations c)
  end.
  { apply preserves_tryCatch; [|intros e; apply preserves_throw].
    apply preserves_bind; [apply fetchAllAreaData_pops|].
    intros m. apply writeAreaDataToSheet_pops. }
  rewrite H. apply populations_Populate.
Qed.

Lemma loadAndPopulateApiTypes_counts (w : World) :
  populations (snd (loadAndPopulateApiTypes w)) = populations w + 1.
Proof.
  unfold loadAndPopulateApiTypes.
  unfold bind at 1. unfold emit at 1.
  match goal with
  | |- populations (snd (?c ?w1)) = _ =>
      assert (H : preserves populations c)
  end.
  { apply preserves_tryCatch; [|intros e; apply preserves_throw].
    apply preserves_bind; [apply fetchAllApiTypes_pops|].
    intros m. apply writeApiTypesToSheet_pops. }
  rewrite H. apply populations_Populate.
Qed.

Lemma refreshSheetOnLogin_present (sheetName : string) (recreate : M unit)
  (w : World) :
  sheetPresent sheetName w ->
  refreshSheetOnLogin sheetName recreate w
  = (deleteSheetIfExists sheetName ;; recreate ;; ret true)
      (addEvent SheetsListed w).
Proof.
  unfold sheetPresent. intros H. unfold refreshSheetOnLogin.
  unfold bind at 1. rewrite sheetExists_run.
  destruct (Excel.findSheet sheetName (worksheets w)); [|contradiction].
  reflexivity.
Qed.

Lemma deleteSheetIfExists_returns (sheetName : string) (w : World) :
  fst (deleteSheetIfExists sheetName w) = Return tt.
Proof.
  unfold deleteSheetIfExists, tryCatch, bind, emit, ask, modify.
  cbn [worksheets addEvent].
  destruct (Excel.findSheet sheetName (worksheets w)); reflexivity.
Qed.

(** X4.  The login refresh does not look at the age: on a sheet that
    exists it deletes the sheet and runs the recreation, whatever the
    clock and the timestamp are; with the population routines of the two
    hidden sheets this is exactly one population, and the answer is
    never [false]. *)
Theorem login_refresh_ignores_age (w : World) :
  (forall sheetName recreate,
     sheetPresent sheetName w ->
     refreshSheetOnLogin sheetName recreate w
     = (deleteSheetIfExists sheetName ;; recreate ;; ret true)
         (addEvent SheetsListed w))
  /\ (sheetPresent AREA_DATA_SHEET_NAME w ->
      populations
        (snd (refreshSheetOnLogin AREA_DATA_SHEET_NAME
                loadAndPopulateAreaData w))
      = populations w + 1
      /\ fst (refreshSheetOnLogin AREA_DATA_SHEET_NAME
                loadAndPopulateAreaData w) <> Return false)
  /\ (sheetPresent API_TYPES_SHEET_NAME w ->
      populations
        (snd (refreshSheetOnLogin API_TYPES_SHEET_NAME
                loadAndPopulateApiTypes w))
      = populations w + 1
      /\ fst (refreshSheetOnLogin API_TYPES_SHEET_NAME
                loadAndPopulateApiTypes w) <> Return false).
Proof.
  assert (Hgen : forall sheetName recreate,
            (forall w0, populations (snd (recreate w0)) = populations w0 + 1) ->
            sheetPresent sheetName w ->
            populations (snd (refreshSheetOnLogin sheetName recreate w))
            = populations w + 1
            /\ fst (refreshSheetOnLogin sheetName recreate w) <> Return false).
  { intros sheetName recreate Hr Hp.
    rewrite (refreshSheetOnLogin_present _ _ _ Hp).
    unfold bind.
    pose proof (deleteSheetIfExists_frame populations sheetName
                  populations_addEvent ltac:(reflexivity)
                  (addEvent SheetsListed w)) as Hd.
    pose proof (deleteSheetIfExists_returns sheetName
                  (addEvent SheetsListed w)) as Hret.
    destruct (deleteSheetIfExists sheetName (addEvent SheetsListed w))
      as [r w1]. cbn [fst snd] in *. subst r.
    rewrite populations_addEvent in Hd by reflexivity.
    specialize (Hr w1).
    destruct (recreate w1) as [[e|[]] w2]; unfold ret; cbn [fst snd] in *;
      (split; [lia | intro; discriminate]). }
  split; [|split].
  - intros. now apply refreshSheetOnLogin_present.
  - apply Hgen. apply loadAndPopulateAreaData_counts.
  - apply Hgen. apply loadAndPopulateApiTypes_counts.
Qed.

Lemma login_refresh_ignores_age_witness :
  let w := Examples.withRemote Examples.noTypes Examples.mobileRejected
             [Examples.areaSheet Examples.testRows] 1700000000000 in
  populations
    (snd (refreshSheetOnLogin AREA_DATA_SHEET_NAME loadAndPopulateAreaData w))
  = populations w + 1
  /\ fst (refreshSheetOnLogin AREA_DATA_SHEET_NAME loadAndPopulateAreaData w)
     <> Return false.
Proof.
  intros w. apply (proj1 (proj2 (login_refresh_ignores_age w))).
  unfold sheetPresent. cbn. discriminate.
Defined.

End Refreshing.

(** *** The hidden sheets are the only ones written *)

Section OtherSheets.
Import MetadataUtils AreaLoader ApiTypesLoader AreaHandler TypesHandler
  UnitsHandler.

Lemma untouchedOutside_refl (n : string) (w : World) : untouchedOutside n w w.
Proof. intros other _. reflexivity. Qed.

Lemma untouchedOutside_trans (n : string) (w1 w2 w3 : World) :
  untouchedOutside n w1 w2 -> untouchedOutside n w2 w3 ->
  untouchedOutside n w1 w3.
Proof.
  intros H12 H23 other Ho. rewrite (H23 other Ho). now apply H12.
Qed.

Lemma untouchedOutside_same (n : string) (w w' : World) :
  worksheets w' = worksheets w -> untouchedOutside n w w'.
Proof. intros E other _. now rewrite E. Qed.

Section Relating.
Variable R : World -> World -> Prop.
Hypothesis R_refl : forall w, R w w.
Hypothesis R_trans : forall w1 w2 w3, R w1 w2 -> R w2 w3 -> R w1 w3.

Lemma relates_ret {A} (a : A) : relates R (ret a).
Proof. intros w. apply R_refl. Qed.

Lemma relates_throw {A} (e : exn) : relates R (@throw A e).
Proof. intros w. apply R_refl. Qed.

Lemma relates_lift {A} (r : completion A) : relates R (lift r).
Proof. intros w. apply R_refl. Qed.

Lemma relates_bind {A B} (c : M A) (k : A -> M B) :
  relates R c -> (forall a, relates R (k a)) -> relates R (bind c k).
Proof.
  intros Hc Hk w. unfold bind. specialize (Hc w).
  destruct (c w) as [[e|a] w1]; cbn [snd] in *; [exact Hc|].
  eapply R_trans; [exact Hc|apply Hk].
Qed.

Lemma relates_bind_at {A B} (c : M A) (k : A -> M B) (w : World) :
  R w (snd (c w)) -> (forall a, relates R (k a)) -> R w (snd (bind c k w)).
Proof.
  intros Hc Hk. unfold bind.
  destruct (c w) as [[e|a] w1]; cbn [snd] in *; [exact Hc|].
  eapply R_trans; [exact Hc|apply Hk].
Qed.

(** A value read from the world may be used in what follows. *)
Lemma relates_ask_bind {A B} (f : World -> A) (k : A -> M B) :
  (forall w, R w (snd (k (f w) w))) -> relates R (bind (ask f) k).
Proof. intros H w. unfold bind, ask. apply H. Qed.

Lemma relates_tryCatch {A} (c : M A) (h : exn -> M A) :
  relates R c -> (forall e, relates R (h e)) -> relates R (tryCatch c h).
Proof.
  intros Hc Hh w. unfold tryCatch. specialize (Hc w).
  destruct (c w) as [[e|a] w1]; cbn [snd] in *; [|exact Hc].
  eapply R_trans; [exact Hc|apply Hh].
Qed.

End Relating.

Lemma relates_preserves {A} (n : string) (c : M A) :
  preserves worksheets c -> relates (untouchedOutside n) c.
Proof. intros H w. apply untouchedOutside_same, H. Qed.

Lemma findSheet_removeSheet_other (n m : string) (ws : list Excel.Worksheet) :
  n <> m ->
  Excel.findSheet n (Excel.removeSheet m ws) = Excel.findSheet n ws.
Proof.
  intros Hnm. unfold Excel.findSheet.
  induction ws as [|x r IH]; cbn [find Excel.removeSheet]; [reflexivity|].
  destruct (Excel.name x =? m) eqn:E.
  - apply String.eqb_eq in E.
    destruct (Excel.name x =? n) eqn:E'; [|reflexivity].
    apply String.eqb_eq in E'. congruence.
  - cbn [find]. destruct (Excel.name x =? n); [reflexivity|exact IH].
Qed.

Lemma findSheet_added_other (n m : string) (h : bool) (g : Excel.Grid)
  (ws : list Excel.Worksheet) :
  n <> m ->
  Excel.findSheet n (ws ++ [Excel.mkWorksheet m h g])%list
  = Excel.findSheet n ws.
Proof.
  intros Hnm. unfold Excel.findSheet.
  induction ws as [|x r IH]; cbn [find app Excel.name].
  - destruct (m =? n) eqn:E; [|reflexivity].
    apply String.eqb_eq in E. congruence.
  - destruct (Excel.name x =? n); [reflexivity|exact IH].
Qed.

Lemma addHiddenSheet_outside (n : string) (g : Excel.Grid) :
  relates (untouchedOutside n) (addHiddenSheet n g).
Proof.
  intros w other Ho. unfold addHiddenSheet, bind, ask, emit, modify, throw.
  destruct (Excel.findSheet n (worksheets w)); [reflexivity|].
  cbn [snd worksheets setWorksheets addEvent].
  now apply findSheet_added_other.
Qed.

Lemma setSheetMetadata_outside (n : string) (m : SheetMetadata) :
  relates (untouchedOutside n) (setSheetMetadata n m).
Proof.
  intros w other Ho. unfold setSheetMetadata, bind, ask, emit, modify, throw.
  destruct (Excel.findSheet n (worksheets w)) as [sheet|]; [|reflexivity].
  cbn [snd worksheets setWorksheets addEvent].
  now apply findSheet_setCells_other.
Qed.

Lemma deleteSheetIfExists_outside (n : string) :
  relates (untouchedOutside n) (deleteSheetIfExists n).
Proof.
  intros w other Ho.
  unfold deleteSheetIfExists, tryCatch, bind, ask, emit, modify, ret.
  cbn [worksheets addEvent].
  destruct (Excel.findSheet n (worksheets w)) as [sheet|]; [|reflexivity].
  cbn [snd worksheets setWorksheets addEvent].
  now apply findSheet_removeSheet_other.
Qed.

Ltac outside n :=
  repeat first
    [ apply addHiddenSheet_outside
    | apply setSheetMetadata_outside
    | apply deleteSheetIfExists_outside
    | apply (relates_ret _ (untouchedOutside_refl n))
    | apply (relates_throw _ (untouchedOutside_refl n))
    | apply (relates_lift _ (untouchedOutside_refl n))
    | apply (relates_ask_bind _); intros ?; cbv beta
    | apply (relates_bind _ (untouchedOutside_trans n)); [|intros ?]
    | apply (relates_bind_at _ (untouchedOutside_trans n)); [|intros ?]
    | apply (relates_tryCatch _ (untouchedOutside_trans n)); [|intros ?] ].

Lemma writeAreaDataToSheet_outside (m : list (string * list JS.value)) :
  relates (untouchedOutside AREA_DATA_SHEET_NAME) (writeAreaDataToSheet m).
Proof.
  unfold writeAreaDataToSheet.
  apply (relates_bind _ (untouchedOutside_trans _));
    [apply relates_preserves; frame|]. intros _.
  apply (relates_ask_bind _). intros w.
  apply (relates_bind_at _ (untouchedOutside_trans _)).
  - intros other Ho.
    destruct (Excel.findSheet AREA_DATA_SHEET_NAME (worksheets w));
      unfold bind, emit, modify, ret;
      cbn [snd worksheets setWorksheets addEvent]; [|reflexivity].
    now apply findSheet_removeSheet_other.
  - intros _.
    apply (relates_bind _ (untouchedOutside_trans _));
      [apply (relates_lift _ (untouchedOutside_refl _))|]. intros rows.
    destruct (Excel.toCells rows) as [block|];
      outside AREA_DATA_SHEET_NAME.
Qed.

Lemma writeApiTypesToSheet_outside (m : list (string * JS.value)) :
  relates (untouchedOutside API_TYPES_SHEET_NAME) (writeApiTypesToSheet m).
Proof.
  unfold writeApiTypesToSheet.
  apply (relates_bind _ (untouchedOutside_trans _));
    [apply relates_preserves; frame|]. intros _.
  apply (relates_ask_bind _). intros w.
  unfold bind at 1. unfold lift at 1.
  destruct (typesBlock m) as [e|block]; [apply untouchedOutside_refl|].
  destruct (Excel.toCells block) as [cells|]; [|apply untouchedOutside_refl].
  apply (relates_bind_at _ (untouchedOutside_trans _)).
  - destruct (Excel.findSheet API_TYPES_SHEET_NAME (worksheets w))
      as [sheet|].
    + intros other Ho. unfold bind, emit, modify.
      cbn [snd worksheets setWorksheets addEvent].
      now apply findSheet_setCells_other.
    + apply addHiddenSheet_outside.
  - intros _. outside API_TYPES_SHEET_NAME.
Qed.

Lemma ensureClient_worksheets : preserves worksheets Client.ensureClient.
Proof. unfold Client.ensureClient. frame. Qed.

Lemma loadAndPopulateAreaData_outside :
  relates (untouchedOutside AREA_DATA_SHEET_NAME) loadAndPopulateAreaData.
Proof.
  unfold loadAndPopulateAreaData.
  apply (relates_bind _ (untouchedOutside_trans _));
    [apply relates_preserves; frame|]. intros _.
  apply (relates_tryCatch _ (untouchedOutside_trans _));
    [|intros e; apply (relates_throw _ (untouchedOutside_refl _))].
  apply (relates_bind _ (untouchedOutside_trans _)).
  - apply relates_preserves. unfold fetchAllAreaData, fetchAreaFor. frame.
  - intros m. apply writeAreaDataToSheet_outside.
Qed.

Lemma loadAndPopulateApiTypes_outside :
  relates (untouchedOutside API_TYPES_SHEET_NAME) loadAndPopulateApiTypes.
Proof.
  unfold loadAndPopulateApiTypes.
  apply (relates_bind _ (untouchedOutside_trans _));
    [apply relates_preserves; frame|]. intros _.
  apply (relates_tryCatch _ (untouchedOutside_trans _));
    [|intros e; apply (relates_throw _ (untouchedOutside_refl _))].
  apply (relates_bind _ (untouchedOutside_trans _)).
  - apply relates_preserves.
    unfold fetchAllApiTypes, fetchTypesFor, Client.ensureClient. frame.
  - intros m. apply writeApiTypesToSheet_outside.
Qed.

Lemma sheetExists_worksheets (n : string) : preserves worksheets (sheetExists n).
Proof. intros w. rewrite sheetExists_run. reflexivity. Qed.

Lemma refreshSheetIfStale_outside (n : string) (recreate : M unit) :
  relates (untouchedOutside n) recreate ->
  relates (untouchedOutside n) (refreshSheetIfStale n recreate).
Proof.
  intros Hr. unfold refreshSheetIfStale.
  apply (relates_bind _ (untouchedOutside_trans _));
    [apply relates_preserves, sheetExists_worksheets|]. intros b.
  destruct (negb b); [apply (relates_ret _ (untouchedOutside_refl _))|].
  apply (relates_bind _ (untouchedOutside_trans _)).
  - apply relates_preserves, isSheetDataStale_frame. reflexivity.
  - intros stale. destruct stale;
      [|apply (relates_ret _ (untouchedOutside_refl _))].
    apply (relates_bind _ (untouchedOutside_trans _));
      [apply deleteSheetIfExists_outside|]. intros _.
    apply (relates_bind _ (untouchedOutside_trans _)); [exact Hr|]. intros _.
    apply (relates_ret _ (untouchedOutside_refl _)).
Qed.

Lemma refreshSheetOnLogin_outside (n : string) (recreate : M unit) :
  relates (untouchedOutside n) recreate ->
  relates (untouchedOutside n) (refreshSheetOnLogin n recreate).
Proof.
  intros Hr. unfold refreshSheetOnLogin.
  apply (relates_bind _ (untouchedOutside_trans _));
    [apply relates_preserves, sheetExists_worksheets|]. intros b.
  destruct (negb b); [apply (relates_ret _ (untouchedOutside_refl _))|].
  apply (relates_bind _ (untouchedOutside_trans _));
    [apply deleteSheetIfExists_outside|]. intros _.
  apply (relates_bind _ (untouchedOutside_trans _)); [exact Hr|]. intros _.
  apply (relates_ret _ (untouchedOutside_refl _)).
Qed.

Lemma prepareAreaData_outside (apiName : string) :
  relates (untouchedOutside AREA_DATA_SHEET_NAME) (prepareAreaData apiName).
Proof.
  unfold prepareAreaData.
  apply (relates_bind _ (untouchedOutside_trans _));
    [apply relates_preserves, ensureClient_worksheets|]. intros _.
  apply (relates_bind _ (untouchedOutside_trans _));
    [apply (relates_lift _ (untouchedOutside_refl _))|]. intros name.
  apply (relates_bind _ (untouchedOutside_trans _));
    [apply refreshSheetIfStale_outside, loadAndPopulateAreaData_outside|].
  intros _.
  apply (relates_bind _ (untouchedOutside_trans _));
    [|intros _; apply (relates_ret _ (untouchedOutside_refl _))].
  unfold ensureAreaDataSheet.
  apply (relates_bind _ (untouchedOutside_trans _)).
  - apply relates_preserves. unfold areaDataSheetExists. frame.
  - intros b. destruct (negb b);
      [apply loadAndPopulateAreaData_outside
      |apply (relates_ret _ (untouchedOutside_refl _))].
Qed.

Lemma prepareTypesData_outside (apiName : string) :
  relates (untouchedOutside API_TYPES_SHEET_NAME) (prepareTypesData apiName).
Proof.
  unfold prepareTypesData.
  apply (relates_bind _ (untouchedOutside_trans _));
    [apply relates_preserves, ensureClient_worksheets|]. intros _.
  apply (relates_bind _ (untouchedOutside_trans _));
    [apply (relates_lift _ (untouchedOutside_refl _))|]. intros name.
  apply (relates_bind _ (untouchedOutside_trans _));
    [apply refreshSheetIfStale_outside, loadAndPopulateApiTypes_outside|].
  intros _.
  apply (relates_bind _ (untouchedOutside_trans _));
    [|intros _; apply (relates_ret _ (untouchedOutside_refl _))].
  unfold ensureApiTypesSheet.
  apply (relates_bind _ (untouchedOutside_trans _)).
  - apply relates_preserves. unfold apiTypesSheetExists. frame.
  - intros b. destruct (negb b);
      [apply loadAndPopulateApiTypes_outside
      |apply (relates_ret _ (untouchedOutside_refl _))].
Qed.

Lemma attach_worksheets (address : string) (values : list JS.value)
  (title message : string) :
  preserves worksheets
    (targetCell <- getTargetCell address ;;
     applyListValidation targetCell values title message ;;
     ret "").
Proof.
  apply preserves_bind; [apply getTargetCell_frame|]. intros targetCell.
  apply preserves_bind; [apply applyListValidation_frame; reflexivity|].
  intros _. apply preserves_ret.
Qed.

Lemma areaSheetValues_worksheets : preserves worksheets areaSheetValues.
Proof. unfold areaSheetValues. frame. Qed.

(** X5.  A population writes its own hidden sheet and no other: every
    worksheet with another name is, after [loadAndPopulateAreaData] or
    [loadAndPopulateApiTypes], what it was before, whether the population
    returns or throws. *)
Theorem population_keeps_other_sheets (w : World) :
  untouchedOutside AREA_DATA_SHEET_NAME w (snd (loadAndPopulateAreaData w))
  /\ untouchedOutside API_TYPES_SHEET_NAME w
       (snd (loadAndPopulateApiTypes w)).
Proof.
  split;
    [apply loadAndPopulateAreaData_outside
    |apply loadAndPopulateApiTypes_outside].
Qed.

(** X6.  A lookup backed by a hidden sheet changes no worksheet of the
    user: COUNTRY, STATE_PROVINCE and POWER_GRID leave every sheet but
    [API_Area_Data] as it was, TYPES every sheet but [API_Types_Data],
    on every path, failing ones included. *)
Theorem lookups_keep_user_sheets (apiName address : string)
  (parameter : JS.value) (w : World) :
  untouchedOutside AREA_DATA_SHEET_NAME w
    (snd (handleCountryFunction apiName address w))
  /\ untouchedOutside AREA_DATA_SHEET_NAME w
       (snd (handleStateProvinceFunction apiName parameter address w))
  /\ untouchedOutside AREA_DATA_SHEET_NAME w
       (snd (handlePowerGridFunction apiName parameter address w))
  /\ untouchedOutside API_TYPES_SHEET_NAME w
       (snd (handleTypesFunction apiName address w)).
Proof.
  split; [|split; [|split]].
  - revert w. unfold handleCountryFunction.
    apply (relates_tryCatch _ (untouchedOutside_trans _));
      [|intros e; apply (relates_throw _ (untouchedOutside_refl _))].
    apply (relates_bind _ (untouchedOutside_trans _));
      [apply prepareAreaData_outside|]. intros name.
    apply relates_preserves. unfold getAlpha3CodesForApi.
    apply preserves_bind;
      [apply preserves_bind; [apply areaSheetValues_worksheets|];
       intros values; apply preserves_ret|].
    intros codes. destruct (List.length codes =? 0)%nat;
      [apply preserves_throw|apply attach_worksheets].
  - revert w. unfold handleStateProvinceFunction.
    apply (relates_tryCatch _ (untouchedOutside_trans _));
      [|intros e; apply (relates_throw _ (untouchedOutside_refl _))].
    destruct (missingParameter parameter);
      [apply (relates_throw _ (untouchedOutside_refl _))|].
    apply (relates_bind _ (untouchedOutside_trans _));
      [apply prepareAreaData_outside|]. intros name.
    apply relates_preserves. unfold getAreaDataForCountry.
    apply preserves_bind;
      [apply preserves_bind; [apply areaSheetValues_worksheets|];
       intros values; apply preserves_ret|].
    intros items. destruct (List.length items =? 0)%nat;
      [apply preserves_throw|apply attach_worksheets].
  - revert w. unfold handlePowerGridFunction.
    apply (relates_tryCatch _ (untouchedOutside_trans _));
      [|intros e; apply (relates_throw _ (untouchedOutside_refl _))].
    destruct (missingParameter parameter);
      [apply (relates_throw _ (untouchedOutside_refl _))|].
    apply (relates_bind _ (untouchedOutside_trans _));
      [apply prepareAreaData_outside|]. intros name.
    apply relates_preserves. unfold getAreaDataForCountry.
    apply preserves_bind;
      [apply preserves_bind; [apply areaSheetValues_worksheets|];
       intros values; apply preserves_ret|].
    intros items. destruct (List.length items =? 0)%nat;
      [apply preserves_throw|apply attach_worksheets].
  - revert w. unfold handleTypesFunction.
    apply (relates_tryCatch _ (untouchedOutside_trans _));
      [|intros e; apply (relates_throw _ (untouchedOutside_refl _))].
    apply (relates_bind _ (untouchedOutside_trans _));
      [apply prepareTypesData_outside|]. intros name.
    apply relates_preserves.
    apply preserves_bind; [|intros _; apply preserves_ret].
    unfold applyDataValidation.
    destruct (lookup name API_COLUMN_MAP) as [columnIndex|];
      [|apply preserves_throw].
    apply preserves_bind; [apply preserves_emit; reflexivity|]. intros _.
    apply preserves_bind; [apply preserves_ask|]. intros ws.
    destruct (Excel.findSheet API_TYPES_SHEET_NAME ws) as [sheet|];
      [|apply preserves_throw].
    apply preserves_bind; [apply preserves_lift|]. intros values.
    apply preserves_bind; [apply getTargetCell_frame|]. intros targetCell.
    apply applyListValidation_frame. reflexivity.
Qed.

End OtherSheets.

(** *** Signing in and out *)

Section Session.
Import MetadataUtils AreaLoader ApiTypesLoader AreaHandler TypesHandler
  UnitsHandler Taskpane.

Lemma refreshSheetOnLogin_once (n : string) (recreate : M unit) :
  atMost 1 recreate -> atMost 1 (refreshSheetOnLogin n recreate).
Proof.
  intros Hr. unfold refreshSheetOnLogin.
  apply (atMost_bind 0 1).
  - apply atMost_preserves. intros w. rewrite sheetExists_run.
    apply populations_addEvent. reflexivity.
  - intros b. destruct (negb b);
      [apply (atMost_le 0); [lia|apply atMost_preserves, preserves_ret]|].
    apply (atMost_bind 0 1).
    + apply atMost_preserves, deleteSheetIfExists_frame;
        [apply populations_addEvent|reflexivity].
    + intros _. apply (atMost_bind 1 0); [exact Hr|].
      intros _. apply atMost_preserves, preserves_ret.
Qed.

Lemma refreshSheetOnLogin_throws (n : string) (recreate : M unit) (e : exn)
  (w : World) :
  (forall w0, populations (snd (recreate w0)) = populations w0 + 1) ->
  fst (refreshSheetOnLogin n recreate w) = Throw e ->
  populations (snd (refreshSheetOnLogin n recreate w)) = populations w + 1.
Proof.
  intros Hr H. unfold refreshSheetOnLogin, bind in *.
  rewrite sheetExists_run in *.
  destruct (Excel.findSheet n (worksheets w)) as [sheet|];
    cbn [negb fst snd ret] in *; [|discriminate]. clear H.
  pose proof (deleteSheetIfExists_frame populations n
                populations_addEvent ltac:(reflexivity)
                (addEvent SheetsListed w)) as Hd.
  pose proof (deleteSheetIfExists_returns n (addEvent SheetsListed w)) as Hret.
  destruct (deleteSheetIfExists n (addEvent SheetsListed w)) as [r w1].
  cbn [fst snd] in *. subst r.
  rewrite populations_addEvent in Hd by reflexivity.
  specialize (Hr w1).
  destruct (recreate w1) as [[e'|[]] w2]; cbn [fst snd ret] in *; lia.
Qed.

(** X7.  [postLogin] never throws: an error of either refresh is
    dropped.  It enters at most two populations, and every worksheet
    other than the two hidden ones is afterwards what it was. *)
Theorem postLogin_never_throws (w : World) :
  fst (postLogin w) = Return tt
  /\ populations (snd (postLogin w)) <= populations w + 2
  /\ (forall other,
        other <> API_TYPES_SHEET_NAME -> other <> AREA_DATA_SHEET_NAME ->
        Excel.findSheet other (worksheets (snd (postLogin w)))
        = Excel.findSheet other (worksheets w)).
Proof.
  unfold postLogin, tryCatch, bind, ret.
  pose proof (refreshSheetOnLogin_once API_TYPES_SHEET_NAME
                loadAndPopulateApiTypes loadAndPopulateApiTypes_once w) as P1.
  pose proof (refreshSheetOnLogin_outside API_TYPES_SHEET_NAME
                loadAndPopulateApiTypes loadAndPopulateApiTypes_outside w)
    as O1.
  change "API_Types_Data" with API_TYPES_SHEET_NAME.
  change "API_Area_Data" with AREA_DATA_SHEET_NAME.
  destruct (refreshSheetOnLogin API_TYPES_SHEET_NAME loadAndPopulateApiTypes w)
    as [[e|b] w1]; cbn [fst snd] in *.
  - split; [reflexivity|]. split; [lia|].
    intros other Ht _. now apply O1.
  - pose proof (refreshSheetOnLogin_once AREA_DATA_SHEET_NAME
                  loadAndPopulateAreaData loadAndPopulateAreaData_once w1)
      as P2.
    pose proof (refreshSheetOnLogin_outside AREA_DATA_SHEET_NAME
                  loadAndPopulateAreaData loadAndPopulateAreaData_outside w1)
      as O2.
    destruct (refreshSheetOnLogin AREA_DATA_SHEET_NAME
                loadAndPopulateAreaData w1)
      as [[e|b'] w2]; cbn [fst snd] in *;
      (split; [reflexivity|]; split; [lia|];
       intros other Ht Ha; rewrite (O2 other Ha); now apply O1).
Qed.

Lemma postLogin_never_throws_witness :
  let w := Examples.signedOut [Examples.areaSheet Examples.testRows]
             1700000000000 in
  Excel.findSheet "Sheet1" (worksheets (snd (postLogin w)))
  = Excel.findSheet "Sheet1" (worksheets w).
Proof.
  intros w.
  apply (proj2 (proj2 (postLogin_never_throws w)) "Sheet1");
    intros H; discriminate H.
Defined.

(** X8.  The two refreshes of [postLogin] share one [try]: when the
    refresh of [API_Types_Data] throws, the refresh of [API_Area_Data] is
    not attempted.  [postLogin] then ends in the world the failed
    refresh left, with one population entered and the area sheet as it
    was. *)
Theorem postLogin_stops_at_first_failure (w : World) (e : exn) :
  fst (refreshSheetOnLogin API_TYPES_SHEET_NAME loadAndPopulateApiTypes w)
  = Throw e ->
  postLogin w
  = (Return tt,
     snd (refreshSheetOnLogin API_TYPES_SHEET_NAME loadAndPopulateApiTypes w))
  /\ populations (snd (postLogin w)) = populations w + 1
  /\ Excel.findSheet AREA_DATA_SHEET_NAME (worksheets (snd (postLogin w)))
     = Excel.findSheet AREA_DATA_SHEET_NAME (worksheets w).
Proof.
  intros H.
  assert (E : postLogin w
              = (Return tt,
                 snd (refreshSheetOnLogin API_TYPES_SHEET_NAME
                        loadAndPopulateApiTypes w))).
  { unfold postLogin, tryCatch. unfold bind at 1.
    change "API_Types_Data" with API_TYPES_SHEET_NAME.
    destruct (refreshSheetOnLogin API_TYPES_SHEET_NAME
                loadAndPopulateApiTypes w) as [[e'|b] w1];
      cbn [fst snd] in *; [reflexivity|discriminate]. }
  rewrite E. cbn [snd]. split; [reflexivity|]. split.
  - apply (refreshSheetOnLogin_throws _ _ e);
      [apply loadAndPopulateApiTypes_counts|exact H].
  - apply (refreshSheetOnLogin_outside API_TYPES_SHEET_NAME
             loadAndPopulateApiTypes loadAndPopulateApiTypes_outside w).
    discriminate.
Qed.

Lemma postLogin_stops_at_first_failure_witness :
  let w := Examples.signedOut
             [Examples.areaSheet Examples.testRows;
              Excel.mkWorksheet API_TYPES_SHEET_NAME true []]
             1700000000000 in
  populations (snd (postLogin w)) = populations w + 1
  /\ Excel.findSheet AREA_DATA_SHEET_NAME (worksheets (snd (postLogin w)))
     = Excel.findSheet AREA_DATA_SHEET_NAME (worksheets w).
Proof.
  intros w.
  apply (proj2 (postLogin_stops_at_first_failure w
                  (CustomFunctionsError notAvailable
                     "Enter your credentials in the task pane.")
                  eq_refl)).
Defined.

(** X9.  After [logout] every lookup is refused with [#N/A] and the
    request to enter credentials, the task pane is shown, and nothing
    else happens: no sheet is listed, read or written and no request is
    sent, also when the API name is not a valid one.  The blank-parameter
    check of the three lookups that take a parameter still comes first.
    The hidden sheets survive [logout]. *)
Theorem lookups_refused_after_logout (apiName address : string)
  (parameter : JS.value) (w : World) :
  let w1 := snd (logout w) in
  let refused :=
    (Throw (CustomFunctionsError notAvailable
              "Enter your credentials in the task pane."),
     addEvent TaskpaneShown w1) in
  fst (logout w) = Return tt
  /\ worksheets w1 = worksheets w
  /\ trace w1 = trace w
  /\ handleCountryFunction apiName address w1 = refused
  /\ handleTypesFunction apiName address w1 = refused
  /\ (missingParameter parameter = false ->
      handleStateProvinceFunction apiName parameter address w1 = refused
      /\ handlePowerGridFunction apiName parameter address w1 = refused
      /\ handleUnitsFunction apiName parameter address w1 = refused).
Proof.
  cbv zeta.
  split; [reflexivity|]. split; [reflexivity|]. split; [reflexivity|].
  split; [reflexivity|]. split; [reflexivity|].
  intros Hp.
  unfold handleStateProvinceFunction, handlePowerGridFunction,
    handleUnitsFunction.
  rewrite Hp. repeat split; reflexivity.
Qed.

Lemma lookups_refused_after_logout_witness :
  let w := Examples.workbook [Examples.areaSheet Examples.testRows]
             1700000000000 in
  handleUnitsFunction "mobile" (JS.VStr "Car") "Sheet1!A1" (snd (logout w))
  = (Throw (CustomFunctionsError notAvailable
              "Enter your credentials in the task pane."),
     addEvent TaskpaneShown (snd (logout w))).
Proof.
  intros w.
  apply (proj2 (proj2 (proj2 (proj2 (proj2
           (lookups_refused_after_logout "mobile" "Sheet1!A1"
              (JS.VStr "Car") w)))))).
  reflexivity.
Defined.

End Session.

(** *** A populated sheet is fresh *)

Section Freshness.
Import MetadataUtils AreaLoader ApiTypesLoader AreaHandler TypesHandler.

Lemma findSheet_added (n : string) (h : bool) (g : Excel.Grid)
  (ws : list Excel.Worksheet) :
  Excel.findSheet n ws = None ->
  Excel.findSheet n (ws ++ [Excel.mkWorksheet n h g])%list
  = Some (Excel.mkWorksheet n h g).
Proof.
  unfold Excel.findSheet.
  induction ws as [|x r IH]; cbn [find app Excel.name].
  - intros _. now rewrite String.eqb_refl.
  - destruct (Excel.name x =? n); [discriminate|exact IH].
Qed.

Lemma setSheetMetadata_stamps (n : string) (t : Z) (w : World)
  (sheet : Excel.Worksheet) :
  Excel.findSheet n (worksheets w) = Some sheet ->
  fst (setSheetMetadata n (mkSheetMetadata (JS.Int t)) w) = Return tt
  /\ carriesTimestamp (snd (setSheetMetadata n (mkSheetMetadata (JS.Int t)) w))
       n t.
Proof.
  intros Hf. unfold setSheetMetadata, bind, ask, emit, modify.
  rewrite Hf. cbn [fst snd]. split; [reflexivity|].
  eexists. cbn [worksheets addEvent setWorksheets].
  split; [apply (findSheet_setCells_eq _ _ _ _ Hf)|].
  cbn [Excel.cells]. rewrite !cellAt_metadata.
  split; [reflexivity|].
  cbn [Excel.cellToString timestamp]. apply parseInt_stringOfNumber.
Qed.

Lemma setSheetMetadata_throws_absent (n : string) (m : SheetMetadata)
  (w : World) :
  Excel.findSheet n (worksheets w) = None ->
  fst (setSheetMetadata n m w) <> Return tt.
Proof.
  intros Hf. unfold setSheetMetadata, bind, ask. rewrite Hf. discriminate.
Qed.

Ltac run :=
  cbv beta iota zeta;
  cbn [fst snd worksheets now addEvent setWorksheets].

Lemma writeAreaDataToSheet_stamps (m : list (string * list JS.value))
  (w : World) :
  fst (writeAreaDataToSheet m w) = Return tt ->
  carriesTimestamp (snd (writeAreaDataToSheet m w)) AREA_DATA_SHEET_NAME
    (now w).
Proof.
  unfold writeAreaDataToSheet, addHiddenSheet, bind, emit, ask, lift, modify,
    ret, throw.
  run.
  destruct (Excel.findSheet AREA_DATA_SHEET_NAME (worksheets w))
    as [sheet|] eqn:Hf; run;
    (destruct (areaRows m) as [e|rows]; run; [discriminate|]);
    (destruct (Excel.toCells rows) as [block|]; run; [|discriminate]).
  - destruct (Excel.findSheet AREA_DATA_SHEET_NAME
                (Excel.removeSheet AREA_DATA_SHEET_NAME (worksheets w)))
      as [sheet'|] eqn:Hf'; run; [discriminate|].
    intros _. refine (proj2 (setSheetMetadata_stamps _ _ _ _ _)).
    run. apply findSheet_added. exact Hf'.
  - rewrite Hf. run.
    intros _. refine (proj2 (setSheetMetadata_stamps _ _ _ _ _)).
    run. apply findSheet_added. exact Hf.
Qed.

Lemma writeApiTypesToSheet_stamps (m : list (string * JS.value)) (w : World) :
  fst (writeApiTypesToSheet m w) = Return tt ->
  carriesTimestamp (snd (writeApiTypesToSheet m w)) API_TYPES_SHEET_NAME
    (now w).
Proof.
  unfold writeApiTypesToSheet, addHiddenSheet, bind, emit, ask, lift, modify,
    ret, throw.
  run.
  destruct (typesBlock m) as [e|block]; run; [discriminate|].
  destruct (Excel.toCells block) as [cells|]; run; [|discriminate].
  destruct (Excel.findSheet API_TYPES_SHEET_NAME (worksheets w))
    as [sheet|] eqn:Hf; run.
  - intros _. refine (proj2 (setSheetMetadata_stamps _ _ _ _ _)).
    run. apply findSheet_setCells_eq. exact Hf.
  - rewrite ?Hf. run.
    intros _. refine (proj2 (setSheetMetadata_stamps _ _ _ _ _)).
    run. apply findSheet_added. exact Hf.
Qed.

Lemma fetchAllAreaData_now : preserves now fetchAllAreaData.
Proof. unfold fetchAllAreaData, fetchAreaFor. frame. Qed.

Lemma fetchAllApiTypes_now : preserves now fetchAllApiTypes.
Proof.
  unfold fetchAllApiTypes, fetchTypesFor, Client.ensureClient. frame.
Qed.

Lemma loadAndPopulateAreaData_stamps (w : World) :
  fst (loadAndPopulateAreaData w) = Return tt ->
  carriesTimestamp (snd (loadAndPopulateAreaData w)) AREA_DATA_SHEET_NAME
    (now w).
Proof.
  unfold loadAndPopulateAreaData, tryCatch, throw.
  unfold bind at 1 3. unfold emit.
  unfold bind.
  pose proof (fetchAllAreaData_now
                (addEvent (Populate AREA_DATA_SHEET_NAME) w)) as Hn.
  destruct (fetchAllAreaData (addEvent (Populate AREA_DATA_SHEET_NAME) w))
    as [[e|m] w1]; cbn [fst snd] in *; [discriminate|].
  pose proof (writeAreaDataToSheet_stamps m w1) as Hs.
  destruct (writeAreaDataToSheet m w1) as [[e|[]] w2]; cbn [fst snd] in *;
    [discriminate|].
  intros _. rewrite Hn in Hs. now apply Hs.
Qed.

Lemma loadAndPopulateApiTypes_stamps (w : World) :
  fst (loadAndPopulateApiTypes w) = Return tt ->
  carriesTimestamp (snd (loadAndPopulateApiTypes w)) API_TYPES_SHEET_NAME
    (now w).
Proof.
  unfold loadAndPopulateApiTypes, tryCatch, throw.
  unfold bind at 1 3. unfold emit.
  unfold bind.
  pose proof (fetchAllApiTypes_now
                (addEvent (Populate API_TYPES_SHEET_NAME) w)) as Hn.
  destruct (fetchAllApiTypes (addEvent (Populate API_TYPES_SHEET_NAME) w))
    as [[e|m] w1]; cbn [fst snd] in *; [discriminate|].
  pose proof (writeApiTypesToSheet_stamps m w1) as Hs.
  destruct (writeApiTypesToSheet m w1) as [[e|[]] w2]; cbn [fst snd] in *;
    [discriminate|].
  intros _. rewrite Hn in Hs. now apply Hs.
Qed.

Lemma fresh_not_stale (w : World) (n : string) (ts : Z) :
  carriesTimestamp w n ts ->
  (now w - ts <= REFRESH_INTERVAL_MS)%Z ->
  isSheetDataStale n w = (Return false, addEvent (SheetRead n) w).
Proof.
  intros [sheet [Hf [Hm Hp]]] Hage.
  assert (H : isSheetDataStale n w
              = (Return (REFRESH_INTERVAL_MS <? now w - ts)%Z,
                 addEvent (SheetRead n) w)).
  { unfold isSheetDataStale, tryCatch, bind.
    rewrite (getSheetMetadata_marker w n sheet Hf Hm), Hp. reflexivity. }
  rewrite H. rewrite (proj2 (Z.ltb_ge _ _)) by lia. reflexivity.
Qed.

(** X10.  A population that returns leaves its sheet with the time of
    the population as timestamp, so the staleness check answers [false]
    at every later time up to [REFRESH_INTERVAL_MS] after it. *)
Theorem populated_sheet_is_fresh (w : World) (later : Z) :
  (later - now w <= REFRESH_INTERVAL_MS)%Z ->
  (fst (loadAndPopulateAreaData w) = Return tt ->
   carriesTimestamp (snd (loadAndPopulateAreaData w)) AREA_DATA_SHEET_NAME
     (now w)
   /\ fst (isSheetDataStale AREA_DATA_SHEET_NAME
             (atTime later (snd (loadAndPopulateAreaData w))))
      = Return false)
  /\ (fst (loadAndPopulateApiTypes w) = Return tt ->
      carriesTimestamp (snd (loadAndPopulateApiTypes w)) API_TYPES_SHEET_NAME
        (now w)
      /\ fst (isSheetDataStale API_TYPES_SHEET_NAME
                (atTime later (snd (loadAndPopulateApiTypes w))))
         = Return false).
Proof.
  intros Hage.
  assert (Hgen : forall n w', carriesTimestamp w' n (now w) ->
            fst (isSheetDataStale n (atTime later w')) = Return false).
  { intros n w' Hc.
    rewrite (fresh_not_stale (atTime later w') n (now w));
      [reflexivity| |exact Hage].
    destruct Hc as [sheet H]. exists sheet. exact H. }
  split; intros Hr.
  - pose proof (loadAndPopulateAreaData_stamps w Hr) as Hc.
    split; [exact Hc|now apply Hgen].
  - pose proof (loadAndPopulateApiTypes_stamps w Hr) as Hc.
    split; [exact Hc|now apply Hgen].
Qed.

Lemma populated_sheet_is_fresh_witness :
  let w := Examples.withRemote Examples.noTypes Examples.mobileRejected
             [] 1700000000000 in
  carriesTimestamp (snd (loadAndPopulateAreaData w)) AREA_DATA_SHEET_NAME
    (now w)
  /\ fst (isSheetDataStale AREA_DATA_SHEET_NAME
            (atTime (1700000000000 + 172800000)
               (snd (loadAndPopulateAreaData w))))
     = Return false.
Proof.
  intros w.
  apply (proj1 (populated_sheet_is_fresh w (1700000000000 + 172800000)
                  ltac:(vm_compute; discriminate))).
  reflexivity.
Defined.

Lemma carriesTimestamp_worksheets (w w' : World) (n : string) (ts : Z) :
  worksheets w' = worksheets w ->
  carriesTimestamp w n ts -> carriesTimestamp w' n ts.
Proof.
  intros E [sheet H]. exists sheet. now rewrite E.
Qed.

Lemma refreshSheetIfStale_fresh (n : string) (recreate : M unit) (w : World)
  (ts : Z) :
  carriesTimestamp w n ts ->
  (now w - ts <= REFRESH_INTERVAL_MS)%Z ->
  refreshSheetIfStale n recreate w
  = (Return false, addEvent (SheetRead n) (addEvent SheetsListed w)).
Proof.
  intros Hc Hage. unfold refreshSheetIfStale. unfold bind at 1.
  rewrite sheetExists_run.
  pose proof Hc as [sheet [Hf _]]. rewrite Hf. cbn [negb].
  unfold bind.
  rewrite (fresh_not_stale (addEvent SheetsListed w) n ts);
    [reflexivity| |exact Hage].
  now apply (carriesTimestamp_worksheets w).
Qed.

Section Observed.
Context {X : Type} (obs : World -> X).
Hypothesis obs_event :
  forall e w, isPopulate e = false -> obs (addEvent e w) = obs w.
Hypothesis obs_client : forall b w, obs (setClientInstance b w) = obs w.
Hypothesis obs_validations : forall vs w, obs (setValidations vs w) = obs w.

Lemma ensureClient_observed : preserves obs Client.ensureClient.
Proof.
  apply ensureClient_frame; [|exact obs_client].
  intros e w Hc _. apply obs_event.
  destruct e; try reflexivity; discriminate Hc.
Qed.

(** On a fresh sheet the refresh and the existence check pass through. *)
Lemma refresh_then_ensure_fresh {A} (n : string) (populate : M unit)
  (k : M A) (w : World) (ts : Z) :
  carriesTimestamp w n ts ->
  (now w - ts <= REFRESH_INTERVAL_MS)%Z ->
  preserves obs k ->
  obs (snd ((refreshSheetIfStale n populate ;;
             ensureSheet n populate ;;
             k) w))
  = obs w.
Proof.
  intros Hc Hage Hk. unfold bind at 1.
  rewrite (refreshSheetIfStale_fresh n populate w ts Hc Hage).
  unfold ensureSheet, bind, emit, ask. run.
  destruct Hc as [sheet [Hf _]]. rewrite Hf. unfold ret. run.
  cbn [negb]. run.
  rewrite Hk. rewrite !obs_event by reflexivity. reflexivity.
Qed.

Lemma prepareAreaData_fresh (apiName : string) (w : World) (ts : Z) :
  carriesTimestamp w AREA_DATA_SHEET_NAME ts ->
  (now w - ts <= REFRESH_INTERVAL_MS)%Z ->
  obs (snd (prepareAreaData apiName w)) = obs w.
Proof.
  intros Hc Hage. unfold prepareAreaData. unfold bind at 1.
  pose proof (ensureClient_observed w) as Ho.
  pose proof (ensureClient_worksheets w) as Hw.
  assert (Hn : now (snd (Client.ensureClient w)) = now w).
  { apply (ensureClient_frame now); reflexivity. }
  destruct (Client.ensureClient w) as [[e|[]] w1]; cbn [snd] in *;
    [exact Ho|].
  unfold bind at 1. unfold lift.
  destruct (validateApiName apiName) as [e|name]; [exact Ho|].
  rewrite <- Ho.
  apply (refresh_then_ensure_fresh AREA_DATA_SHEET_NAME
           loadAndPopulateAreaData (ret name) w1 ts).
  - now apply (carriesTimestamp_worksheets w).
  - now rewrite Hn.
  - apply preserves_ret.
Qed.

Lemma prepareTypesData_fresh (apiName : string) (w : World) (ts : Z) :
  carriesTimestamp w API_TYPES_SHEET_NAME ts ->
  (now w - ts <= REFRESH_INTERVAL_MS)%Z ->
  obs (snd (prepareTypesData apiName w)) = obs w.
Proof.
  intros Hc Hage. unfold prepareTypesData. unfold bind at 1.
  pose proof (ensureClient_observed w) as Ho.
  pose proof (ensureClient_worksheets w) as Hw.
  assert (Hn : now (snd (Client.ensureClient w)) = now w).
  { apply (ensureClient_frame now); reflexivity. }
  destruct (Client.ensureClient w) as [[e|[]] w1]; cbn [snd] in *;
    [exact Ho|].
  unfold bind at 1. unfold lift.
  destruct (validateApiName apiName) as [e|name]; [exact Ho|].
  rewrite <- Ho.
  apply (refresh_then_ensure_fresh API_TYPES_SHEET_NAME
           loadAndPopulateApiTypes (ret name) w1 ts).
  - now apply (carriesTimestamp_worksheets w).
  - now rewrite Hn.
  - apply preserves_ret.
Qed.

Lemma lookup_observed {A B} (c : M A) (k : A -> M B) (f : exn -> exn)
  (w : World) :
  obs (snd (c w)) = obs w ->
  (forall a, preserves obs (k a)) ->
  obs (snd (tryCatch (bind c k) (fun e => throw (f e)) w)) = obs w.
Proof.
  intros Hc Hk. unfold tryCatch, bind, throw.
  destruct (c w) as [[e|a] w1]; cbn [snd] in *; [exact Hc|].
  specialize (Hk a w1).
  destruct (k a w1) as [[e|b] w2]; cbn [snd] in *; congruence.
Qed.

Lemma attach_observed (address : string) (values : list JS.value)
  (title message : string) :
  preserves obs
    (targetCell <- getTargetCell address ;;
     applyListValidation targetCell values title message ;;
     ret "").
Proof.
  apply preserves_bind; [apply getTargetCell_frame|]. intros targetCell.
  apply preserves_bind;
    [apply applyListValidation_frame, obs_validations|].
  intros _. apply preserves_ret.
Qed.

Lemma areaSheetValues_observed : preserves obs areaSheetValues.
Proof.
  unfold areaSheetValues.
  apply preserves_bind; [apply preserves_emit; intros; now apply obs_event|].
  intros _. apply preserves_bind; [apply preserves_ask|]. intros ws.
  destruct (Excel.findSheet AREA_DATA_SHEET_NAME ws);
    [apply preserves_ret|apply preserves_throw].
Qed.

Lemma fresh_lookups_observed (apiName address : string)
  (parameter : JS.value) (w : World) :
  (forall ts, carriesTimestamp w AREA_DATA_SHEET_NAME ts ->
     (now w - ts <= REFRESH_INTERVAL_MS)%Z ->
     obs (snd (handleCountryFunction apiName address w)) = obs w
     /\ obs (snd (handleStateProvinceFunction apiName parameter address w))
        = obs w
     /\ obs (snd (handlePowerGridFunction apiName parameter address w))
        = obs w)
  /\ (forall ts, carriesTimestamp w API_TYPES_SHEET_NAME ts ->
        (now w - ts <= REFRESH_INTERVAL_MS)%Z ->
        obs (snd (handleTypesFunction apiName address w)) = obs w).
Proof.
  assert (Harea : forall columnIndex alpha3 name,
            preserves obs (getAreaDataForCountry name alpha3 columnIndex)).
  { intros. unfold getAreaDataForCountry.
    apply preserves_bind; [apply areaSheetValues_observed|].
    intros values. apply preserves_ret. }
  split.
  - intros ts Hc Hage. split; [|split].
    + apply lookup_observed; [now apply (prepareAreaData_fresh _ _ ts)|].
      intros name. unfold getAlpha3CodesForApi.
      apply preserves_bind.
      * apply preserves_bind; [apply areaSheetValues_observed|].
        intros values. apply preserves_ret.
      * intros codes. destruct (List.length codes =? 0)%nat;
          [apply preserves_throw|apply attach_observed].
    + unfold handleStateProvinceFunction.
      destruct (missingParameter parameter); [reflexivity|].
      apply lookup_observed; [now apply (prepareAreaData_fresh _ _ ts)|].
      intros name. apply preserves_bind; [apply Harea|]. intros l.
      destruct (List.length l =? 0)%nat;
        [apply preserves_throw|apply attach_observed].
    + unfold handlePowerGridFunction.
      destruct (missingParameter parameter); [reflexivity|].
      apply lookup_observed; [now apply (prepareAreaData_fresh _ _ ts)|].
      intros name. apply preserves_bind; [apply Harea|]. intros l.
      destruct (List.length l =? 0)%nat;
        [apply preserves_throw|apply attach_observed].
  - intros ts Hc Hage.
    apply lookup_observed; [now apply (prepareTypesData_fresh _ _ ts)|].
    intros name. apply preserves_bind; [|intros _; apply preserves_ret].
    unfold applyDataValidation.
    destruct (lookup name API_COLUMN_MAP) as [columnIndex|];
      [|apply preserves_throw].
    apply preserves_bind; [apply preserves_emit; intros; now apply obs_event|].
    intros _. apply preserves_bind; [apply preserves_ask|]. intros ws.
    destruct (Excel.findSheet API_TYPES_SHEET_NAME ws) as [sheet|];
      [|apply preserves_throw].
    apply preserves_bind; [apply preserves_lift|]. intros values.
    apply preserves_bind; [apply getTargetCell_frame|]. intros targetCell.
    apply applyListValidation_frame, obs_validations.
Qed.

End Observed.

(** X11.  A lookup that finds its hidden sheet fresh (a timestamp no
    older than [REFRESH_INTERVAL_MS]) is served from the sheet: no
    population is entered and no worksheet changes, whatever the lookup
    answers. *)
Theorem fresh_sheet_serves_lookup (apiName address : string)
  (parameter : JS.value) (w : World) (writtenAt : Z) :
  (now w - writtenAt <= REFRESH_INTERVAL_MS)%Z ->
  (carriesTimestamp w AREA_DATA_SHEET_NAME writtenAt ->
   (populations (snd (handleCountryFunction apiName address w))
    = populations w
    /\ worksheets (snd (handleCountryFunction apiName address w))
       = worksheets w)
   /\ (populations
         (snd (handleStateProvinceFunction apiName parameter address w))
       = populations w
       /\ worksheets
            (snd (handleStateProvinceFunction apiName parameter address w))
          = worksheets w)
   /\ (populations
         (snd (handlePowerGridFunction apiName parameter address w))
       = populations w
       /\ worksheets
            (snd (handlePowerGridFunction apiName parameter address w))
          = worksheets w))
  /\ (carriesTimestamp w API_TYPES_SHEET_NAME writtenAt ->
      populations (snd (handleTypesFunction apiName address w))
      = populations w
      /\ worksheets (snd (handleTypesFunction apiName address w))
         = worksheets w).
Proof.
  intros Hage.
  pose proof (fresh_lookups_observed populations populations_addEvent
                ltac:(reflexivity) ltac:(reflexivity)
                apiName address parameter w) as [Pa Pt].
  pose proof (fresh_lookups_observed worksheets ltac:(reflexivity)
                ltac:(reflexivity) ltac:(reflexivity)
                apiName address parameter w) as [Wa Wt].
  split; intros Hc.
  - destruct (Pa writtenAt Hc Hage) as [P1 [P2 P3]].
    destruct (Wa writtenAt Hc Hage) as [W1 [W2 W3]].
    repeat split; assumption.
  - split; [now apply (Pt writtenAt)|now apply (Wt writtenAt)].
Qed.

Lemma fresh_sheet_serves_lookup_witness :
  let w := Examples.withRemote Examples.noTypes Examples.mobileRejected
             [Examples.areaSheet Examples.testRows]
             (1700000000000 + 172800000) in
  populations (snd (handleCountryFunction "mobile" "Sheet1!A1" w))
  = populations w
  /\ worksheets (snd (handleCountryFunction "mobile" "Sheet1!A1" w))
     = worksheets w.
Proof.
  intros w.
  apply (proj1 (proj1 (fresh_sheet_serves_lookup "mobile" "Sheet1!A1"
                         (JS.VStr "USA") w 1700000000000
                         ltac:(vm_compute; discriminate))
                  ltac:(exists (Examples.areaSheet Examples.testRows);
                        repeat split; reflexivity))).
Defined.

End Freshness.

(** *** Lists written to a cell and read back *)

Section JoinSplit.
Import AreaHandler.

Lemma append_empty_r (s : string) : (s ++ "")%string = s.
Proof. induction s as [|c s IH]; cbn; [reflexivity|now rewrite IH]. Qed.

Lemma split_not_nil (sep : ascii) (s : string) : JS.split sep s <> [].
Proof.
  induction s as [|c s IH]; cbn [JS.split]; [discriminate|].
  destruct (Ascii.eqb c sep); [discriminate|].
  destruct (JS.split sep s); [contradiction|discriminate].
Qed.

Lemma split_prefix (sep : ascii) (x s : string) :
  JS.hasChar sep x = false ->
  JS.split sep (x ++ s)
  = (x ++ hd "" (JS.split sep s))%string :: tl (JS.split sep s).
Proof.
  induction x as [|c x IH]; intros H.
  - cbn [append]. pose proof (split_not_nil sep s) as Hn.
    destruct (JS.split sep s); [contradiction|reflexivity].
  - cbn [JS.hasChar] in H. apply orb_false_elim in H as [Hc Hx].
    cbn [append JS.split]. rewrite Hc, (IH Hx). reflexivity.
Qed.

Lemma trim_after_space (s : string) :
  JS.trim (String " " s) = JS.trim s.
Proof. reflexivity. Qed.

Lemma split_join_trimmed (x : string) (items : list string) :
  forallb cleanItem (x :: items) = true ->
  map JS.trim (JS.split "," (JS.join ", " (x :: items))) = x :: items.
Proof.
  revert x. induction items as [|y r IH]; intros x H;
    cbn [forallb] in H; apply andb_prop in H as [Hx Hr];
    unfold cleanItem in Hx;
    apply andb_prop in Hx as [Hx Ht]; apply andb_prop in Hx as [_ Hc];
    apply negb_true_iff in Hc; apply String.eqb_eq in Ht.
  - cbn [JS.join]. rewrite <- (append_empty_r x) at 1.
    rewrite (split_prefix _ _ _ Hc). cbn [JS.split hd tl map].
    now rewrite append_empty_r, Ht.
  - specialize (IH y Hr).
    change (JS.join ", " (x :: y :: r))
      with (x ++ String "," (String " " (JS.join ", " (y :: r))))%string.
    rewrite (split_prefix _ _ _ Hc).
    cbn [JS.split Ascii.eqb Bool.eqb hd tl].
    change (Ascii.eqb " " ",") with false. cbv iota.
    pose proof (split_not_nil "," (JS.join ", " (y :: r))) as Hn.
    destruct (JS.split "," (JS.join ", " (y :: r))) as [|h t];
      [contradiction|].
    cbn [map] in *. rewrite append_empty_r, Ht, trim_after_space.
    now rewrite IH.
Qed.

Lemma cleanItem_not_empty (items : list string) :
  forallb cleanItem items = true ->
  filter (fun item => negb (item =? "")) items = items.
Proof.
  induction items as [|x r IH]; intros H; [reflexivity|].
  cbn [forallb] in H. apply andb_prop in H as [Hx Hr].
  cbn [filter]. unfold cleanItem in Hx.
  apply andb_prop in Hx as [Hx _]. apply andb_prop in Hx as [Hx _].
  rewrite Hx. now rewrite IH.
Qed.

(** X12.  A list of entries joined with [", "], as the population
    writes the states and power grids of a country, is read back entry
    by entry by the split of [getAreaDataForCountry], provided no entry
    is empty, holds a comma, or starts or ends with white space. *)
Theorem split_join_round_trip (items : list string) :
  forallb cleanItem items = true ->
  splitList (JS.join ", " items) = items.
Proof.
  intros H. unfold splitList.
  destruct items as [|x r]; [reflexivity|].
  rewrite (split_join_trimmed x r H).
  now apply cleanItem_not_empty.
Qed.

Lemma split_join_round_trip_witness :
  splitList (JS.join ", " ["California"; "Texas"; "New York"])
  = ["California"; "Texas"; "New York"].
Proof.
  apply (split_join_round_trip ["California"; "Texas"; "New York"]).
  reflexivity.
Defined.

(** An entry with a comma comes back as two. *)
Example comma_in_entry_splits :
  splitList (JS.join ", " ["Washington, D.C."; "Texas"])
  = ["Washington"; "D.C."; "Texas"].
Proof. reflexivity. Qed.

End JoinSplit.

(** *** What a population writes is what the lookups read *)

Section ReadBack.
Import MetadataUtils AreaLoader AreaHandler.

Lemma overlayRows_empty (block : Excel.Grid) :
  Excel.overlayRows 0 block [] = block.
Proof.
  induction block as [|b bs IH]; cbn [Excel.overlayRows Excel.overlay hd tl];
    [reflexivity|].
  now rewrite skipn_nil, app_nil_r, IH.
Qed.

Lemma stamped_block (a b : Excel.cell) (block : Excel.Grid) :
  Excel.writeBlock 0 0 [[a; b]] (Excel.writeBlock 1 0 block [])
  = [a; b] :: block.
Proof.
  cbn [Excel.writeBlock Excel.overlayRows Excel.overlay hd tl List.length
       skipn app].
  now rewrite overlayRows_empty.
Qed.

Lemma map_nth_seq {A B} (f : A -> B) (l : list A) (d : A) :
  map (fun i => f (nth i l d)) (seq 0 (List.length l)) = map f l.
Proof.
  induction l as [|x l IH]; [reflexivity|].
  cbn [List.length seq map nth]. f_equal.
  rewrite <- seq_shift, map_map. exact IH.
Qed.

Lemma usedWidth_le (row : list Excel.cell) :
  Excel.usedWidth row <= List.length row.
Proof.
  induction row as [|c r IH]; cbn [Excel.usedWidth List.length]; [lia|].
  destruct (Excel.usedWidth r); [destruct (Excel.isBlank c); lia|lia].
Qed.

Lemma rowUsed_first (c : Excel.cell) (r : list Excel.cell) :
  Excel.isBlank c = false ->
  Excel.rowUsed (c :: r) = true /\ Excel.leadingBlanks (c :: r) = 0.
Proof.
  intros H. unfold Excel.rowUsed. cbn [Excel.usedWidth Excel.leadingBlanks].
  rewrite H. destruct (Excel.usedWidth r); split; reflexivity.
Qed.

Lemma usedHeight_all (g : Excel.Grid) :
  Forall (fun row => Excel.rowUsed row = true) g ->
  Excel.usedHeight g = List.length g.
Proof.
  induction 1 as [|row r Hrow Hr IH]; [reflexivity|].
  cbn [Excel.usedHeight List.length]. rewrite IH, Hrow.
  destruct (List.length r); reflexivity.
Qed.

Lemma filter_all {A} (p : A -> bool) (l : list A) :
  Forall (fun x => p x = true) l -> filter p l = l.
Proof.
  induction 1 as [|x l Hx Hl IH]; [reflexivity|].
  cbn [filter]. now rewrite Hx, IH.
Qed.

Lemma widest_row (n : nat) (g : Excel.Grid) :
  Forall (fun row => Excel.usedWidth row <= n) g ->
  Exists (fun row => Excel.usedWidth row = n) g ->
  fold_right (fun row m => Nat.max (Excel.usedWidth row) m) 0 g = n.
Proof.
  intros Hall Hex.
  assert (Hle : fold_right (fun row m => Nat.max (Excel.usedWidth row) m) 0 g
                <= n).
  { clear Hex. induction Hall as [|row r Hrow Hr IH]; cbn [fold_right]; lia. }
  assert (Hge : n <= fold_right
                       (fun row m => Nat.max (Excel.usedWidth row) m) 0 g).
  { clear Hle Hall.
    induction Hex as [row r Hrow|row r Hr IH]; cbn [fold_right]; lia. }
  lia.
Qed.

(** The used range of a table whose rows all start with a value: every
    row of the grid, cut or filled to the width of the widest. *)
Lemma usedRange_table (n : nat) (g : Excel.Grid) :
  g <> [] ->
  Forall (fun row => Excel.rowUsed row = true) g ->
  Forall (fun row => Excel.leadingBlanks row = 0) g ->
  Forall (fun row => Excel.usedWidth row <= n) g ->
  Exists (fun row => Excel.usedWidth row = n) g ->
  Excel.usedRangeValues g
  = map (fun row => map (fun c => nth c row Excel.blank) (seq 0 n)) g.
Proof.
  intros Hne Hused Hlead Hle Hex. unfold Excel.usedRangeValues.
  rewrite (usedHeight_all g Hused), (filter_all _ g Hused),
    (widest_row n g Hle Hex).
  destruct g as [|row r]; [contradiction|].
  cbn [List.length Nat.eqb Excel.leadingUnused fold_right].
  inversion Hused as [|? ? Hrow _]; subst. rewrite Hrow.
  inversion Hlead as [|? ? Hl _]; subst. rewrite Hl.
  cbn [Nat.min]. rewrite !Nat.sub_0_r.
  unfold Excel.rangeValues, Excel.cellAt.
  apply (map_nth_seq
           (fun row0 => map (fun c => nth c row0 Excel.blank) (seq 0 n))
           (row :: r) []).
Qed.

Lemma fill_exact (row : list Excel.cell) :
  map (fun c => nth c row Excel.blank) (seq 0 (List.length row)) = row.
Proof.
  rewrite (map_nth_seq (fun x => x) row Excel.blank). apply map_id.
Qed.

Ltac reduce :=
  cbv beta iota zeta;
  cbn [fst snd worksheets now addEvent setWorksheets].

Lemma setSheetMetadata_cells (n : string) (m : SheetMetadata) (w : World)
  (sheet : Excel.Worksheet) :
  Excel.findSheet n (worksheets w) = Some sheet ->
  Excel.findSheet n (worksheets (snd (setSheetMetadata n m w)))
  = Some (Excel.mkWorksheet (Excel.name sheet) (Excel.hidden sheet)
            (Excel.writeBlock 0 0
               [[Excel.CStr "METADATA";
                 Excel.CStr (JS.stringOfNumber (timestamp m))]]
               (Excel.cells sheet))).
Proof.
  intros Hf. unfold setSheetMetadata, bind, ask, emit, modify.
  rewrite Hf. reduce. now apply findSheet_setCells_eq.
Qed.

(** The sheet a returning [writeAreaDataToSheet] leaves: hidden, the
    metadata row, then the rows as the host stored them. *)
Lemma writeAreaDataToSheet_cells (m : list (string * list JS.value))
  (w : World) :
  fst (writeAreaDataToSheet m w) = Return tt ->
  exists rows block,
    areaRows m = Return rows
    /\ Excel.toCells rows = Some block
    /\ Excel.findSheet AREA_DATA_SHEET_NAME
         (worksheets (snd (writeAreaDataToSheet m w)))
       = Some (Excel.mkWorksheet AREA_DATA_SHEET_NAME true
                 ([Excel.CStr "METADATA"; Excel.CStr (JS.stringOfZ (now w))]
                  :: block)).
Proof.
  unfold writeAreaDataToSheet, addHiddenSheet, bind, emit, ask, lift, modify,
    ret, throw.
  reduce.
  destruct (Excel.findSheet AREA_DATA_SHEET_NAME (worksheets w))
    as [sheet|] eqn:Hf; reduce;
    (destruct (areaRows m) as [e|rows]; reduce; [discriminate|]);
    (destruct (Excel.toCells rows) as [block|] eqn:Hb; reduce;
     [|discriminate]).
  - destruct (Excel.findSheet AREA_DATA_SHEET_NAME
                (Excel.removeSheet AREA_DATA_SHEET_NAME (worksheets w)))
      as [sheet'|] eqn:Hf'; reduce; [discriminate|].
    intros _. exists rows, block. split; [reflexivity|]. split; [exact Hb|].
    erewrite setSheetMetadata_cells;
      [|reduce; apply findSheet_added; exact Hf'].
    cbn [Excel.name Excel.hidden Excel.cells timestamp JS.stringOfNumber].
    now rewrite stamped_block.
  - rewrite ?Hf. reduce.
    intros _. exists rows, block. split; [reflexivity|]. split; [exact Hb|].
    erewrite setSheetMetadata_cells;
      [|reduce; apply findSheet_added; exact Hf].
    cbn [Excel.name Excel.hidden Excel.cells timestamp JS.stringOfNumber].
    now rewrite stamped_block.
Qed.

Lemma toCells_cons_inv (row : list JS.value) (rows : list (list JS.value))
  (g : Excel.Grid) :
  Excel.toCells (row :: rows) = Some g ->
  exists r rs, g = r :: rs
               /\ Excel.toCells [row] = Some [r]
               /\ Excel.toCells rows = Some rs.
Proof.
  unfold Excel.toCells. cbn [fold_right].
  match goal with
  | |- match ?c with _ => _ end = _ -> _ => destruct c as [r|]
  end; [|discriminate].
  match goal with
  | |- match ?c with _ => _ end = _ -> _ => destruct c as [rs|]
  end; [|discriminate].
  intros H. injection H as <-. exists r, rs. repeat split; reflexivity.
Qed.

Lemma toCells_app_inv (a b : list (list JS.value)) (g : Excel.Grid) :
  Excel.toCells (a ++ b) = Some g ->
  exists ga gb, g = (ga ++ gb)%list
                /\ Excel.toCells a = Some ga
                /\ Excel.toCells b = Some gb.
Proof.
  revert g. induction a as [|row a IH]; intros g H.
  - exists [], g. split; [reflexivity|]. split; [reflexivity|exact H].
  - cbn [app] in H. apply toCells_cons_inv in H as [r [rs [-> [Hr Hrs]]]].
    apply IH in Hrs as [ga [gb [-> [Ha Hb]]]].
    exists (r :: ga), gb. split; [reflexivity|]. split; [|exact Hb].
    revert Hr Ha. unfold Excel.toCells. cbn [fold_right].
    match goal with
    | |- match ?c with _ => _ end = _ -> _ => destruct c as [r'|]
    end; [|discriminate].
    intros Hr. injection Hr as ->. intros ->. reflexivity.
Qed.

Lemma joinedOrEmpty_text (location : JS.value) (k s : string) :
  joinedOrEmpty (JS.optProp location k) = Return s -> s = listText location k.
Proof.
  unfold joinedOrEmpty, listText.
  destruct (JS.optProp location k); intros H;
    try discriminate H; now injection H as <-.
Qed.

(** The cells of the row written for one location. *)
Lemma areaRow_cells (k : string) (location : JS.value)
  (row : list JS.value) (r : list Excel.cell) :
  areaRow k location = Return row ->
  Excel.toCells [row] = Some [r] ->
  exists a c,
    Excel.cellOfValue (JS.optProp location "alpha3") = Some a
    /\ r = [ Excel.CStr k; a; c;
             Excel.CStr (listText location "stateProvinces");
             Excel.CStr (listText location "powerGrids") ].
Proof.
  unfold areaRow. destruct (JS.isNullish location); [discriminate|].
  destruct (joinedOrEmpty (JS.optProp location "stateProvinces"))
    as [e|sp] eqn:Hsp; [discriminate|].
  destruct (joinedOrEmpty (JS.optProp location "powerGrids"))
    as [e|pg] eqn:Hpg; [discriminate|].
  apply joinedOrEmpty_text in Hsp, Hpg. subst sp pg.
  intros H. injection H as <-.
  unfold Excel.toCells. cbn [fold_right].
  remember (Excel.cellOfValue (JS.optProp location "alpha3")) as oa eqn:Ea.
  match goal with
  | |- context [Excel.cellOfValue (if ?b then ?x else ?y)] =>
      remember (Excel.cellOfValue (if b then x else y)) as oc eqn:Ec
  end.
  cbn [Excel.cellOfValue].
  destruct oa as [a|], oc as [c|]; intros H; try discriminate H.
  injection H as <-. exists a, c. split; reflexivity.
Qed.

Lemma alpha3Text_cell (location : JS.value) (a : Excel.cell) :
  Excel.cellOfValue (JS.optProp location "alpha3") = Some a ->
  alpha3Text location = Excel.cellToString a.
Proof. intros H. unfold alpha3Text. now rewrite H. Qed.

Lemma splitList_of_empty (s : string) :
  (if negb (s =? "") then splitList s else []) = splitList s.
Proof. destruct s; reflexivity. Qed.

(** The rows of one API as the two loops read them. *)
Lemma group_rows (k q : string) (locations : list JS.value)
  (rows : list (list JS.value)) (block rest : Excel.Grid) :
  collect (areaRow k) locations = Return rows ->
  Excel.toCells rows = Some block ->
  alpha3Loop q (block ++ rest)%list
  = ((if JS.toLowerCase k =? q then codesOf locations else [])
     ++ alpha3Loop q rest)%list
  /\ (forall alpha3,
        areaDataLoop q alpha3 stateProvinceColumn (block ++ rest)%list
        = if (JS.toLowerCase k =? q)
             && existsb (fun l => alpha3Text l =? alpha3) locations
          then entriesOf locations alpha3 "stateProvinces"
          else areaDataLoop q alpha3 stateProvinceColumn rest)
  /\ (forall alpha3,
        areaDataLoop q alpha3 powerGridColumn (block ++ rest)%list
        = if (JS.toLowerCase k =? q)
             && existsb (fun l => alpha3Text l =? alpha3) locations
          then entriesOf locations alpha3 "powerGrids"
          else areaDataLoop q alpha3 powerGridColumn rest)
  /\ Forall (fun row => exists r, row = Excel.CStr k :: r
                                  /\ List.length row = 5) block.
Proof.
  revert rows block.
  induction locations as [|location ls IH]; intros rows block Hrows Hblock.
  - cbn [collect] in Hrows. injection Hrows as <-.
    cbn in Hblock. injection Hblock as <-.
    cbn [app existsb]. rewrite andb_false_r.
    repeat split; try reflexivity; [|constructor].
    destruct (JS.toLowerCase k =? q); reflexivity.
  - cbn [collect] in Hrows.
    destruct (areaRow k location) as [e|row] eqn:Hrow; [discriminate|].
    destruct (collect (areaRow k) ls) as [e|rows'] eqn:Hls; [discriminate|].
    injection Hrows as <-.
    apply toCells_cons_inv in Hblock as [r [rs [-> [Hr Hrs]]]].
    destruct (areaRow_cells k location row r Hrow Hr) as [a [c [Ha ->]]].
    destruct (IH rows' rs eq_refl Hrs) as [IHa [IHs [IHp IHf]]].
    pose proof (alpha3Text_cell location a Ha) as Htext.
    split; [|split; [|split]].
    + cbn [app alpha3Loop cellString nth_error option_map apiNameColumn
           alpha3Column Excel.cellToString strictEquals isTruthy].
      rewrite IHa. unfold codesOf. cbn [map filter]. rewrite Htext.
      destruct (JS.toLowerCase k =? q); cbn [andb];
        [|reflexivity].
      destruct (negb (Excel.cellToString a =? "")); reflexivity.
    + intros alpha3.
      cbn [app areaDataLoop cellString nth_error option_map apiNameColumn
           alpha3Column stateProvinceColumn Excel.cellToString strictEquals].
      rewrite IHs. unfold entriesOf. cbn [existsb find]. rewrite Htext.
      destruct (JS.toLowerCase k =? q); cbn [andb]; [|reflexivity].
      destruct (Excel.cellToString a =? alpha3); cbn [orb];
        [apply splitList_of_empty|reflexivity].
    + intros alpha3.
      cbn [app areaDataLoop cellString nth_error option_map apiNameColumn
           alpha3Column powerGridColumn Excel.cellToString strictEquals].
      rewrite IHp. unfold entriesOf. cbn [existsb find]. rewrite Htext.
      destruct (JS.toLowerCase k =? q); cbn [andb]; [|reflexivity].
      destruct (Excel.cellToString a =? alpha3); cbn [orb];
        [apply splitList_of_empty|reflexivity].
    + constructor; [|exact IHf]. eexists. split; reflexivity.
Qed.

Lemma fetchAreaFor_run (config : string) (w : World) :
  fetchAreaFor config w
  = (Return (config, fetchedLocations w config),
     addEvent (RemoteGetArea config) w).
Proof.
  unfold fetchedLocations.
  destruct (fetchAreaFor_returns config w) as [locations [H _]].
  now rewrite H.
Qed.

Lemma fetchedLocations_addEvent (e : Event) (w : World) (config : string) :
  fetchedLocations (addEvent e w) config = fetchedLocations w config.
Proof.
  unfold fetchedLocations, fetchAreaFor, bind, emit, ask.
  cbn [getArea jsonParse addEvent fst snd].
  destruct (getArea w config) as [m|raw]; [reflexivity|].
  destruct (match raw with JS.VStr text => jsonParse w text | _ => Some raw end)
    as [response|]; [|reflexivity].
  cbv zeta.
  destruct (negb (JS.truthy (JS.optProp response "locations"))
            || negb (JS.isArray (JS.optProp response "locations")));
    reflexivity.
Qed.

Lemma fetchAllAreaData_run (w : World) :
  fetchAllAreaData w
  = (Return [ ("calculation", fetchedLocations w "calculation");
              ("mobile", fetchedLocations w "mobile") ],
     addEvent (RemoteGetArea "mobile")
       (addEvent (RemoteGetArea "calculation") w)).
Proof.
  unfold fetchAllAreaData, API_AREA_CONFIGS. cbn [forEachM].
  unfold bind. rewrite !fetchAreaFor_run.
  rewrite fetchedLocations_addEvent. reflexivity.
Qed.

(** The values the lookups read from the sheet a population wrote. *)
Lemma populated_values (calculation mobile : list JS.value) (w : World) :
  fst (writeAreaDataToSheet
         [("calculation", calculation); ("mobile", mobile)] w) = Return tt ->
  exists rc rm bc bm values,
    collect (areaRow "calculation") calculation = Return rc
    /\ Excel.toCells rc = Some bc
    /\ collect (areaRow "mobile") mobile = Return rm
    /\ Excel.toCells rm = Some bm
    /\ areaSheetValues
         (snd (writeAreaDataToSheet
                 [("calculation", calculation); ("mobile", mobile)] w))
       = (Return values,
          addEvent (SheetRead AREA_DATA_SHEET_NAME)
            (snd (writeAreaDataToSheet
                    [("calculation", calculation); ("mobile", mobile)] w)))
    /\ tl values = (Examples.areaHeaderRow :: bc ++ bm)%list.
Proof.
  intros Hr.
  destruct (writeAreaDataToSheet_cells _ w Hr)
    as [rows [block [Hrows [Hblock Hsheet]]]].
  unfold areaRows in Hrows. cbn [collect fst snd] in Hrows.
  destruct (collect (areaRow "calculation") calculation) as [e|rc] eqn:Hc;
    [discriminate|].
  destruct (collect (areaRow "mobile") mobile) as [e|rm] eqn:Hm;
    [discriminate|].
  injection Hrows as <-. cbn [List.concat] in Hblock.
  rewrite app_nil_r in Hblock.
  apply toCells_cons_inv in Hblock as [h [rs [-> [Hh Hrs]]]].
  apply toCells_app_inv in Hrs as [bc [bm [-> [Hbc Hbm]]]].
  assert (Eh : h = Examples.areaHeaderRow)
    by (cbv in Hh; now injection Hh as <-).
  subst h.
  destruct (group_rows "calculation" "" calculation rc bc [] Hc Hbc)
    as [_ [_ [_ Fc]]].
  destruct (group_rows "mobile" "" mobile rm bm [] Hm Hbm)
    as [_ [_ [_ Fm]]].
  assert (Frows : Forall (fun row => Excel.rowUsed row = true
                                     /\ Excel.leadingBlanks row = 0
                                     /\ List.length row = 5)
                         (bc ++ bm)%list).
  { apply Forall_app. split.
    - eapply Forall_impl; [|exact Fc]. intros row [r [-> Hl]].
      destruct (rowUsed_first (Excel.CStr "calculation") r eq_refl)
        as [H1 H2].
      repeat split; assumption.
    - eapply Forall_impl; [|exact Fm]. intros row [r [-> Hl]].
      destruct (rowUsed_first (Excel.CStr "mobile") r eq_refl) as [H1 H2].
      repeat split; assumption. }
  exists rc, rm, bc, bm.
  eexists. split; [reflexivity|]. split; [exact Hbc|].
  split; [reflexivity|]. split; [exact Hbm|].
  unfold areaSheetValues, bind, emit, ask. reduce. rewrite Hsheet.
  unfold ret. cbn [Excel.cells]. split; [reflexivity|].
  rewrite (usedRange_table 5).
  - cbn [map tl]. f_equal.
    rewrite <- (map_id (bc ++ bm)%list) at 2.
    apply map_ext_Forall.
    eapply Forall_impl; [|exact Frows]. intros row [_ [_ Hl]].
    rewrite <- Hl. apply fill_exact.
  - discriminate.
  - constructor;
      [apply (rowUsed_first (Excel.CStr "METADATA") _ eq_refl)|].
    constructor; [reflexivity|].
    eapply Forall_impl; [|exact Frows]. now intros row [H _].
  - constructor;
      [apply (rowUsed_first (Excel.CStr "METADATA") _ eq_refl)|].
    constructor; [reflexivity|].
    eapply Forall_impl; [|exact Frows]. now intros row [_ [H _]].
  - constructor.
    { cbn [Excel.usedWidth]. destruct (Excel.isBlank _); cbn; lia. }
    constructor; [cbn; lia|].
    eapply Forall_impl; [|exact Frows]. intros row [_ [_ Hl]].
    rewrite <- Hl. apply usedWidth_le.
  - apply Exists_cons_tl, Exists_cons_hd. reflexivity.
Qed.

Lemma area_group (apiName : string) :
  In apiName VALID_API_NAMES ->
  mapApiNameForAreaData apiName = "calculation"
  \/ mapApiNameForAreaData apiName = "mobile".
Proof.
  intros H. cbn [In VALID_API_NAMES] in H.
  repeat (destruct H as [<-|H]; [auto|]). contradiction.
Qed.

Lemma alpha3Loop_header (q : string) (rest : Excel.Grid) :
  q = "calculation" \/ q = "mobile" ->
  alpha3Loop q (Examples.areaHeaderRow :: rest) = alpha3Loop q rest.
Proof. intros [-> | ->]; reflexivity. Qed.

Lemma areaDataLoop_header (q alpha3 : string) (columnIndex : nat)
  (rest : Excel.Grid) :
  q = "calculation" \/ q = "mobile" ->
  areaDataLoop q alpha3 columnIndex (Examples.areaHeaderRow :: rest)
  = areaDataLoop q alpha3 columnIndex rest.
Proof. intros [-> | ->]; reflexivity. Qed.

Lemma entriesOf_absent (locations : list JS.value) (alpha3 k : string) :
  existsb (fun l => alpha3Text l =? alpha3) locations = false ->
  entriesOf locations alpha3 k = [].
Proof.
  intros H. unfold entriesOf.
  destruct (find (fun location => alpha3Text location =? alpha3) locations)
    as [location|] eqn:Hf; [|reflexivity].
  apply find_some in Hf as [Hin Hm].
  assert (Ht : existsb (fun l => alpha3Text l =? alpha3) locations = true)
    by (apply existsb_exists; now exists location).
  congruence.
Qed.

(** The two loops on the rows a population wrote. *)
Lemma area_lookup_values (apiName : string)
  (calculation mobile : list JS.value)
  (rc rm : list (list JS.value)) (bc bm : Excel.Grid) :
  In apiName VALID_API_NAMES ->
  collect (areaRow "calculation") calculation = Return rc ->
  Excel.toCells rc = Some bc ->
  collect (areaRow "mobile") mobile = Return rm ->
  Excel.toCells rm = Some bm ->
  alpha3Loop (mapApiNameForAreaData apiName)
    (Examples.areaHeaderRow :: bc ++ bm)%list
  = codesOf (locationsFor apiName calculation mobile)
  /\ (forall alpha3,
        areaDataLoop (mapApiNameForAreaData apiName) alpha3
          stateProvinceColumn (Examples.areaHeaderRow :: bc ++ bm)%list
        = entriesOf (locationsFor apiName calculation mobile) alpha3
            "stateProvinces")
  /\ (forall alpha3,
        areaDataLoop (mapApiNameForAreaData apiName) alpha3
          powerGridColumn (Examples.areaHeaderRow :: bc ++ bm)%list
        = entriesOf (locationsFor apiName calculation mobile) alpha3
            "powerGrids").
Proof.
  intros Hin Hc Hbc Hm Hbm.
  pose proof (area_group apiName Hin) as Hq.
  unfold locationsFor.
  set (q := mapApiNameForAreaData apiName) in *.
  destruct (group_rows "calculation" q calculation rc bc bm Hc Hbc)
    as [Ca [Cs [Cp _]]].
  destruct (group_rows "mobile" q mobile rm bm [] Hm Hbm)
    as [Ma [Ms [Mp _]]].
  rewrite app_nil_r in Ma. 
  assert (Ms' : forall alpha3,
            areaDataLoop q alpha3 stateProvinceColumn bm
            = if (JS.toLowerCase "mobile" =? q)
                 && existsb (fun l => alpha3Text l =? alpha3) mobile
              then entriesOf mobile alpha3 "stateProvinces" else [])
    by (intros alpha3; specialize (Ms alpha3);
        now rewrite app_nil_r in Ms).
  assert (Mp' : forall alpha3,
            areaDataLoop q alpha3 powerGridColumn bm
            = if (JS.toLowerCase "mobile" =? q)
                 && existsb (fun l => alpha3Text l =? alpha3) mobile
              then entriesOf mobile alpha3 "powerGrids" else [])
    by (intros alpha3; specialize (Mp alpha3);
        now rewrite app_nil_r in Mp).
  clear Ms Mp.
  split; [|split].
  - rewrite (alpha3Loop_header q _ Hq), Ca, Ma.
    destruct Hq as [-> | ->];
      cbv [JS.toLowerCase JS.lowerChar]; cbn [String.eqb];
      [change ("calculation" =? "calculation") with true
      |change ("mobile" =? "calculation") with false];
      cbn [app]; now rewrite ?app_nil_r.
  - intros alpha3.
    rewrite (areaDataLoop_header q _ _ _ Hq), Cs, Ms'.
    destruct Hq as [-> | ->].
    + change (JS.toLowerCase "calculation" =? "calculation") with true.
      change (JS.toLowerCase "mobile" =? "calculation") with false.
      change ("calculation" =? "calculation") with true.
      cbn [andb].
      destruct (existsb (fun l => alpha3Text l =? alpha3) calculation)
        eqn:He; [reflexivity|].
      symmetry. now apply entriesOf_absent.
    + change (JS.toLowerCase "calculation" =? "mobile") with false.
      change (JS.toLowerCase "mobile" =? "mobile") with true.
      change ("mobile" =? "calculation") with false.
      cbn [andb].
      destruct (existsb (fun l => alpha3Text l =? alpha3) mobile)
        eqn:He; [reflexivity|].
      symmetry. now apply entriesOf_absent.
  - intros alpha3.
    rewrite (areaDataLoop_header q _ _ _ Hq), Cp, Mp'.
    destruct Hq as [-> | ->].
    + change (JS.toLowerCase "calculation" =? "calculation") with true.
      change (JS.toLowerCase "mobile" =? "calculation") with false.
      change ("calculation" =? "calculation") with true.
      cbn [andb].
      destruct (existsb (fun l => alpha3Text l =? alpha3) calculation)
        eqn:He; [reflexivity|].
      symmetry. now apply entriesOf_absent.
    + change (JS.toLowerCase "calculation" =? "mobile") with false.
      change (JS.toLowerCase "mobile" =? "mobile") with true.
      change ("mobile" =? "calculation") with false.
      cbn [andb].
      destruct (existsb (fun l => alpha3Text l =? alpha3) mobile)
        eqn:He; [reflexivity|].
      symmetry. now apply entriesOf_absent.
Qed.

(** A returning population is a returning write of what was fetched. *)
Lemma loadAndPopulateAreaData_run (w : World) :
  fst (loadAndPopulateAreaData w) = Return tt ->
  exists w1,
    fst (writeAreaDataToSheet
           [ ("calculation", fetchedLocations w "calculation");
             ("mobile", fetchedLocations w "mobile") ] w1) = Return tt
    /\ snd (loadAndPopulateAreaData w)
       = snd (writeAreaDataToSheet
                [ ("calculation", fetchedLocations w "calculation");
                  ("mobile", fetchedLocations w "mobile") ] w1).
Proof.
  unfold loadAndPopulateAreaData, tryCatch, throw.
  unfold bind at 1 3. unfold emit. unfold bind.
  rewrite fetchAllAreaData_run, !fetchedLocations_addEvent.
  match goal with
  | |- context [writeAreaDataToSheet ?m ?w1] =>
      intros H; exists w1; destruct (writeAreaDataToSheet m w1)
        as [[e|[]] w2]; cbn [fst snd] in *;
      [discriminate H|split; reflexivity]
  end.
Qed.

Lemma population_lookup_values (apiName : string) (w : World) :
  fst (loadAndPopulateAreaData w) = Return tt ->
  In apiName VALID_API_NAMES ->
  exists values,
    areaSheetValues (snd (loadAndPopulateAreaData w))
    = (Return values,
       addEvent (SheetRead AREA_DATA_SHEET_NAME)
         (snd (loadAndPopulateAreaData w)))
    /\ alpha3CodesIn apiName values
       = codesOf (locationsFor apiName (fetchedLocations w "calculation")
                    (fetchedLocations w "mobile"))
    /\ (forall alpha3,
          areaDataIn apiName alpha3 stateProvinceColumn values
          = entriesOf (locationsFor apiName
                         (fetchedLocations w "calculation")
                         (fetchedLocations w "mobile"))
              alpha3 "stateProvinces")
    /\ (forall alpha3,
          areaDataIn apiName alpha3 powerGridColumn values
          = entriesOf (locationsFor apiName
                         (fetchedLocations w "calculation")
                         (fetchedLocations w "mobile"))
              alpha3 "powerGrids").
Proof.
  intros Hr Hin.
  destruct (loadAndPopulateAreaData_run w Hr) as [w1 [Hw ->]].
  destruct (populated_values _ _ w1 Hw)
    as [rc [rm [bc [bm [values [Hc [Hbc [Hm [Hbm [Hv Ht]]]]]]]]]].
  exists values. split; [exact Hv|].
  unfold alpha3CodesIn, areaDataIn. rewrite Ht.
  exact (area_lookup_values apiName _ _ rc rm bc bm Hin Hc Hbc Hm Hbm).
Qed.

(** X13.  After a population that returned, the country lookup of a
    valid API reads from the sheet the codes the service gave for the
    group of that API, in the order of the response, the locations
    without a code left out. *)
Theorem population_serves_country_codes (apiName : string) (w : World) :
  fst (loadAndPopulateAreaData w) = Return tt ->
  In apiName VALID_API_NAMES ->
  fst (getAlpha3CodesForApi apiName (snd (loadAndPopulateAreaData w)))
  = Return (codesOf (locationsFor apiName
                       (fetchedLocations w "calculation")
                       (fetchedLocations w "mobile"))).
Proof.
  intros Hr Hin.
  destruct (population_lookup_values apiName w Hr Hin)
    as [values [Hv [Hcodes _]]].
  unfold getAlpha3CodesForApi, bind. rewrite Hv. unfold ret. cbn [fst].
  now rewrite Hcodes.
Qed.

Lemma population_serves_country_codes_witness :
  fst (getAlpha3CodesForApi "location"
         (snd (loadAndPopulateAreaData
                 (Examples.withRemote Examples.noTypes Examples.mobileRejected
                    [] 1700000000000))))
  = Return (codesOf (locationsFor "location"
                       (fetchedLocations
                          (Examples.withRemote Examples.noTypes
                             Examples.mobileRejected [] 1700000000000)
                          "calculation")
                       (fetchedLocations
                          (Examples.withRemote Examples.noTypes
                             Examples.mobileRejected [] 1700000000000)
                          "mobile"))).
Proof.
  apply (population_serves_country_codes "location"
           (Examples.withRemote Examples.noTypes Examples.mobileRejected
              [] 1700000000000)).
  - reflexivity.
  - cbn. auto.
Defined.

(** X14.  After a population that returned, the state and power-grid
    lookups of a valid API read the list stored for the first location
    of its group that has the given code, split at the commas; they read
    nothing when the group has no such location. *)
Theorem population_serves_area_entries (apiName alpha3 : string) (w : World) :
  fst (loadAndPopulateAreaData w) = Return tt ->
  In apiName VALID_API_NAMES ->
  fst (getAreaDataForCountry apiName alpha3 stateProvinceColumn
         (snd (loadAndPopulateAreaData w)))
  = Return (entriesOf (locationsFor apiName
                         (fetchedLocations w "calculation")
                         (fetchedLocations w "mobile"))
              alpha3 "stateProvinces")
  /\ fst (getAreaDataForCountry apiName alpha3 powerGridColumn
            (snd (loadAndPopulateAreaData w)))
     = Return (entriesOf (locationsFor apiName
                            (fetchedLocations w "calculation")
                            (fetchedLocations w "mobile"))
                 alpha3 "powerGrids").
Proof.
  intros Hr Hin.
  destruct (population_lookup_values apiName w Hr Hin)
    as [values [Hv [_ [Hs Hp]]]].
  unfold getAreaDataForCountry, bind. rewrite Hv. unfold ret. cbn [fst].
  now rewrite Hs, Hp.
Qed.

Lemma population_serves_area_entries_witness :
  fst (getAreaDataForCountry "factor" "USA" stateProvinceColumn
         (snd (loadAndPopulateAreaData
                 (Examples.withRemote Examples.noTypes Examples.mobileRejected
                    [] 1700000000000))))
  = Return (entriesOf (locationsFor "factor"
                         (fetchedLocations
                            (Examples.withRemote Examples.noTypes
                               Examples.mobileRejected [] 1700000000000)
                            "calculation")
                         (fetchedLocations
                            (Examples.withRemote Examples.noTypes
                               Examples.mobileRejected [] 1700000000000)
                            "mobile"))
              "USA" "stateProvinces").
Proof.
  apply (population_serves_area_entries "factor" "USA"
           (Examples.withRemote Examples.noTypes Examples.mobileRejected
              [] 1700000000000)).
  - reflexivity.
  - cbn. auto 10.
Defined.

(** X15.  The round trip of a list of states: when the first location
    with the given code carries the states as strings that are not
    empty, hold no comma and have no white space at their ends, the
    lookup after the population returns exactly those strings. *)
Theorem states_round_trip (apiName alpha3 : string) (w : World)
  (location : JS.value) (states : list string) :
  fst (loadAndPopulateAreaData w) = Return tt ->
  In apiName VALID_API_NAMES ->
  find (fun l => alpha3Text l =? alpha3)
       (locationsFor apiName (fetchedLocations w "calculation")
          (fetchedLocations w "mobile")) = Some location ->
  JS.optProp location "stateProvinces" = JS.VArr (map JS.VStr states) ->
  forallb cleanItem states = true ->
  fst (getAreaDataForCountry apiName alpha3 stateProvinceColumn
         (snd (loadAndPopulateAreaData w)))
  = Return states.
Proof.
  intros Hr Hin Hfind Hprop Hclean.
  destruct (population_lookup_values apiName w Hr Hin)
    as [values [Hv [_ [Hs _]]]].
  unfold getAreaDataForCountry, bind. rewrite Hv. unfold ret. cbn [fst].
  rewrite Hs. unfold entriesOf. rewrite Hfind.
  unfold listText. rewrite Hprop. unfold JS.joinValues.
  rewrite map_map. cbn [JS.isNullish JS.toString]. rewrite map_id.
  f_equal. unfold splitList.
  destruct states as [|x r]; [reflexivity|].
  rewrite (split_join_trimmed x r Hclean).
  now apply cleanItem_not_empty.
Qed.

Lemma states_round_trip_witness :
  fst (getAreaDataForCountry "calculation" "USA" stateProvinceColumn
         (snd (loadAndPopulateAreaData
                 (Examples.withRemote Examples.noTypes Examples.mobileRejected
                    [] 1700000000000))))
  = Return ["California"; "Texas"].
Proof.
  apply (states_round_trip "calculation" "USA"
           (Examples.withRemote Examples.noTypes Examples.mobileRejected
              [] 1700000000000)
           (Examples.location "USA" "United States"
              ["California"; "Texas"] ["WECC"])
           ["California"; "Texas"]).
  - reflexivity.
  - cbn. auto 10.
  - reflexivity.
  - reflexivity.
  - reflexivity.
Defined.

End ReadBack.

(** *** What a lookup leaves behind *)

Section Outcome.
Import MetadataUtils AreaLoader ApiTypesLoader AreaHandler TypesHandler
  UnitsHandler.

Lemma failsClean_preserves {A} (c : M A) :
  preserves validations c -> failsClean c.
Proof.
  intros H w. specialize (H w). destruct (c w) as [[e|a] w1]; [exact H|exact I].
Qed.

Lemma failsClean_bind {A B} (c : M A) (k : A -> M B) :
  preserves validations c -> (forall a, failsClean (k a)) ->
  failsClean (bind c k).
Proof.
  intros Hc Hk w. unfold bind. specialize (Hc w).
  destruct (c w) as [[e|a] w1]; cbn [snd] in Hc; [exact Hc|].
  specialize (Hk a w1). destruct (k a w1) as [[e|b] w2]; [congruence|exact I].
Qed.

Lemma failsClean_rethrow {A} (c : M A) (f : exn -> exn) :
  failsClean c -> failsClean (tryCatch c (fun e => throw (f e))).
Proof.
  intros Hc w. unfold tryCatch, throw. specialize (Hc w).
  destruct (c w) as [[e|a] w1]; [exact Hc|exact I].
Qed.

Lemma failsClean_then_ret {A B} (c : M A) (b : B) :
  failsClean c -> failsClean (bind c (fun _ => ret b)).
Proof.
  intros Hc w. unfold bind, ret. specialize (Hc w).
  destruct (c w) as [[e|a] w1]; [exact Hc|exact I].
Qed.

(** Attaching the list is all or nothing. *)
Lemma applyListValidation_failsClean (targetCell : Range)
  (values : list JS.value) (title message : string) :
  failsClean (applyListValidation targetCell values title message).
Proof.
  intros w. unfold applyListValidation, bind, ask, modify, throw.
  destruct (Excel.findSheet (rangeSheet targetCell) (worksheets w));
    [exact I|reflexivity].
Qed.

Lemma applyDataValidation_failsClean (address name : string) :
  failsClean (applyDataValidation address name).
Proof.
  unfold applyDataValidation.
  destruct (lookup name API_COLUMN_MAP) as [columnIndex|];
    [|apply failsClean_preserves, preserves_throw].
  apply failsClean_bind; [apply preserves_emit; reflexivity|]. intros _.
  apply failsClean_bind; [apply preserves_ask|]. intros ws.
  destruct (Excel.findSheet API_TYPES_SHEET_NAME ws) as [sheet|];
    [|apply failsClean_preserves, preserves_throw].
  apply failsClean_bind; [apply preserves_lift|]. intros values.
  apply failsClean_bind; [apply getTargetCell_frame|]. intros targetCell.
  apply applyListValidation_failsClean.
Qed.

Lemma fetchUnits_validations (name type : string) :
  preserves validations (fetchUnits name type).
Proof. unfold fetchUnits. frame. Qed.

Lemma attach_failsClean (address : string) (values : list JS.value)
  (title message : string) :
  failsClean
    (targetCell <- getTargetCell address ;;
     applyListValidation targetCell values title message ;;
     ret "").
Proof.
  apply failsClean_bind; [apply getTargetCell_frame|]. intros targetCell.
  apply failsClean_then_ret, applyListValidation_failsClean.
Qed.

Lemma getAlpha3CodesForApi_validations (name : string) :
  preserves validations (getAlpha3CodesForApi name).
Proof.
  unfold getAlpha3CodesForApi.
  apply preserves_bind; [apply areaSheetValues_validations|].
  intros values. apply preserves_ret.
Qed.

Lemma getAreaDataForCountry_validations (name alpha3 : string) (col : nat) :
  preserves validations (getAreaDataForCountry name alpha3 col).
Proof.
  unfold getAreaDataForCountry.
  apply preserves_bind; [apply areaSheetValues_validations|].
  intros values. apply preserves_ret.
Qed.

Lemma rethrown_outcome (c : M string) (message : string) (w : World) :
  (forall s w', c w = (Return s, w') -> s = "") ->
  lookupOutcome
    (fst (tryCatch c
            (fun error => throw (handleCustomFunctionError error message)) w)).
Proof.
  intros H. unfold tryCatch, throw.
  destruct (c w) as [[e|s] w1] eqn:E; cbn [fst lookupOutcome].
  - destruct e; exact I.
  - now apply (H s w1).
Qed.

Lemma bind_returns {A B} (c : M A) (k : A -> M B) (w w' : World) (b : B) :
  bind c k w = (Return b, w') ->
  exists a w1, c w = (Return a, w1) /\ k a w1 = (Return b, w').
Proof.
  unfold bind. destruct (c w) as [[e|a] w1]; [discriminate|].
  intros H. now exists a, w1.
Qed.

Lemma attach_returns (address : string) (values : list JS.value)
  (title message s : string) (w w' : World) :
  (targetCell <- getTargetCell address ;;
   applyListValidation targetCell values title message ;;
   ret "") w = (Return s, w') ->
  s = "".
Proof.
  intros H. apply bind_returns in H as [t [w1 [_ H]]].
  apply bind_returns in H as [u [w2 [_ H]]].
  unfold ret in H. now injection H as <- _.
Qed.

(** X16.  A lookup ends in one of two ways: it returns the empty
    string, or it throws a [CustomFunctions.Error]; no other error
    leaves a handler.  When it throws, the validation rules of the
    workbook are what they were before the call. *)
Theorem lookup_fails_cleanly (apiName address : string)
  (parameter : JS.value) (w : World) :
  let outcome (r : completion string * World) :=
    lookupOutcome (fst r)
    /\ (forall e, fst r = Throw e -> validations (snd r) = validations w) in
  outcome (handleCountryFunction apiName address w)
  /\ outcome (handleStateProvinceFunction apiName parameter address w)
  /\ outcome (handlePowerGridFunction apiName parameter address w)
  /\ outcome (handleTypesFunction apiName address w)
  /\ outcome (handleUnitsFunction apiName parameter address w).
Proof.
  cbv zeta.
  assert (Hclean : forall (c : M string),
            failsClean c ->
            forall e, fst (c w) = Throw e ->
                      validations (snd (c w)) = validations w).
  { intros c Hc e He. specialize (Hc w).
    destruct (c w) as [[e'|s] w1]; cbn [fst snd] in *;
      [exact Hc|discriminate]. }
  split; [|split; [|split; [|split]]]; split.
  - apply rethrown_outcome. intros s w' H.
    apply bind_returns in H as [name [w1 [_ H]]].
    apply bind_returns in H as [codes [w2 [_ H]]].
    destruct (List.length codes =? 0)%nat; [discriminate|].
    now apply attach_returns in H.
  - apply Hclean. apply failsClean_rethrow.
    apply failsClean_bind; [apply prepareAreaData_validations|]. intros name.
    apply failsClean_bind; [apply getAlpha3CodesForApi_validations|].
    intros codes. destruct (List.length codes =? 0)%nat;
      [apply failsClean_preserves, preserves_throw|apply attach_failsClean].
  - apply rethrown_outcome. intros s w' H.
    destruct (missingParameter parameter); [discriminate|].
    apply bind_returns in H as [name [w1 [_ H]]].
    apply bind_returns in H as [items [w2 [_ H]]].
    destruct (List.length items =? 0)%nat; [discriminate|].
    now apply attach_returns in H.
  - apply Hclean. apply failsClean_rethrow.
    destruct (missingParameter parameter);
      [apply failsClean_preserves, preserves_throw|].
    apply failsClean_bind; [apply prepareAreaData_validations|]. intros name.
    apply failsClean_bind; [apply getAreaDataForCountry_validations|].
    intros items. destruct (List.length items =? 0)%nat;
      [apply failsClean_preserves, preserves_throw|apply attach_failsClean].
  - apply rethrown_outcome. intros s w' H.
    destruct (missingParameter parameter); [discriminate|].
    apply bind_returns in H as [name [w1 [_ H]]].
    apply bind_returns in H as [items [w2 [_ H]]].
    destruct (List.length items =? 0)%nat; [discriminate|].
    now apply attach_returns in H.
  - apply Hclean. apply failsClean_rethrow.
    destruct (missingParameter parameter);
      [apply failsClean_preserves, preserves_throw|].
    apply failsClean_bind; [apply prepareAreaData_validations|]. intros name.
    apply failsClean_bind; [apply getAreaDataForCountry_validations|].
    intros items. destruct (List.length items =? 0)%nat;
      [apply failsClean_preserves, preserves_throw|apply attach_failsClean].
  - apply rethrown_outcome. intros s w' H.
    apply bind_returns in H as [name [w1 [_ H]]].
    apply bind_returns in H as [u [w2 [_ H]]].
    unfold ret in H. now injection H as <- _.
  - apply Hclean. apply failsClean_rethrow.
    apply failsClean_bind; [apply prepareTypesData_validations|]. intros name.
    apply failsClean_then_ret, applyDataValidation_failsClean.
  - apply rethrown_outcome. intros s w' H.
    destruct (missingParameter parameter); [discriminate|].
    apply bind_returns in H as [u0 [w0 [_ H]]].
    apply bind_returns in H as [name [w1 [_ H]]].
    apply bind_returns in H as [units [w2 [_ H]]].
    apply bind_returns in H as [u [w3 [_ H]]].
    unfold ret in H. now injection H as <- _.
  - apply Hclean. apply failsClean_rethrow.
    destruct (missingParameter parameter);
      [apply failsClean_preserves, preserves_throw|].
    apply failsClean_bind; [unfold Client.ensureClient; frame|]. intros _.
    apply failsClean_bind; [apply preserves_lift|]. intros name.
    apply failsClean_bind; [apply fetchUnits_validations|]. intros units.
    apply failsClean_then_ret. unfold applyUnitsValidation.
    apply failsClean_bind; [apply getTargetCell_frame|]. intros targetCell.
    apply applyListValidation_failsClean.
Qed.

Lemma lookup_fails_cleanly_witness :
  validations
    (snd (handleCountryFunction "mobile" "Sheet1!A1"
            (Examples.signedOut [] 1700000000000)))
  = validations (Examples.signedOut [] 1700000000000).
Proof.
  apply (proj2 (proj1 (lookup_fails_cleanly "mobile" "Sheet1!A1"
                         (JS.VStr "USA")
                         (Examples.signedOut [] 1700000000000)))
           (CustomFunctionsError notAvailable
              "Enter your credentials in the task pane.")).
  reflexivity.
Defined.

(** The active sheet is not changed by what precedes the attachment. *)
Lemma loadAndPopulateAreaData_active :
  preserves activeSheet loadAndPopulateAreaData.
Proof.
  unfold loadAndPopulateAreaData, fetchAllAreaData, fetchAreaFor,
    writeAreaDataToSheet, addHiddenSheet, setSheetMetadata.
  frame.
Qed.

Lemma loadAndPopulateApiTypes_active :
  preserves activeSheet loadAndPopulateApiTypes.
Proof.
  unfold loadAndPopulateApiTypes, fetchAllApiTypes, fetchTypesFor,
    writeApiTypesToSheet, addHiddenSheet, setSheetMetadata,
    Client.ensureClient.
  frame.
Qed.

Lemma refreshSheetIfStale_active (sheetName : string) (populate : M unit) :
  preserves activeSheet populate ->
  preserves activeSheet (refreshSheetIfStale sheetName populate).
Proof.
  intros H.
  unfold refreshSheetIfStale, sheetExists, isSheetDataStale, getSheetMetadata,
    deleteSheetIfExists.
  frame; exact H.
Qed.

Lemma prepareAreaData_active (apiName : string) :
  preserves activeSheet (prepareAreaData apiName).
Proof.
  unfold prepareAreaData.
  apply preserves_bind; [unfold Client.ensureClient; frame|]. intros _.
  apply preserves_bind; [apply preserves_lift|]. intros name.
  apply preserves_bind;
    [apply refreshSheetIfStale_active, loadAndPopulateAreaData_active|].
  intros _.
  apply preserves_bind; [|intros _; apply preserves_ret].
  unfold ensureAreaDataSheet, areaDataSheetExists.
  frame; apply loadAndPopulateAreaData_active.
Qed.

Lemma prepareTypesData_active (apiName : string) :
  preserves activeSheet (prepareTypesData apiName).
Proof.
  unfold prepareTypesData.
  apply preserves_bind; [unfold Client.ensureClient; frame|]. intros _.
  apply preserves_bind; [apply preserves_lift|]. intros name.
  apply preserves_bind;
    [apply refreshSheetIfStale_active, loadAndPopulateApiTypes_active|].
  intros _.
  apply preserves_bind; [|intros _; apply preserves_ret].
  unfold ensureApiTypesSheet, apiTypesSheetExists.
  frame; apply loadAndPopulateApiTypes_active.
Qed.

Lemma areaSheetValues_active : preserves activeSheet areaSheetValues.
Proof. unfold areaSheetValues. frame. Qed.

(** The cell an address names depends on the active sheet only. *)
Lemma getTargetCell_run (address : string) (w : World) :
  exists targetCell,
    getTargetCell address w = (Return targetCell, w)
    /\ forall w1, activeSheet w1 = activeSheet w ->
                  getTargetCell address w1 = (Return targetCell, w1).
Proof.
  unfold getTargetCell.
  destruct (if JS.hasChar "!" address then _ else _) as [sheetName cellRef].
  destruct (negb (sheetName =? "")).
  - eexists. split; [reflexivity|]. intros w1 _. reflexivity.
  - unfold bind, ask, ret. eexists. split; [reflexivity|].
    intros w1 E. now rewrite E.
Qed.

Lemma sameCell_refl (sheet ref : string) (v : Excel.Validation) :
  sameCell sheet ref (sheet, ref, v) = true.
Proof. unfold sameCell. now rewrite !String.eqb_refl. Qed.

Lemma filter_filter_other (sheet ref sheet' ref' : string)
  (vs : list (string * string * Excel.Validation)) :
  sheet' <> sheet \/ ref' <> ref ->
  filter (sameCell sheet' ref')
    (filter (fun e => negb (sameCell sheet ref e)) vs)
  = filter (sameCell sheet' ref') vs.
Proof.
  intros Hne. induction vs as [|[[s r] v] vs IH]; [reflexivity|].
  cbn [filter].
  destruct (sameCell sheet ref (s, r, v)) eqn:E1; cbn [negb filter].
  - destruct (sameCell sheet' ref' (s, r, v)) eqn:E2; [|exact IH].
    unfold sameCell in E1, E2.
    apply andb_prop in E1 as [A1 B1]. apply andb_prop in E2 as [A2 B2].
    apply String.eqb_eq in A1, B1, A2, B2. subst.
    destruct Hne as [H|H]; contradiction.
  - now rewrite IH.
Qed.

(** The rules after an attachment that returned. *)
Lemma attached_rules (targetCell : Range) (values : list JS.value)
  (title message : string) (w w' : World) (u : unit) :
  applyListValidation targetCell values title message w = (Return u, w') ->
  List.length (rulesAt (rangeSheet targetCell) (rangeRef targetCell) w') = 1
  /\ (forall sheet' ref',
        sheet' <> rangeSheet targetCell \/ ref' <> rangeRef targetCell ->
        rulesAt sheet' ref' w' = rulesAt sheet' ref' w)
  /\ exists rule,
       rulesAt (rangeSheet targetCell) (rangeRef targetCell) w'
       = [(rangeSheet targetCell, rangeRef targetCell, rule)]
       /\ Excel.source rule = JS.joinValues "," values
       /\ Excel.alertTitle rule = title
       /\ Excel.alertMessage rule = message.
Proof.
  unfold applyListValidation, bind, ask, modify, throw.
  destruct (Excel.findSheet (rangeSheet targetCell) (worksheets w));
    [|discriminate].
  intros H. injection H as _ <-.
  assert (Hsame : rulesAt (rangeSheet targetCell) (rangeRef targetCell)
                    (setValidations
                       ((rangeSheet targetCell, rangeRef targetCell,
                         Excel.mkValidation (JS.joinValues "," values) true
                           title message)
                        :: filter
                             (fun e => negb (sameCell (rangeSheet targetCell)
                                               (rangeRef targetCell) e))
                             (validations w)) w)
                  = [(rangeSheet targetCell, rangeRef targetCell,
                      Excel.mkValidation (JS.joinValues "," values) true
                        title message)]).
  { unfold rulesAt. cbn [validations setValidations filter].
    rewrite sameCell_refl. f_equal.
    induction (validations w) as [|e vs IH]; [reflexivity|].
    cbn [filter]. destruct (sameCell _ _ e) eqn:E; cbn [negb filter];
      [exact IH|]. now rewrite E. }
  split; [now rewrite Hsame|]. split.
  - intros sheet' ref' Hne. unfold rulesAt.
    cbn [validations setValidations filter].
    assert (E : sameCell sheet' ref'
                  (rangeSheet targetCell, rangeRef targetCell,
                   Excel.mkValidation (JS.joinValues "," values) true
                     title message) = false).
    { unfold sameCell. apply andb_false_iff.
      destruct Hne as [H|H]; [left|right]; apply String.eqb_neq; congruence. }
    rewrite E. now apply filter_filter_other.
  - eexists. split; [exact Hsame|]. repeat split.
Qed.

Lemma attaches_bind {A B} (address : string) (c : M A) (k : A -> M B) :
  preserves validations c -> preserves activeSheet c ->
  (forall a, attaches address (k a)) ->
  attaches address (bind c k).
Proof.
  intros Hv Ha Hk w b w' targetCell H Ht.
  apply bind_returns in H as [a [w1 [Hc H]]].
  specialize (Hv w). specialize (Ha w). rewrite Hc in Hv, Ha.
  cbn [snd] in Hv, Ha.
  destruct (getTargetCell_run address w) as [t [Hrun Hsame]].
  rewrite Hrun in Ht. cbn [fst] in Ht. injection Ht as ->.
  specialize (Hk a w1 b w' targetCell H).
  rewrite (Hsame w1 Ha) in Hk. specialize (Hk eq_refl).
  destruct Hk as [H1 H2]. split; [exact H1|].
  intros sheet' ref' Hne. rewrite (H2 sheet' ref' Hne).
  unfold rulesAt. now rewrite Hv.
Qed.

Lemma attaches_throw {A} (address : string) (e : exn) :
  attaches address (@throw A e).
Proof. intros w a w' t H. discriminate H. Qed.

Lemma attaches_then_ret {A B} (address : string) (c : M A) (b : B) :
  attaches address c -> attaches address (bind c (fun _ => ret b)).
Proof.
  intros Hc w b' w' t H Ht.
  apply bind_returns in H as [a [w1 [H1 H2]]].
  unfold ret in H2. injection H2 as _ <-.
  exact (Hc w a w1 t H1 Ht).
Qed.

Lemma attaches_rethrow {A} (address : string) (c : M A) (f : exn -> exn) :
  attaches address c ->
  attaches address (tryCatch c (fun e => throw (f e))).
Proof.
  intros Hc w a w' t H Ht. unfold tryCatch, throw in H.
  destruct (c w) as [[e|a'] w1] eqn:E; [discriminate|].
  injection H as <- <-. exact (Hc w a' w1 t E Ht).
Qed.

Lemma applyListValidation_attaches (address : string)
  (values : list JS.value) (title message : string) :
  attaches address
    (targetCell <- getTargetCell address ;;
     applyListValidation targetCell values title message).
Proof.
  intros w u w' t H Ht.
  destruct (getTargetCell_run address w) as [t' [Hrun _]].
  rewrite Hrun in Ht. cbn [fst] in Ht. injection Ht as ->.
  unfold bind in H. rewrite Hrun in H.
  destruct (attached_rules t values title message w w' u H) as [H1 [H2 _]].
  split; assumption.
Qed.

Lemma attach_attaches (address : string) (values : list JS.value)
  (title message : string) :
  attaches address
    (targetCell <- getTargetCell address ;;
     applyListValidation targetCell values title message ;;
     ret "").
Proof.
  intros w s w' t H Ht.
  destruct (getTargetCell_run address w) as [t' [Hrun _]].
  rewrite Hrun in Ht. cbn [fst] in Ht. injection Ht as ->.
  unfold bind in H. rewrite Hrun in H.
  destruct (applyListValidation t values title message w)
    as [[e|u] w2] eqn:E; [discriminate|].
  unfold ret in H. injection H as _ <-.
  destruct (attached_rules t values title message w w2 u E) as [H1 [H2 _]].
  split; assumption.
Qed.

Lemma fetchUnits_active (name type : string) :
  preserves activeSheet (fetchUnits name type).
Proof. unfold fetchUnits. frame. Qed.

(** X17.  A lookup that returns has attached exactly one validation
    rule to the cell its address names (the cell of the address on the
    sheet it names, or on the active sheet when it names none): an
    earlier rule of that cell is replaced, and the rules of every other
    cell are what they were. *)
Theorem returning_lookup_attaches_one_rule (apiName address : string)
  (parameter : JS.value) :
  attaches address (handleCountryFunction apiName address)
  /\ attaches address
       (handleStateProvinceFunction apiName parameter address)
  /\ attaches address (handlePowerGridFunction apiName parameter address)
  /\ attaches address (handleTypesFunction apiName address)
  /\ attaches address (handleUnitsFunction apiName parameter address).
Proof.
  assert (Hread : forall name alpha3 col,
            preserves activeSheet (getAreaDataForCountry name alpha3 col)).
  { intros. unfold getAreaDataForCountry.
    apply preserves_bind; [apply areaSheetValues_active|].
    intros values. apply preserves_ret. }
  split; [|split; [|split; [|split]]]; apply attaches_rethrow.
  - apply attaches_bind;
      [apply prepareAreaData_validations|apply prepareAreaData_active|].
    intros name. apply attaches_bind;
      [apply getAlpha3CodesForApi_validations| |].
    + unfold getAlpha3CodesForApi.
      apply preserves_bind; [apply areaSheetValues_active|].
      intros values. apply preserves_ret.
    + intros codes. destruct (List.length codes =? 0)%nat;
        [apply attaches_throw|apply attach_attaches].
  - destruct (missingParameter parameter); [apply attaches_throw|].
    apply attaches_bind;
      [apply prepareAreaData_validations|apply prepareAreaData_active|].
    intros name. apply attaches_bind;
      [apply getAreaDataForCountry_validations|apply Hread|].
    intros items. destruct (List.length items =? 0)%nat;
      [apply attaches_throw|apply attach_attaches].
  - destruct (missingParameter parameter); [apply attaches_throw|].
    apply attaches_bind;
      [apply prepareAreaData_validations|apply prepareAreaData_active|].
    intros name. apply attaches_bind;
      [apply getAreaDataForCountry_validations|apply Hread|].
    intros items. destruct (List.length items =? 0)%nat;
      [apply attaches_throw|apply attach_attaches].
  - apply attaches_bind;
      [apply prepareTypesData_validations|apply prepareTypesData_active|].
    intros name. apply attaches_then_ret.
    unfold applyDataValidation.
    destruct (lookup name API_COLUMN_MAP) as [columnIndex|];
      [|apply attaches_throw].
    apply attaches_bind;
      [apply preserves_emit; reflexivity
      |apply preserves_emit; reflexivity|].
    intros _. apply attaches_bind; [apply preserves_ask|apply preserves_ask|].
    intros ws.
    destruct (Excel.findSheet API_TYPES_SHEET_NAME ws) as [sheet|];
      [|apply attaches_throw].
    apply attaches_bind; [apply preserves_lift|apply preserves_lift|].
    intros values. apply applyListValidation_attaches.
  - destruct (missingParameter parameter); [apply attaches_throw|].
    apply attaches_bind;
      [unfold Client.ensureClient; frame
      |unfold Client.ensureClient; frame|].
    intros _. apply attaches_bind; [apply preserves_lift|apply preserves_lift|].
    intros name. apply attaches_bind;
      [apply fetchUnits_validations|apply fetchUnits_active|].
    intros units. apply attaches_then_ret.
    apply applyListValidation_attaches.
Qed.

Lemma returning_lookup_attaches_one_rule_witness :
  let w := Examples.workbook [Examples.areaSheet Examples.testRows]
             1700000000000 in
  attachedTo (mkRange "Sheet1" "A1") w
    (snd (handleCountryFunction "mobile" "Sheet1!A1" w)).
Proof.
  intros w.
  apply (proj1 (returning_lookup_attaches_one_rule "mobile" "Sheet1!A1"
                  (JS.VStr "USA"))
           w "" (snd (handleCountryFunction "mobile" "Sheet1!A1" w))
           (mkRange "Sheet1" "A1"));
    reflexivity.
Defined.

End Outcome.

(** *** The list a lookup attaches *)

Section Content.
Import MetadataUtils AreaLoader ApiTypesLoader AreaHandler TypesHandler
  UnitsHandler.

Lemma tryCatch_returns {A} (c : M A) (f : exn -> exn) (w w' : World) (a : A) :
  tryCatch c (fun e => throw (f e)) w = (Return a, w') ->
  c w = (Return a, w').
Proof.
  unfold tryCatch, throw. destruct (c w) as [[e|a'] w1]; [discriminate|].
  intros H. exact H.
Qed.

Lemma joinValues_strings (sep : string) (items : list string) :
  JS.joinValues sep (map JS.VStr items) = JS.join sep items.
Proof.
  unfold JS.joinValues. rewrite map_map. cbn [JS.isNullish JS.toString].
  now rewrite map_id.
Qed.

(** The rule of the target cell after an attachment that returned. *)
Lemma attach_content (address : string) (values : list JS.value)
  (title message s : string) (w w' : World) :
  (targetCell <- getTargetCell address ;;
   applyListValidation targetCell values title message ;;
   ret "") w = (Return s, w') ->
  exists targetCell,
    (forall w0, activeSheet w0 = activeSheet w ->
                fst (getTargetCell address w0) = Return targetCell)
    /\ rulesAt (rangeSheet targetCell) (rangeRef targetCell) w'
       = [ (rangeSheet targetCell, rangeRef targetCell,
            Excel.mkValidation (JS.joinValues "," values) true
              title message) ]
    /\ worksheets w' = worksheets w.
Proof.
  intros H.
  destruct (getTargetCell_run address w) as [t [Hrun Hsame]].
  unfold bind in H. rewrite Hrun in H.
  destruct (applyListValidation t values title message w)
    as [[e|u] w2] eqn:E; [discriminate|].
  unfold ret in H. injection H as _ <-.
  exists t. split; [intros w0 H0; now rewrite (Hsame w0 H0)|].
  revert E. unfold applyListValidation, bind, ask, modify, throw.
  destruct (Excel.findSheet (rangeSheet t) (worksheets w)); [|discriminate].
  intros H. injection H as _ <-. split; [|reflexivity].
  unfold rulesAt. cbn [validations setValidations filter].
  rewrite sameCell_refl. f_equal.
  induction (validations w) as [|e vs IH]; [reflexivity|].
  cbn [filter]. destruct (sameCell _ _ e) eqn:E; cbn [negb filter];
    [exact IH|]. now rewrite E.
Qed.

(** What [prepareAreaData] returns is the validated name. *)
Lemma prepareAreaData_name (apiName name : string) (w w1 : World) :
  prepareAreaData apiName w = (Return name, w1) ->
  validateApiName apiName = Return name.
Proof.
  unfold prepareAreaData. intros H.
  apply bind_returns in H as [u [w0 [_ H]]].
  apply bind_returns in H as [n [w2 [Hn H]]].
  apply bind_returns in H as [b [w3 [_ H]]].
  apply bind_returns in H as [u' [w4 [_ H]]].
  unfold ret in H. injection H as <- _.
  unfold lift in Hn. now injection Hn as ->.
Qed.

Lemma prepareTypesData_name (apiName name : string) (w w1 : World) :
  prepareTypesData apiName w = (Return name, w1) ->
  validateApiName apiName = Return name.
Proof.
  unfold prepareTypesData. intros H.
  apply bind_returns in H as [u [w0 [_ H]]].
  apply bind_returns in H as [n [w2 [Hn H]]].
  apply bind_returns in H as [b [w3 [_ H]]].
  apply bind_returns in H as [u' [w4 [_ H]]].
  unfold ret in H. injection H as <- _.
  unfold lift in Hn. now injection Hn as ->.
Qed.

Lemma areaSheetValues_returns (values : Excel.Grid) (w w' : World) :
  areaSheetValues w = (Return values, w') ->
  exists sheet,
    Excel.findSheet AREA_DATA_SHEET_NAME (worksheets w) = Some sheet
    /\ values = Excel.usedRangeValues (Excel.cells sheet)
    /\ worksheets w' = worksheets w
    /\ activeSheet w' = activeSheet w.
Proof.
  unfold areaSheetValues, bind, emit, ask, ret, throw.
  cbn [worksheets addEvent].
  destruct (Excel.findSheet AREA_DATA_SHEET_NAME (worksheets w)) as [sheet|];
    [|discriminate].
  intros H. injection H as <- <-. exists sheet. repeat split.
Qed.

(** X18.  The list of a country, state or power-grid lookup that
    returned is the list the area sheet holds when the lookup returns:
    the rule of the target cell has as source the entries read from the
    used range of [API_Area_Data] for the validated API name (and the
    trimmed, upper-cased country), joined with commas, with the title
    and message of the lookup; the list is not empty. *)
Theorem area_rule_lists_the_sheet (apiName address s : string)
  (country : JS.value) (w w' : World) :
  let listed (entries : string -> Excel.Grid -> list string)
             (title message : string) :=
    exists name sheet targetCell,
      validateApiName apiName = Return name
      /\ Excel.findSheet AREA_DATA_SHEET_NAME (worksheets w') = Some sheet
      /\ fst (getTargetCell address w) = Return targetCell
      /\ entries name (Excel.usedRangeValues (Excel.cells sheet)) <> []
      /\ rulesAt (rangeSheet targetCell) (rangeRef targetCell) w'
         = [ (rangeSheet targetCell, rangeRef targetCell,
              Excel.mkValidation
                (JS.join ","
                   (entries name (Excel.usedRangeValues (Excel.cells sheet))))
                true title message) ] in
  (handleCountryFunction apiName address w = (Return s, w') ->
   listed alpha3CodesIn "Invalid Country"
     "Please select a valid country code from the dropdown list")
  /\ (handleStateProvinceFunction apiName country address w = (Return s, w') ->
      listed (fun name =>
                areaDataIn name (JS.toUpperCase (JS.trim (stringOf country)))
                  stateProvinceColumn)
        "Invalid State/Province"
        "Please select a valid state/province from the dropdown list")
  /\ (handlePowerGridFunction apiName country address w = (Return s, w') ->
      listed (fun name =>
                areaDataIn name (JS.toUpperCase (JS.trim (stringOf country)))
                  powerGridColumn)
        "Invalid Power Grid"
        "Please select a valid power grid from the dropdown list").
Proof.
  cbv zeta.
  assert (Hgen : forall (read : string -> M (list string))
                        (entries : string -> Excel.Grid -> list string)
                        (failure : exn) (title message : string),
            (forall name, read name
                          = (values <- areaSheetValues ;;
                             ret (entries name values))) ->
            (normalizedApiName <- prepareAreaData apiName ;;
             items <- read normalizedApiName ;;
             if (List.length items =? 0)%nat then throw failure
             else
               targetCell <- getTargetCell address ;;
               applyListValidation targetCell (map JS.VStr items)
                 title message ;;
               ret "") w = (Return s, w') ->
            exists name sheet targetCell,
              validateApiName apiName = Return name
              /\ Excel.findSheet AREA_DATA_SHEET_NAME (worksheets w')
                 = Some sheet
              /\ fst (getTargetCell address w) = Return targetCell
              /\ entries name (Excel.usedRangeValues (Excel.cells sheet))
                 <> []
              /\ rulesAt (rangeSheet targetCell) (rangeRef targetCell) w'
                 = [ (rangeSheet targetCell, rangeRef targetCell,
                      Excel.mkValidation
                        (JS.join ","
                           (entries name
                              (Excel.usedRangeValues (Excel.cells sheet))))
                        true title message) ]).
  { intros read entries failure title message Hread H.
    apply bind_returns in H as [name [w1 [Hprep H]]].
    apply bind_returns in H as [items [w2 [Hitems H]]].
    rewrite Hread in Hitems.
    apply bind_returns in Hitems as [values [w2' [Hvalues Hret]]].
    unfold ret in Hret. injection Hret as <- <-.
    apply areaSheetValues_returns in Hvalues
      as [sheet [Hsheet [-> [Hws Hact]]]].
    destruct (List.length _ =? 0)%nat eqn:Hlen; [discriminate|].
    apply attach_content in H as [t [Ht [Hrule Hws']]].
    exists name, sheet, t.
    split; [exact (prepareAreaData_name _ _ _ _ Hprep)|].
    split; [now rewrite Hws', Hws|].
    split.
    { apply Ht. rewrite Hact.
      pose proof (prepareAreaData_active apiName w) as Hp.
      now rewrite Hprep in Hp. }
    split.
    { intros E. rewrite E in Hlen. discriminate. }
    now rewrite joinValues_strings in Hrule. }
  split; [|split]; intros H; apply tryCatch_returns in H.
  - exact (Hgen getAlpha3CodesForApi alpha3CodesIn _ _ _
             ltac:(reflexivity) H).
  - destruct (missingParameter country); [discriminate|].
    exact (Hgen (fun name =>
                   getAreaDataForCountry name
                     (JS.toUpperCase (JS.trim (stringOf country)))
                     stateProvinceColumn)
             (fun name =>
                areaDataIn name (JS.toUpperCase (JS.trim (stringOf country)))
                  stateProvinceColumn)
             _ _ _ ltac:(reflexivity) H).
  - destruct (missingParameter country); [discriminate|].
    exact (Hgen (fun name =>
                   getAreaDataForCountry name
                     (JS.toUpperCase (JS.trim (stringOf country)))
                     powerGridColumn)
             (fun name =>
                areaDataIn name (JS.toUpperCase (JS.trim (stringOf country)))
                  powerGridColumn)
             _ _ _ ltac:(reflexivity) H).
Qed.

Lemma area_rule_lists_the_sheet_witness :
  let w := Examples.workbook [Examples.areaSheet Examples.testRows]
             1700000000000 in
  exists name sheet targetCell,
    validateApiName "mobile" = Return name
    /\ Excel.findSheet AREA_DATA_SHEET_NAME
         (worksheets (snd (handleCountryFunction "mobile" "Sheet1!A1" w)))
       = Some sheet
    /\ fst (getTargetCell "Sheet1!A1" w) = Return targetCell
    /\ alpha3CodesIn name (Excel.usedRangeValues (Excel.cells sheet)) <> []
    /\ rulesAt (rangeSheet targetCell) (rangeRef targetCell)
         (snd (handleCountryFunction "mobile" "Sheet1!A1" w))
       = [ (rangeSheet targetCell, rangeRef targetCell,
            Excel.mkValidation
              (JS.join ","
                 (alpha3CodesIn name
                    (Excel.usedRangeValues (Excel.cells sheet))))
              true "Invalid Country"
              "Please select a valid country code from the dropdown list") ].
Proof.
  intros w.
  apply (proj1 (area_rule_lists_the_sheet "mobile" "Sheet1!A1" ""
                  (JS.VStr "USA") w
                  (snd (handleCountryFunction "mobile" "Sheet1!A1" w)))).
  reflexivity.
Defined.

(** X19.  The list of a types lookup that returned is the column of its
    API on [API_Types_Data] as the sheet is when the lookup returns: the
    rule of the target cell has as source the values [applyDataValidation]
    reads from the column [API_COLUMN_MAP] gives for the validated name,
    joined with commas. *)
Theorem types_rule_lists_the_column (apiName address s : string)
  (w w' : World) :
  handleTypesFunction apiName address w = (Return s, w') ->
  exists name columnIndex sheet targetCell values,
    validateApiName apiName = Return name
    /\ lookup name API_COLUMN_MAP = Some columnIndex
    /\ Excel.findSheet API_TYPES_SHEET_NAME (worksheets w') = Some sheet
    /\ columnOptions name columnIndex (Excel.cells sheet) = Return values
    /\ fst (getTargetCell address w) = Return targetCell
    /\ rulesAt (rangeSheet targetCell) (rangeRef targetCell) w'
       = [ (rangeSheet targetCell, rangeRef targetCell,
            Excel.mkValidation (JS.joinValues "," values) true
              "Invalid Type"
              "Please select a valid type from the dropdown list") ].
Proof.
  intros H. apply tryCatch_returns in H.
  apply bind_returns in H as [name [w1 [Hprep H]]].
  apply bind_returns in H as [u [w2 [H Hret]]].
  unfold ret in Hret. injection Hret as _ <-.
  unfold applyDataValidation in H.
  destruct (lookup name API_COLUMN_MAP) as [columnIndex|] eqn:Hcol;
    [|discriminate].
  apply bind_returns in H as [u1 [w3 [He H]]].
  unfold emit in He. injection He as _ <-.
  apply bind_returns in H as [ws [w4 [Ha H]]].
  unfold ask in Ha. injection Ha as <- <-.
  cbn [worksheets addEvent] in H.
  destruct (Excel.findSheet API_TYPES_SHEET_NAME (worksheets w1))
    as [sheet|] eqn:Hsheet; [|discriminate].
  apply bind_returns in H as [values [w5 [Hv H]]].
  unfold lift in Hv. injection Hv as Hv <-.
  assert (H' : (targetCell <- getTargetCell address ;;
                applyListValidation targetCell values "Invalid Type"
                  "Please select a valid type from the dropdown list" ;;
                ret "")
                 (addEvent (SheetRead API_TYPES_SHEET_NAME) w1)
               = (Return "", w2)).
  { unfold bind in H |- *.
    destruct (getTargetCell address _) as [[e|t] w6]; [discriminate|].
    rewrite H. reflexivity. }
  apply attach_content in H' as [t [Ht [Hrule Hws]]].
  exists name, columnIndex, sheet, t, values.
  split; [exact (prepareTypesData_name _ _ _ _ Hprep)|].
  split; [exact Hcol|].
  split; [rewrite Hws; exact Hsheet|].
  split; [exact Hv|].
  split; [|exact Hrule].
  apply Ht. cbn [activeSheet addEvent].
  pose proof (prepareTypesData_active apiName w) as Hp.
  now rewrite Hprep in Hp.
Qed.

Lemma types_rule_lists_the_column_witness :
  let w := Examples.withRemote Examples.locationRejected Examples.noArea
             [] 1700000000000 in
  exists name columnIndex sheet targetCell values,
    validateApiName "Mobile" = Return name
    /\ lookup name API_COLUMN_MAP = Some columnIndex
    /\ Excel.findSheet API_TYPES_SHEET_NAME
         (worksheets (snd (handleTypesFunction "Mobile" "Sheet1!B2" w)))
       = Some sheet
    /\ columnOptions name columnIndex (Excel.cells sheet) = Return values
    /\ fst (getTargetCell "Sheet1!B2" w) = Return targetCell
    /\ rulesAt (rangeSheet targetCell) (rangeRef targetCell)
         (snd (handleTypesFunction "Mobile" "Sheet1!B2" w))
       = [ (rangeSheet targetCell, rangeRef targetCell,
            Excel.mkValidation (JS.joinValues "," values) true
              "Invalid Type"
              "Please select a valid type from the dropdown list") ].
Proof.
  intros w.
  apply (types_rule_lists_the_column "Mobile" "Sheet1!B2" "" w
           (snd (handleTypesFunction "Mobile" "Sheet1!B2" w))).
  vm_compute. reflexivity.
Defined.

(** X20.  The list of a units lookup that returned is the answer of the
    service: the type was a string, the service resolved the request for
    the validated name and the trimmed type with a non-empty [units]
    array, and the rule of the target cell has those units, joined with
    commas, as source. *)
Theorem units_rule_lists_the_response (apiName address s : string)
  (type : JS.value) (w w' : World) :
  handleUnitsFunction apiName type address w = (Return s, w') ->
  exists name text response units targetCell,
    type = JS.VStr text
    /\ validateApiName apiName = Return name
    /\ getUnits w name (JS.trim text) = Resolved response
    /\ JS.optProp response "units" = JS.VArr units
    /\ units <> []
    /\ fst (getTargetCell address w) = Return targetCell
    /\ rulesAt (rangeSheet targetCell) (rangeRef targetCell) w'
       = [ (rangeSheet targetCell, rangeRef targetCell,
            Excel.mkValidation (JS.joinValues "," units) true
              "Invalid Unit"
              "Please select a valid unit from the dropdown list") ].
Proof.
  intros H. apply tryCatch_returns in H.
  destruct (missingParameter type) eqn:Hmiss; [discriminate|].
  assert (Htext : exists text, type = JS.VStr text).
  { unfold missingParameter in Hmiss. apply orb_false_elim in Hmiss as [_ Hm].
    destruct type; try discriminate Hm. now eexists. }
  destruct Htext as [text ->]. cbn [stringOf] in H.
  apply bind_returns in H as [u0 [w0 [Hclient H]]].
  apply bind_returns in H as [name [w1 [Hname H]]].
  unfold lift in Hname. injection Hname as Hname <-.
  apply bind_returns in H as [units [w2 [Hunits H]]].
  assert (H' : (targetCell <- getTargetCell address ;;
                applyListValidation targetCell units "Invalid Unit"
                  "Please select a valid unit from the dropdown list" ;;
                ret "") w2 = (Return s, w')).
  { unfold applyUnitsValidation in H. unfold bind in H |- *.
    destruct (getTargetCell address w2) as [[e|t] w6]; [discriminate|].
    exact H. }
  pose proof (attach_returns _ _ _ _ _ _ _ H') as ->.
  apply attach_content in H' as [t [Ht [Hrule Hws]]].
  assert (Hc : getUnits w0 = getUnits w /\ activeSheet w0 = activeSheet w).
  { pose proof (ensureClient_frame getUnits ltac:(reflexivity)
                  ltac:(reflexivity) w) as H1.
    pose proof (ensureClient_frame activeSheet ltac:(reflexivity)
                  ltac:(reflexivity) w) as H2.
    rewrite Hclient in H1, H2. split; assumption. }
  destruct Hc as [Hg Ha].
  revert Hunits. unfold fetchUnits, tryCatch, bind, emit, ask, throw, ret.
  cbn [getUnits addEvent].
  destruct (negb (JS.includes API_CLASS_MAP name)); [discriminate|].
  rewrite Hg.
  destruct (getUnits w name (JS.trim text)) as [m|response] eqn:Hresp;
    [discriminate|].
  destruct (negb (JS.truthy (JS.optProp response "units"))
            || negb (JS.isArray (JS.optProp response "units"))) eqn:Hshape;
    [discriminate|].
  destruct (List.length (JS.itemsOf (JS.optProp response "units")) =? 0)%nat
    eqn:Hlen; [discriminate|].
  intros Hu. injection Hu as <- <-.
  apply orb_false_elim in Hshape as [_ Harr].
  apply negb_false_iff in Harr.
  destruct (JS.optProp response "units") as [| | | | |items|] eqn:Hprop;
    try discriminate Harr.
  cbn [JS.itemsOf] in *.
  exists name, text, response, items, t.
  split; [reflexivity|]. split; [exact Hname|]. split; [exact Hresp|].
  split; [exact Hprop|].
  split; [intros E; rewrite E in Hlen; discriminate|].
  split; [|exact Hrule].
  apply Ht. cbn [activeSheet addEvent]. symmetry. exact Ha.
Qed.

Lemma units_rule_lists_the_response_witness :
  let w := Examples.withUnits [] 1700000000000 in
  exists name text response units targetCell,
    JS.VStr " Car " = JS.VStr text
    /\ validateApiName "Mobile" = Return name
    /\ getUnits w name (JS.trim text) = Resolved response
    /\ JS.optProp response "units" = JS.VArr units
    /\ units <> []
    /\ fst (getTargetCell "C3" w) = Return targetCell
    /\ rulesAt (rangeSheet targetCell) (rangeRef targetCell)
         (snd (handleUnitsFunction "Mobile" (JS.VStr " Car ") "C3" w))
       = [ (rangeSheet targetCell, rangeRef targetCell,
            Excel.mkValidation (JS.joinValues "," units) true
              "Invalid Unit"
              "Please select a valid unit from the dropdown list") ].
Proof.
  intros w.
  apply (units_rule_lists_the_response "Mobile" "C3" "" (JS.VStr " Car ") w
           (snd (handleUnitsFunction "Mobile" (JS.VStr " Car ") "C3" w))).
  vm_compute. reflexivity.
Defined.

End Content.

(** *** Factor search and factor retrieval *)

Section Factors.
Import FactorSearchHelper FactorHelper.

Lemma activityUnitOf_value (x : JS.value) :
  JS.isNullish (activityUnitOf x) = false.
Proof. destruct x; reflexivity. Qed.

Lemma coalesce_value (x d : JS.value) :
  JS.isNullish d = false -> JS.isNullish (JS.coalesce x d) = false.
Proof. intros H. unfold JS.coalesce. destruct x; cbn; auto. Qed.

Lemma formatFactor_row (factor : JS.value) (row : list JS.value) :
  formatFactor factor = Return row ->
  List.length row = 6 /\ Forall (fun c => JS.isNullish c = false) row.
Proof.
  unfold formatFactor. destruct (JS.isNullish factor); [discriminate|].
  intros H. injection H as <-. split; [reflexivity|].
  repeat constructor;
    first [apply activityUnitOf_value | now apply coalesce_value].
Qed.

Lemma formatFactorSearchResponse_rows (factors : list JS.value)
  (rows : list (list JS.value)) :
  formatFactorSearchResponse factors = Return rows ->
  List.length rows = List.length factors
  /\ Forall (fun row => List.length row = 6
                        /\ Forall (fun c => JS.isNullish c = false) row) rows.
Proof.
  unfold formatFactorSearchResponse. revert rows.
  induction factors as [|f fs IH]; intros rows H; cbn [collect] in H.
  - injection H as <-. split; [reflexivity|constructor].
  - destruct (formatFactor f) as [e|row] eqn:Hrow; [discriminate|].
    destruct (collect formatFactor fs) as [e|rs]; [discriminate|].
    injection H as <-. destruct (IH rs eq_refl) as [Hl Hf].
    split; [cbn [List.length]; now rewrite Hl|].
    constructor; [exact (formatFactor_row f row Hrow)|exact Hf].
Qed.

(** X21.  A factor search that returns gives a table: one row for each
    factor of the response, six cells to the row, and no cell null or
    undefined (a missing field is the empty string, an array of units is
    joined into one cell). *)
Theorem factorSearch_returns_a_table
  (convertExcelDateToISO : string -> completion string)
  (search : JS.value -> JS.value + JS.value)
  (search_ country : string) (stateProvince date page size : JS.value)
  (w : World) (rows : list (list JS.value)) :
  fst (factorSearch convertExcelDateToISO search search_ country
         stateProvince date page size w) = Return rows ->
  exists apiParams response factors,
    buildFactorSearchParams convertExcelDateToISO search_ country
      stateProvince date page size = Return apiParams
    /\ search apiParams = inr response
    /\ JS.optProp response "factors" = JS.VArr factors
    /\ List.length rows = List.length factors
    /\ Forall (fun row => List.length row = 6
                          /\ Forall (fun c => JS.isNullish c = false) row)
              rows.
Proof.
  unfold factorSearch, searchAttempt. unfold bind at 1.
  destruct (Client.ensureClient w) as [[e|[]] w1];
    [destruct e; discriminate|].
  unfold bind at 1. unfold lift at 1.
  destruct (buildFactorSearchParams convertExcelDateToISO search_ country
              stateProvince date page size) as [e|apiParams];
    [destruct e; discriminate|].
  destruct (search apiParams) as [e|response] eqn:Hs;
    [unfold ret; discriminate|].
  destruct (negb (JS.truthy response)
            || negb (JS.isArray (JS.optProp response "factors"))) eqn:Hshape;
    [unfold throw; discriminate|].
  apply orb_false_elim in Hshape as [_ Harr].
  apply negb_false_iff in Harr.
  destruct (JS.optProp response "factors") as [| | | | |factors|] eqn:Hf;
    try discriminate Harr.
  cbn [JS.itemsOf]. unfold bind, lift, ret.
  destruct (formatFactorSearchResponse factors) as [e|rs] eqn:Hrows;
    [destruct e; discriminate|].
  cbn [fst]. intros H. injection H as <-.
  destruct (formatFactorSearchResponse_rows factors rs Hrows) as [Hl Hr].
  exists apiParams, response, factors. repeat split; assumption.
Qed.

Lemma factorSearch_returns_a_table_witness :
  let search := fun _ : JS.value =>
    @inr JS.value JS.value (JS.VObj [("factors", JS.VArr
           [ JS.VObj [ ("factorSet", JS.VStr "EPA");
                       ("activityUnit", JS.VArr [JS.VStr "kg"; JS.VStr "l"]) ];
             JS.VNum (JS.Int 7) ])]) in
  exists apiParams response factors,
    buildFactorSearchParams (fun d => Return d) "diesel" "USA"
      JS.VUndefined JS.VUndefined JS.VUndefined JS.VUndefined
    = Return apiParams
    /\ search apiParams = inr response
    /\ JS.optProp response "factors" = JS.VArr factors
    /\ List.length
         [ [ JS.VStr "EPA"; JS.VStr ""; JS.VStr ""; JS.VStr "kg, l";
             JS.VStr ""; JS.VStr "" ];
           [ JS.VStr ""; JS.VStr ""; JS.VStr ""; JS.VStr ""; JS.VStr "";
             JS.VStr "" ] ]
       = List.length factors
    /\ Forall (fun row => List.length row = 6
                          /\ Forall (fun c => JS.isNullish c = false) row)
         [ [ JS.VStr "EPA"; JS.VStr ""; JS.VStr ""; JS.VStr "kg, l";
             JS.VStr ""; JS.VStr "" ];
           [ JS.VStr ""; JS.VStr ""; JS.VStr ""; JS.VStr ""; JS.VStr "";
             JS.VStr "" ] ].
Proof.
  intros search.
  apply (factorSearch_returns_a_table (fun d => Return d) search
           "diesel" "USA" JS.VUndefined JS.VUndefined JS.VUndefined
           JS.VUndefined (Examples.workbook [] 1700000000000)).
  reflexivity.
Defined.

(** X22.  A factor search fails with a [CustomFunctions.Error] only: an
    error that is not one is turned into one.  When the service rejects
    the request with [e], the code is InvalidValue exactly when
    [e.status] is the number 400 and NotAvailable otherwise, and the
    message is the first of [e.response.data.message], [e.message] and
    "Unknown error" that is not falsy; a response without a [factors]
    array is NotAvailable. *)
Theorem factorSearch_failures
  (convertExcelDateToISO : string -> completion string)
  (search : JS.value -> JS.value + JS.value)
  (search_ country : string) (stateProvince date page size : JS.value)
  (w : World) :
  (forall message,
     fst (factorSearch convertExcelDateToISO search search_ country
            stateProvince date page size w) <> Throw (Error message))
  /\ (forall apiParams e,
        fst (Client.ensureClient w) = Return tt ->
        buildFactorSearchParams convertExcelDateToISO search_ country
          stateProvince date page size = Return apiParams ->
        search apiParams = inl e ->
        fst (factorSearch convertExcelDateToISO search search_ country
               stateProvince date page size w)
        = Throw (searchError e)
        /\ exists message,
             searchError e
             = CustomFunctionsError
                 (if match JS.optProp e "status" with
                     | JS.VNum (JS.Int z) => (z =? 400)%Z
                     | _ => false
                     end
                  then invalidValue else notAvailable) message)
  /\ (forall apiParams response,
        fst (Client.ensureClient w) = Return tt ->
        buildFactorSearchParams convertExcelDateToISO search_ country
          stateProvince date page size = Return apiParams ->
        search apiParams = inr response ->
        JS.isArray (JS.optProp response "factors") = false ->
        fst (factorSearch convertExcelDateToISO search search_ country
               stateProvince date page size w)
        = Throw (CustomFunctionsError notAvailable
                   "Invalid API response structure: Missing 'factors' array")).
Proof.
  split; [|split].
  - intros message. unfold factorSearch.
    destruct (searchAttempt convertExcelDateToISO search search_ country
                stateProvince date page size w) as [[e|[e|rows]] w1];
      cbn [fst]; try discriminate.
    destruct e; discriminate.
  - intros apiParams e Hc Hp Hs. split.
    + unfold factorSearch, searchAttempt. unfold bind at 1.
      destruct (Client.ensureClient w) as [[x|[]] w1]; [discriminate|].
      unfold bind, lift. rewrite Hp, Hs. reflexivity.
    + unfold searchError. eexists.
      destruct (JS.optProp e "status") as [| | |[|z]| | |]; try reflexivity.
      destruct (z =? 400)%Z eqn:Hz.
      * apply Z.eqb_eq in Hz. subst z. reflexivity.
      * apply Z.eqb_neq in Hz.
        destruct z as [|p|p]; try reflexivity.
        repeat (destruct p as [p|p|]; try reflexivity); contradiction.
  - intros apiParams response Hc Hp Hs Harr.
    unfold factorSearch, searchAttempt. unfold bind at 1.
    destruct (Client.ensureClient w) as [[x|[]] w1]; [discriminate|].
    unfold bind, lift. rewrite Hp, Hs, Harr.
    rewrite orb_true_r. reflexivity.
Qed.

Lemma factorSearch_failures_witness :
  let search := fun _ : JS.value =>
    @inl JS.value JS.value
      (JS.VObj [ ("status", JS.VNum (JS.Int 400));
                 ("message", JS.VStr "Bad request") ]) in
  fst (factorSearch (fun d => Return d) search "diesel" "USA"
         JS.VUndefined JS.VUndefined JS.VUndefined JS.VUndefined
         (Examples.workbook [] 1700000000000))
  = Throw (CustomFunctionsError invalidValue "Bad request").
Proof.
  intros search.
  apply (proj1 (proj2 (factorSearch_failures (fun d => Return d) search
                         "diesel" "USA" JS.VUndefined JS.VUndefined
                         JS.VUndefined JS.VUndefined
                         (Examples.workbook [] 1700000000000)))
           _ (JS.VObj [ ("status", JS.VNum (JS.Int 400));
                        ("message", JS.VStr "Bad request") ])
           eq_refl eq_refl eq_refl).
Defined.

Lemma timeEntry_shape (convertExcelDateToISO : string -> completion string)
  (date : JS.value) (time : list (string * JS.value)) :
  timeEntry convertExcelDateToISO date = Return time ->
  time = []
  \/ exists d formattedDate,
       date = JS.VStr d
       /\ JS.trim d <> ""
       /\ convertExcelDateToISO d = Return formattedDate
       /\ time = [("time", JS.VObj [("date", JS.VStr formattedDate)])].
Proof.
  unfold timeEntry. destruct date as [| | | |d| |]; intros H;
    try discriminate H; try (injection H as <-; now left).
  destruct (JS.trim d =? "") eqn:E; cbn [negb] in H;
    [injection H as <-; now left|].
  destruct (convertExcelDateToISO d) as [e|formattedDate] eqn:Hc;
    [discriminate|].
  injection H as <-. right. exists d, formattedDate.
  apply String.eqb_neq in E. repeat split; assumption.
Qed.

Lemma orElse_truthy (v d : JS.value) :
  JS.truthy d = true -> JS.truthy (JS.orElse v d) = true.
Proof. intros H. unfold JS.orElse. destruct (JS.truthy v) eqn:E; assumption. Qed.

(** X23.  The request of a factor search always names the country and
    a page and a size that are not falsy: a page or size that is
    missing, zero or NaN is replaced by 1 and 30.  The state is sent
    only when it is not falsy, and a date only when it is not blank,
    converted by [convertExcelDateToISO]. *)
Theorem search_request_shape
  (convertExcelDateToISO : string -> completion string)
  (search_ country : string) (stateProvince date page size : JS.value)
  (apiParams : JS.value) :
  buildFactorSearchParams convertExcelDateToISO search_ country
    stateProvince date page size = Return apiParams ->
  let pagination := JS.optProp apiParams "pagination" in
  let location := JS.optProp apiParams "location" in
  JS.optProp (JS.optProp apiParams "activity") "search" = JS.VStr search_
  /\ JS.optProp location "country" = JS.VStr country
  /\ JS.optProp location "stateProvince"
     = (if JS.truthy stateProvince then stateProvince else JS.VUndefined)
  /\ JS.optProp pagination "page"
     = (if JS.truthy page then page else JS.VNum (JS.Int 1))
  /\ JS.optProp pagination "size"
     = (if JS.truthy size then size else JS.VNum (JS.Int 30))
  /\ JS.truthy (JS.optProp pagination "page") = true
  /\ JS.truthy (JS.optProp pagination "size") = true
  /\ (JS.optProp apiParams "time" <> JS.VUndefined ->
      exists d formattedDate,
        date = JS.VStr d /\ JS.trim d <> ""
        /\ convertExcelDateToISO d = Return formattedDate
        /\ JS.optProp apiParams "time"
           = JS.VObj [("date", JS.VStr formattedDate)]).
Proof.
  unfold buildFactorSearchParams.
  destruct (timeEntry convertExcelDateToISO date) as [e|time] eqn:Ht;
    [discriminate|].
  intros H. injection H as <-. cbv zeta.
  apply timeEntry_shape in Ht.
  assert (Hp : JS.truthy (if JS.truthy page then page else JS.VNum (JS.Int 1))
               = true) by (destruct (JS.truthy page) eqn:E; [exact E|reflexivity]).
  assert (Hs : JS.truthy (if JS.truthy size then size else JS.VNum (JS.Int 30))
               = true) by (destruct (JS.truthy size) eqn:E; [exact E|reflexivity]).
  destruct Ht as [-> | [d [f [-> [Hd [Hc ->]]]]]];
    cbn [app JS.optProp JS.lookupField String.eqb Ascii.eqb Bool.eqb];
    unfold JS.orElse;
    (split; [reflexivity|]); (split; [reflexivity|]);
    (split; [destruct (JS.truthy stateProvince); reflexivity|]);
    (split; [reflexivity|]); (split; [reflexivity|]);
    (split; [exact Hp|]); (split; [exact Hs|]).
  - intros H. now contradiction H.
  - intros _. exists d, f. repeat split; assumption.
Qed.

Lemma search_request_shape_witness :
  let apiParams :=
    JS.VObj [ ("activity", JS.VObj [("search", JS.VStr "diesel")]);
              ("location", JS.VObj [("country", JS.VStr "USA")]);
              ("pagination", JS.VObj [ ("page", JS.VNum (JS.Int 1));
                                       ("size", JS.VNum (JS.Int 30)) ]) ] in
  JS.optProp (JS.optProp apiParams "pagination") "page" = JS.VNum (JS.Int 1)
  /\ JS.optProp (JS.optProp apiParams "pagination") "size"
     = JS.VNum (JS.Int 30).
Proof.
  intros apiParams.
  pose proof (search_request_shape (fun d => Return d) "diesel" "USA"
                JS.VUndefined (JS.VStr "  ") (JS.VNum (JS.Int 0))
                (JS.VNum JS.NaN) apiParams eq_refl) as H.
  cbv zeta in H. split; [exact (proj1 (proj2 (proj2 (proj2 H))))|].
  exact (proj1 (proj2 (proj2 (proj2 (proj2 H))))).
Defined.

Lemma amountOf_value (response : JS.value) (field : string) :
  JS.isNullish (amountOf response field) = false.
Proof. unfold amountOf. now apply coalesce_value. Qed.

Lemma textOf_value (response : JS.value) (field : string) :
  JS.isNullish (textOf response field) = false.
Proof. unfold textOf. now apply coalesce_value. Qed.

(** X24.  A factor retrieval that returns gives one row of twenty-four
    cells for a response that is not falsy, none of them null or
    undefined: a missing text is the empty string and a missing amount
    is 0.  It returns for every response that is not falsy, whatever
    fields it has. *)
Theorem factorHelper_returns_one_row
  (convertExcelDateToISO : string -> completion string)
  (retrieveFactor : JS.value -> JS.value + JS.value)
  (typeOrId unit country stateProvince date : JS.value) (w : World) :
  (forall rows,
     fst (factorHelper convertExcelDateToISO retrieveFactor typeOrId unit
            country stateProvince date w) = Return (inr rows) ->
     exists apiParams response row,
       factorParams convertExcelDateToISO typeOrId unit country
         stateProvince date = Return apiParams
       /\ retrieveFactor apiParams = inr response
       /\ JS.truthy response = true
       /\ rows = [row]
       /\ List.length row = 24
       /\ Forall (fun c => JS.isNullish c = false) row
       /\ nth 3 row JS.VNull
          = activityUnitOf (JS.optProp response "activityUnit")
       /\ nth 11 row JS.VNull
          = (if JS.isNullish (JS.optProp response "totalCO2e")
             then JS.VNum (JS.Int 0) else JS.optProp response "totalCO2e"))
  /\ (forall apiParams response,
        fst (Client.ensureClient w) = Return tt ->
        factorParams convertExcelDateToISO typeOrId unit country
          stateProvince date = Return apiParams ->
        retrieveFactor apiParams = inr response ->
        fst (factorHelper convertExcelDateToISO retrieveFactor typeOrId unit
               country stateProvince date w)
        = (if JS.truthy response then Return (inr [factorRow response])
           else Throw (CustomFunctionsError notAvailable
                         "Invalid API response"))).
Proof.
  split.
  - intros rows. unfold factorHelper. unfold bind at 1.
    destruct (Client.ensureClient w) as [[e|[]] w1]; [discriminate|].
    unfold bind, lift.
    destruct (factorParams convertExcelDateToISO typeOrId unit country
                stateProvince date) as [e|apiParams]; [discriminate|].
    destruct (retrieveFactor apiParams) as [e|response] eqn:Hr;
      [unfold ret; discriminate|].
    destruct (JS.truthy response) eqn:Ht; cbn [negb];
      [|unfold throw; discriminate].
    unfold ret. cbn [fst]. intros H. injection H as <-.
    exists apiParams, response, (factorRow response).
    split; [reflexivity|]. split; [exact Hr|]. split; [exact Ht|].
    split; [reflexivity|]. split; [reflexivity|].
    split; [|split; reflexivity].
    unfold factorRow.
    repeat constructor;
      first [apply activityUnitOf_value | apply textOf_value
            | apply amountOf_value].
  - intros apiParams response Hc Hp Hr.
    unfold factorHelper. unfold bind at 1.
    destruct (Client.ensureClient w) as [[e|[]] w1]; [discriminate|].
    unfold bind, lift. rewrite Hp, Hr.
    destruct (JS.truthy response); reflexivity.
Qed.

Lemma factorHelper_returns_one_row_witness :
  let retrieveFactor := fun _ : JS.value =>
    @inr JS.value JS.value
      (JS.VObj [ ("factorSet", JS.VStr "EPA");
                 ("totalCO2e", JS.VNum (JS.Int 12)) ]) in
  fst (factorHelper (fun d => Return d) retrieveFactor (JS.VStr "diesel")
         (JS.VStr "l") (JS.VStr "USA") JS.VUndefined JS.VUndefined
         (Examples.workbook [] 1700000000000))
  = Return (inr [factorRow (JS.VObj [ ("factorSet", JS.VStr "EPA");
                                      ("totalCO2e", JS.VNum (JS.Int 12)) ])]).
Proof.
  intros retrieveFactor.
  apply (proj2 (factorHelper_returns_one_row (fun d => Return d)
                  retrieveFactor (JS.VStr "diesel") (JS.VStr "l")
                  (JS.VStr "USA") JS.VUndefined JS.VUndefined
                  (Examples.workbook [] 1700000000000))
           _ (JS.VObj [ ("factorSet", JS.VStr "EPA");
                        ("totalCO2e", JS.VNum (JS.Int 12)) ])
           eq_refl eq_refl eq_refl).
Defined.

(** X25.  What a factor request carries.  The unit is always sent.  An
    identifier that is not a string is sent as [factorId], and then
    country, state and date are ignored: no location, no time, and a
    date that is not text raises no error.  An identifier that is a
    string is sent as [type], also through [factor_by_id].  A state is
    sent only together with a country that is not falsy.  [factor_by_id]
    never sends a location or a time. *)
Theorem factor_request_shape
  (convertExcelDateToISO : string -> completion string)
  (typeOrId unit country stateProvince date : JS.value) :
  (forall apiParams,
     factorParams convertExcelDateToISO typeOrId unit country stateProvince
       date = Return apiParams ->
     JS.optProp (JS.optProp apiParams "activity") "unit" = unit
     /\ (JS.truthy country = false ->
         JS.optProp apiParams "location" = JS.VUndefined)
     /\ (forall text, typeOrId = JS.VStr text ->
           JS.optProp (JS.optProp apiParams "activity") "type" = JS.VStr text
           /\ JS.optProp (JS.optProp apiParams "activity") "factorId"
              = JS.VUndefined))
  /\ ((forall text, typeOrId <> JS.VStr text) ->
      factorParams convertExcelDateToISO typeOrId unit country stateProvince
        date
      = Return (JS.VObj [ ("activity",
                           JS.VObj [("unit", unit); ("factorId", typeOrId)]) ]))
  /\ (exists key,
        factorParams convertExcelDateToISO typeOrId unit
          JS.VUndefined JS.VUndefined JS.VUndefined
        = Return (JS.VObj [ ("activity",
                             JS.VObj [("unit", unit); (key, typeOrId)]) ])).
Proof.
  split; [|split].
  - intros apiParams H. unfold factorParams in H.
    destruct typeOrId as [| | | |type| |];
      try (injection H as <-;
           split; [reflexivity|]; split; [intros _; reflexivity|];
           intros text Ht; discriminate Ht).
    destruct (timeEntry convertExcelDateToISO date) as [e|time] eqn:Ht;
      [discriminate|].
    injection H as <-.
    split; [reflexivity|]. split.
    + intros Hc. rewrite Hc. cbn [app].
      apply timeEntry_shape in Ht.
      destruct Ht as [-> | [d [f [_ [_ [_ ->]]]]]]; reflexivity.
    + intros text E. injection E as <-. split; reflexivity.
  - intros Hn. unfold factorParams.
    destruct typeOrId as [| | | |type| |]; try reflexivity.
    contradiction (Hn type eq_refl).
  - unfold factorParams.
    destruct typeOrId as [| | | |type| |];
      try (exists "factorId"; reflexivity).
    exists "type". reflexivity.
Qed.

Lemma factor_request_shape_witness :
  JS.optProp
    (JS.VObj [ ("activity",
                JS.VObj [("unit", JS.VStr "l"); ("type", JS.VStr "diesel")]) ])
    "location" = JS.VUndefined.
Proof.
  apply (proj1 (proj2 (proj1 (factor_request_shape (fun d => Return d)
                                (JS.VStr "diesel") (JS.VStr "l")
                                (JS.VStr "") (JS.VStr "Texas") JS.VUndefined)
                         _ eq_refl))).
  reflexivity.
Defined.

End Factors.

(** *** Names and addresses *)

Section NamesAndAddresses.
Import MetadataUtils ApiTypesLoader AreaHandler UnitsHandler.

(** X26.  A name [validateApiName] lets through is known to every
    table the lookups index with it: validating it again gives the same
    name, [API_AREA_MAPPING] sends it to one of the two stored groups,
    [API_COLUMN_MAP] gives it one of the six columns of the types sheet,
    and [API_CLASS_MAP] has a class for it. *)
Theorem validated_name_is_known (apiName name : string) :
  validateApiName apiName = Return name ->
  validateApiName name = Return name
  /\ In (mapApiNameForAreaData name) API_AREA_CONFIGS
  /\ (exists columnIndex,
        lookup name API_COLUMN_MAP = Some columnIndex
        /\ columnIndex < List.length API_TYPES_CONFIGS
        /\ JS.toLowerCase (nth columnIndex API_TYPES_CONFIGS "")
           = (if name =? "factor" then "calculation" else name))
  /\ JS.includes API_CLASS_MAP name = true.
Proof.
  intros H. apply validateApiName_valid in H.
  cbn [In VALID_API_NAMES] in H.
  repeat (destruct H as [<-|H];
          [split; [reflexivity|]; split; [cbn; auto|];
           split; [eexists; split; [reflexivity|]; split; [cbn; lia|reflexivity]
                  |reflexivity]|]).
  contradiction.
Qed.

Lemma validated_name_is_known_witness :
  validateApiName "factor" = Return "factor"
  /\ In (mapApiNameForAreaData "factor") API_AREA_CONFIGS
  /\ (exists columnIndex,
        lookup "factor" API_COLUMN_MAP = Some columnIndex
        /\ columnIndex < List.length API_TYPES_CONFIGS
        /\ JS.toLowerCase (nth columnIndex API_TYPES_CONFIGS "")
           = (if "factor" =? "factor" then "calculation" else "factor"))
  /\ JS.includes API_CLASS_MAP "factor" = true.
Proof.
  apply (validated_name_is_known " Factor " "factor"). reflexivity.
Defined.

Lemma hasChar_app (c : ascii) (a b : string) :
  JS.hasChar c (a ++ String c b) = true.
Proof.
  induction a as [|x a IH]; cbn [append JS.hasChar].
  - now rewrite Ascii.eqb_refl.
  - rewrite IH. apply orb_true_r.
Qed.

Lemma split_single (sep : ascii) (s : string) :
  JS.hasChar sep s = false -> JS.split sep s = [s].
Proof.
  intros H. rewrite <- (append_empty_r s) at 1.
  rewrite (split_prefix sep s "" H). cbn [JS.split hd tl].
  now rewrite append_empty_r.
Qed.

(** X27.  How an address names its cell.  An address without "!" is a
    cell of the active sheet.  "Sheet!A1" is the cell A1 of the sheet
    [Sheet]; anything after a second "!" is dropped.  An address that
    starts with "!" is again a cell of the active sheet. *)
Theorem getTargetCell_parses (sheet ref rest : string) (w : World) :
  JS.hasChar "!" ref = false ->
  getTargetCell ref w = (Return (mkRange (activeSheet w) ref), w)
  /\ getTargetCell ("!" ++ ref) w
     = (Return (mkRange (activeSheet w) ref), w)
  /\ (JS.hasChar "!" sheet = false -> sheet <> "" ->
      getTargetCell (sheet ++ "!" ++ ref) w = (Return (mkRange sheet ref), w)
      /\ getTargetCell (sheet ++ "!" ++ ref ++ "!" ++ rest) w
         = (Return (mkRange sheet ref), w)).
Proof.
  intros Hr. split; [|split].
  - unfold getTargetCell. rewrite Hr. reflexivity.
  - unfold getTargetCell. cbn [append JS.hasChar JS.split].
    rewrite Ascii.eqb_refl. cbn [orb].
    rewrite (split_single _ _ Hr). reflexivity.
  - intros Hs Hne.
    assert (Hneq : (sheet =? "") = false) by now apply String.eqb_neq.
    split; unfold getTargetCell.
    + change (sheet ++ "!" ++ ref)%string with (sheet ++ String "!" ref)%string.
      rewrite hasChar_app, (split_prefix _ _ _ Hs).
      cbn [JS.split]. rewrite Ascii.eqb_refl. cbn [hd tl].
      rewrite (split_single _ _ Hr), append_empty_r.
      rewrite Hneq. reflexivity.
    + change (sheet ++ "!" ++ ref ++ "!" ++ rest)%string
        with (sheet ++ String "!" (ref ++ String "!" rest))%string.
      rewrite hasChar_app, (split_prefix _ _ _ Hs).
      cbn [JS.split]. rewrite Ascii.eqb_refl. cbn [hd tl].
      rewrite (split_prefix _ _ _ Hr).
      cbn [JS.split]. rewrite Ascii.eqb_refl. cbn [hd tl].
      rewrite !append_empty_r. rewrite Hneq. reflexivity.
Qed.

Lemma getTargetCell_parses_witness :
  getTargetCell "A1" (Examples.workbook [] 1700000000000)
  = (Return (mkRange "Sheet1" "A1"), Examples.workbook [] 1700000000000).
Proof.
  apply (proj1 (getTargetCell_parses "Data" "A1" "x"
                  (Examples.workbook [] 1700000000000) eq_refl)).
Defined.

End NamesAndAddresses.

(** *** The types column read back *)

Section TypesReadBack.
Import MetadataUtils ApiTypesLoader TypesHandler.

Lemma maxTypesOf_bound (entries : list (string * JS.value))
  (acc : JS.number) (maxTypes : Z) :
  maxTypesOf entries acc = Return (JS.Int maxTypes) ->
  (exists a, acc = JS.Int a /\ (a <= maxTypes)%Z)
  /\ forall k v n,
       mapGet k entries = Some v -> JS.lengthOf v = JS.Int n ->
       (n <= maxTypes)%Z.
Proof.
  revert acc. induction entries as [|[k' v'] r IH]; intros acc H.
  - cbn [maxTypesOf] in H. injection H as ->. split.
    + exists maxTypes. split; [reflexivity|lia].
    + intros k v n Hk. discriminate Hk.
  - cbn [maxTypesOf] in H.
    destruct (JS.isNullish v'); [discriminate|].
    destruct (IH _ H) as [[a [Ha Hle]] Hr].
    unfold JS.mathMax in Ha.
    destruct acc as [|x]; [discriminate|].
    destruct (JS.lengthOf v') as [|y] eqn:Hy; [discriminate|].
    injection Ha as <-. split.
    + exists x. split; [reflexivity|lia].
    + intros k v n Hk Hn. cbn [mapGet] in Hk.
      destruct (k' =? k).
      * injection Hk as <-. rewrite Hy in Hn. injection Hn as <-. lia.
      * exact (Hr k v n Hk Hn).
Qed.

Lemma collect_nth {A B} (f : A -> completion B) (l : list A) (r : list B)
  (i : nat) (d : A) (d' : B) :
  collect f l = Return r -> i < List.length l ->
  List.length r = List.length l /\ f (nth i l d) = Return (nth i r d').
Proof.
  revert r i. induction l as [|x l IH]; intros r i H Hi;
    [cbn in Hi; lia|].
  cbn [collect] in H.
  destruct (f x) as [e|y] eqn:Hx; [discriminate|].
  destruct (collect f l) as [e|ys] eqn:Hl; [discriminate|].
  injection H as <-. destruct i as [|i].
  - split; [|exact Hx]. cbn [List.length]. f_equal.
    destruct l as [|x' l'].
    + cbn in Hl. now injection Hl as <-.
    + exact (proj1 (IH ys 0 eq_refl ltac:(cbn; lia))).
  - cbn [List.length] in Hi.
    destruct (IH ys i eq_refl ltac:(lia)) as [Hlen Hn].
    split; [cbn [List.length]; now rewrite Hlen|exact Hn].
Qed.

Lemma cells_of_row (row : list JS.value) (r : list Excel.cell) :
  fold_right (fun v acc =>
                match Excel.cellOfValue v, acc with
                | Some c, Some cs => Some (c :: cs)
                | _, _ => None
                end) (Some []) row = Some r ->
  List.length r = List.length row
  /\ forall j, j < List.length row ->
       Excel.cellOfValue (nth j row JS.VNull) = Some (nth j r Excel.blank).
Proof.
  revert r. induction row as [|v row IH]; intros r H.
  - cbn in H. injection H as <-. split; [reflexivity|].
    intros j Hj. cbn in Hj. lia.
  - cbn [fold_right] in H.
    destruct (Excel.cellOfValue v) as [c|] eqn:Hc; [|discriminate].
    destruct (fold_right _ (Some []) row) as [cs|]; [|discriminate].
    injection H as <-.
    destruct (IH cs eq_refl) as [Hl Hn].
    split; [cbn [List.length]; now rewrite Hl|].
    intros [|j] Hj; [exact Hc|]. cbn [List.length] in Hj.
    cbn [nth]. apply Hn. lia.
Qed.

Lemma toCells_row (row : list JS.value) (r : list Excel.cell) :
  Excel.toCells [row] = Some [r] ->
  List.length r = List.length row
  /\ forall j, j < List.length row ->
       Excel.cellOfValue (nth j row JS.VNull) = Some (nth j r Excel.blank).
Proof.
  unfold Excel.toCells. cbn [fold_right]. intros H.
  apply cells_of_row.
  destruct (fold_right _ (Some []) row) as [cs|]; [|discriminate].
  now injection H as <-.
Qed.

Lemma toCells_rows (rows : list (list JS.value)) (g : Excel.Grid) :
  Excel.toCells rows = Some g ->
  List.length g = List.length rows
  /\ forall i j,
       i < List.length rows -> j < List.length (nth i rows []) ->
       Excel.cellOfValue (nth j (nth i rows []) JS.VNull)
       = Some (Excel.cellAt g i j).
Proof.
  revert g. induction rows as [|row rows IH]; intros g H.
  - cbn in H. injection H as <-. split; [reflexivity|].
    intros i j Hi. cbn in Hi. lia.
  - apply toCells_cons_inv in H as [r [rs [-> [Hr Hrs]]]].
    destruct (IH rs Hrs) as [Hl Hn].
    destruct (toCells_row row r Hr) as [_ Hrow].
    split; [cbn [List.length]; now rewrite Hl|].
    intros [|i] j Hi Hj.
    + cbn [nth] in *. unfold Excel.cellAt. cbn [nth]. now apply Hrow.
    + cbn [nth List.length] in *. unfold Excel.cellAt. cbn [nth].
      apply (Hn i j); [lia|exact Hj].
Qed.

Lemma nth_map_within {A B} (f : A -> B) (l : list A) (i : nat) (d : A)
  (d' : B) :
  i < List.length l -> nth i (map f l) d' = f (nth i l d).
Proof.
  revert i. induction l as [|x l IH]; intros [|i] H; cbn in *;
    try lia; [reflexivity|]. apply IH. lia.
Qed.

Lemma nth_of_strings (i : nat) (ts : list string) :
  Excel.cellOfValue (nth i (map JS.VStr ts) JS.VNull)
  = Some (if (i <? List.length ts)%nat then Excel.CStr (nth i ts "")
          else Excel.blank).
Proof.
  revert i. induction ts as [|t ts IH]; intros i.
  - destruct i; reflexivity.
  - destruct i as [|i]; [reflexivity|]. cbn [map nth List.length].
    rewrite IH. reflexivity.
Qed.

Lemma typesColumn_strings (m : list (string * JS.value)) (config : string)
  (ts : list string) :
  mapGet config m = Some (JS.VArr (map JS.VStr ts)) ->
  typesColumn m config = Return (map JS.VStr ts).
Proof. intros H. unfold typesColumn. now rewrite H. Qed.

(** The cells of the block written for a map: the header row, then in
    the column of a category its types from the top, empty below. *)
Lemma typesBlock_cells (m : list (string * JS.value))
  (vb : list (list JS.value)) (block : Excel.Grid) (j : nat)
  (ts : list string) :
  typesBlock m = Return vb ->
  Excel.toCells vb = Some block ->
  j < List.length API_TYPES_CONFIGS ->
  mapGet (nth j API_TYPES_CONFIGS "") m = Some (JS.VArr (map JS.VStr ts)) ->
  exists rows,
    block = map Excel.CStr API_TYPES_CONFIGS :: rows
    /\ List.length ts <= List.length rows
    /\ forall i, i < List.length rows ->
         Excel.cellAt rows i j
         = if (i <? List.length ts)%nat then Excel.CStr (nth i ts "")
           else Excel.blank.
Proof.
  intros Hvb Hblock Hj Hget. unfold typesBlock in Hvb.
  destruct (maxTypesOf m (JS.Int 0)) as [e|[|maxTypes]] eqn:Hmax;
    try discriminate.
  destruct (collect (typesColumn m) API_TYPES_CONFIGS) as [e|columns] eqn:Hc;
    [discriminate|].
  injection Hvb as <-.
  apply toCells_cons_inv in Hblock as [h [rs [-> [Hh Hrs]]]].
  assert (Eh : h = map Excel.CStr API_TYPES_CONFIGS)
    by (cbv in Hh; now injection Hh as <-).
  subst h. exists rs. split; [reflexivity|].
  destruct (toCells_rows _ rs Hrs) as [Hlen Hcells].
  rewrite length_map, length_seq in Hlen.
  destruct (collect_nth (typesColumn m) API_TYPES_CONFIGS columns j "" []
              Hc Hj) as [Hcl Hcol].
  rewrite (typesColumn_strings m _ ts Hget) in Hcol.
  injection Hcol as Hcol.
  destruct (maxTypesOf_bound m (JS.Int 0) maxTypes Hmax) as [_ Hb].
  specialize (Hb _ _ (Z.of_nat (List.length ts)) Hget).
  cbn [JS.lengthOf] in Hb. rewrite length_map in Hb. specialize (Hb eq_refl).
  split; [rewrite Hlen; lia|].
  intros i Hi. rewrite Hlen in Hi.
  specialize (Hcells i j).
  rewrite length_map, length_seq in Hcells. specialize (Hcells Hi).
  assert (Hrow : nth i (map (fun i0 => map (fun col => nth i0 col JS.VNull)
                                         columns)
                            (seq 0 (Z.to_nat maxTypes))) []
                 = map (fun col => nth i col JS.VNull) columns).
  { rewrite (nth_map_within _ _ i 0) by now rewrite length_seq.
    now rewrite seq_nth by exact Hi. }
  rewrite Hrow in Hcells. rewrite length_map, Hcl in Hcells.
  specialize (Hcells Hj).
  assert (Hcell : nth j (map (fun col => nth i col JS.VNull) columns)
                    JS.VNull
                  = nth i (nth j columns []) JS.VNull).
  { apply (nth_map_within (fun col => nth i col JS.VNull) columns j []).
    now rewrite Hcl. }
  rewrite Hcell, <- Hcol, nth_of_strings in Hcells.
  now injection Hcells as <-.
Qed.

Lemma nth_of_blank_row (j : nat) : nth j [] Excel.blank = Excel.blank.
Proof. destruct j; reflexivity. Qed.

Lemma cellAt_column (g : Excel.Grid) (r c : nat) :
  Excel.cellAt g r c = nth r (Excel.column g c) Excel.blank.
Proof.
  unfold Excel.cellAt, Excel.column.
  rewrite <- (nth_of_blank_row c) at 2.
  now rewrite (map_nth (fun row => nth c row Excel.blank)).
Qed.

(** The column of a category below the header row. *)
Lemma column_of_types (rows : Excel.Grid) (j : nat) (ts : list string) :
  List.length ts <= List.length rows ->
  (forall i, i < List.length rows ->
     Excel.cellAt rows i j
     = if (i <? List.length ts)%nat then Excel.CStr (nth i ts "")
       else Excel.blank) ->
  Excel.column rows j
  = (map Excel.CStr ts
     ++ repeat Excel.blank (List.length rows - List.length ts))%list.
Proof.
  intros Hle Hcells.
  apply (nth_ext _ _ Excel.blank Excel.blank).
  - unfold Excel.column.
    rewrite length_map, length_app, length_map, repeat_length. lia.
  - unfold Excel.column at 1. rewrite length_map. intros i Hi.
    rewrite <- cellAt_column, (Hcells i Hi).
    destruct (i <? List.length ts)%nat eqn:E.
    + apply Nat.ltb_lt in E.
      rewrite app_nth1 by now rewrite length_map.
      change Excel.blank with (Excel.CStr "").
      now rewrite map_nth.
    + apply Nat.ltb_ge in E.
      rewrite app_nth2 by now rewrite length_map.
      now rewrite nth_repeat.
Qed.

Lemma usedWidth_blanks (l : list Excel.cell) (k : nat) :
  Excel.usedWidth (l ++ repeat Excel.blank k) = Excel.usedWidth l.
Proof.
  induction l as [|c l IH]; cbn [app Excel.usedWidth].
  - induction k as [|k IHk]; [reflexivity|].
    cbn [repeat Excel.usedWidth]. now rewrite IHk.
  - now rewrite IH.
Qed.

Lemma usedWidth_strings (ts : list string) :
  forallb (fun t => negb (t =? "")) ts = true ->
  Excel.usedWidth (map Excel.CStr ts) = List.length ts.
Proof.
  induction ts as [|t ts IH]; intros H; [reflexivity|].
  cbn [forallb] in H. apply andb_prop in H as [Ht Hts].
  cbn [map Excel.usedWidth List.length]. rewrite (IH Hts).
  cbn [Excel.isBlank]. apply negb_true_iff in Ht. rewrite Ht.
  destruct (List.length ts); reflexivity.
Qed.

Lemma filter_strings (ts : list string) :
  forallb (fun t => negb (t =? "")) ts = true ->
  filter (fun v => negb (Excel.isBlank v)) (map Excel.CStr ts)
  = map Excel.CStr ts.
Proof.
  induction ts as [|t ts IH]; intros H; [reflexivity|].
  cbn [forallb] in H. apply andb_prop in H as [Ht Hts].
  cbn [map filter Excel.isBlank]. rewrite Ht. now rewrite (IH Hts).
Qed.

Lemma forallb_firstn {A} (p : A -> bool) (k : nat) (l : list A) :
  forallb p l = true -> forallb p (firstn k l) = true.
Proof.
  revert k. induction l as [|x l IH]; intros [|k] H; try reflexivity.
  cbn [forallb firstn] in *. apply andb_prop in H as [Hx Hl].
  now rewrite Hx, (IH k Hl).
Qed.

Lemma map_nth_from_one {A} (l : list A) (d : A) (k : nat) :
  k <= List.length (tl l) ->
  map (fun r => nth r l d) (seq 1 k) = firstn k (tl l).
Proof.
  intros Hk. destruct l as [|x l]; cbn [tl] in *.
  - destruct k; [reflexivity|cbn in Hk; lia].
  - rewrite <- seq_shift, map_map. cbn [nth].
    revert k Hk. induction l as [|y l IH]; intros k Hk.
    + destruct k; [reflexivity|cbn in Hk; lia].
    + destruct k as [|k]; [reflexivity|].
      cbn [seq map nth firstn]. f_equal.
      rewrite <- seq_shift, map_map. cbn [nth].
      apply IH. cbn [List.length] in Hk. lia.
Qed.

Lemma stringOfZ_not_empty (z : Z) : (JS.stringOfZ z =? "") = false.
Proof.
  apply String.eqb_neq. unfold JS.stringOfZ.
  destruct z as [|p|p]; [discriminate|..];
    cbn [Z.to_int NilZero.string_of_int NilZero.string_of_uint];
    pose proof (DecimalPos.Unsigned.to_uint_nonnil p) as Hn;
    unfold NilZero.string_of_uint;
    destruct (Pos.to_uint p); try contradiction; discriminate.
Qed.

Lemma concat_column (g : Excel.Grid) (j : nat) (l : list nat) :
  List.concat (map (fun r => map (fun c => Excel.cellAt g r c) (seq j 1)) l)
  = map (fun r => nth r (Excel.column g j) Excel.blank) l.
Proof.
  induction l as [|r l IH]; [reflexivity|].
  cbn [map List.concat]. rewrite IH. cbn [seq map app].
  now rewrite cellAt_column.
Qed.

Lemma config_not_empty (j : nat) :
  j < List.length API_TYPES_CONFIGS ->
  (nth j API_TYPES_CONFIGS "" =? "") = false.
Proof.
  intros H. cbn [List.length API_TYPES_CONFIGS] in H.
  do 6 (destruct j as [|j]; [reflexivity|]). lia.
Qed.

(** What [applyDataValidation] reads from the column of a category on a
    sheet made of a first row, the header row and the rows of types. *)
Lemma columnOptions_of_types (name : string) (first : list Excel.cell)
  (rows : Excel.Grid) (j : nat) (ts : list string) :
  j < List.length API_TYPES_CONFIGS ->
  forallb (fun t => negb (t =? "")) ts = true ->
  List.length ts <= List.length rows ->
  (forall i, i < List.length rows ->
     Excel.cellAt rows i j
     = if (i <? List.length ts)%nat then Excel.CStr (nth i ts "")
       else Excel.blank) ->
  let above := if Excel.isBlank (nth j first Excel.blank) then 1 else 0 in
  columnOptions name j (first :: map Excel.CStr API_TYPES_CONFIGS :: rows)
  = if (List.length ts + 2 - above <=? 1)%nat
    then Throw (Error ("No types found for API: " ++ name))
    else Return (JS.VStr (nth j API_TYPES_CONFIGS "")
                 :: map JS.VStr (firstn (List.length ts - above) ts)).
Proof.
  intros Hj Hts Hle Hcells above.
  pose proof (config_not_empty j Hj) as Hh.
  set (h := nth j API_TYPES_CONFIGS "") in *.
  set (k := List.length rows - List.length ts).
  assert (Hcol : Excel.column
                   (first :: map Excel.CStr API_TYPES_CONFIGS :: rows) j
                 = nth j first Excel.blank
                   :: (map Excel.CStr (h :: ts) ++ repeat Excel.blank k)%list).
  { unfold Excel.column at 1. cbn [map app]. f_equal. f_equal.
    - change Excel.blank with (Excel.CStr ""). now rewrite map_nth.
    - exact (column_of_types rows j ts Hle Hcells). }
  assert (Hhts : forallb (fun t => negb (t =? "")) (h :: ts) = true)
    by (cbn [forallb]; now rewrite Hh, Hts).
  assert (Hwidth : Excel.usedWidth
                     (map Excel.CStr (h :: ts) ++ repeat Excel.blank k)
                   = S (List.length ts))
    by now rewrite usedWidth_blanks, (usedWidth_strings _ Hhts).
  unfold columnOptions, Excel.columnUsedRowCount. rewrite Hcol.
  cbn [Excel.usedWidth]. rewrite Hwidth.
  cbn [Excel.leadingBlanks map app Excel.isBlank]. rewrite Hh.
  replace (S (S (List.length ts))
           - (if Excel.isBlank (nth j first Excel.blank) then 1 else 0))
    with (List.length ts + 2 - above)
    by (subst above; destruct (Excel.isBlank _); lia).
  destruct (List.length ts + 2 - above <=? 1)%nat eqn:Hrc; [reflexivity|].
  apply Nat.leb_gt in Hrc. f_equal.
  assert (Habove : above <= 1)
    by (subst above; destruct (Excel.isBlank _); lia).
  unfold Excel.rangeValues.
  rewrite concat_column, Hcol.
  rewrite map_nth_from_one
    by (cbn [tl]; rewrite length_app, length_map; cbn [List.length]; lia).
  cbn [tl].
  replace (List.length ts + 2 - above - 1)
    with (S (List.length ts - above)) by lia.
  cbn [map app firstn].
  rewrite firstn_app, length_map.
  replace (List.length ts - above - List.length ts) with 0 by lia.
  cbn [firstn]. rewrite app_nil_r, firstn_map.
  cbn [filter Excel.isBlank]. rewrite Hh. cbn [negb].
  rewrite filter_strings by now apply forallb_firstn.
  cbn [map Excel.valueOf]. f_equal.
  rewrite map_map. reflexivity.
Qed.

Ltac evaluate :=
  cbv beta iota zeta;
  cbn [fst snd worksheets now addEvent setWorksheets].

(** The sheet a returning [writeApiTypesToSheet] leaves: the metadata
    row, then the block as the host stored it. *)
Lemma writeApiTypesToSheet_cells (m : list (string * JS.value)) (w : World) :
  fst (writeApiTypesToSheet m w) = Return tt ->
  exists vb block sheet,
    typesBlock m = Return vb
    /\ Excel.toCells vb = Some block
    /\ Excel.findSheet API_TYPES_SHEET_NAME
         (worksheets (snd (writeApiTypesToSheet m w))) = Some sheet
    /\ Excel.cells sheet
       = [Excel.CStr "METADATA"; Excel.CStr (JS.stringOfZ (now w))] :: block.
Proof.
  unfold writeApiTypesToSheet, addHiddenSheet, bind, emit, ask, lift, modify,
    ret, throw.
  evaluate.
  destruct (typesBlock m) as [e|vb]; evaluate; [discriminate|].
  destruct (Excel.toCells vb) as [block|] eqn:Hb; evaluate; [|discriminate].
  destruct (Excel.findSheet API_TYPES_SHEET_NAME (worksheets w))
    as [sheet|] eqn:Hf; evaluate.
  - intros _. exists vb, block. eexists.
    split; [reflexivity|]. split; [exact Hb|]. split.
    + apply setSheetMetadata_cells. evaluate.
      apply findSheet_setCells_eq. exact Hf.
    + cbn [Excel.cells timestamp JS.stringOfNumber]. apply stamped_block.
  - rewrite Hf. evaluate.
    intros _. exists vb, block. eexists.
    split; [reflexivity|]. split; [exact Hb|]. split.
    + apply setSheetMetadata_cells. evaluate.
      apply findSheet_added. exact Hf.
    + cbn [Excel.cells timestamp JS.stringOfNumber]. apply stamped_block.
Qed.

(** X28.  What the types lookup reads from a sheet just written, for a
    category whose types are non-empty strings.  The read starts at the
    header row, so the header of the column is the first option.  The
    number of rows read is the height of the used range of the column:
    in the first two columns, whose first row holds the metadata, every
    type is read; in the other four, whose first row is empty, the last
    type is not read, and a column with no type at all is reported as
    having no types. *)
Theorem types_column_read_back (m : list (string * JS.value)) (w : World)
  (name : string) (j : nat) (ts : list string) :
  fst (writeApiTypesToSheet m w) = Return tt ->
  j < List.length API_TYPES_CONFIGS ->
  mapGet (nth j API_TYPES_CONFIGS "") m = Some (JS.VArr (map JS.VStr ts)) ->
  forallb (fun t => negb (t =? "")) ts = true ->
  exists sheet,
    Excel.findSheet API_TYPES_SHEET_NAME
      (worksheets (snd (writeApiTypesToSheet m w))) = Some sheet
    /\ columnOptions name j (Excel.cells sheet)
       = if (j <? 2)%nat
         then Return (JS.VStr (nth j API_TYPES_CONFIGS "") :: map JS.VStr ts)
         else match ts with
              | [] => Throw (Error ("No types found for API: " ++ name))
              | _ :: _ =>
                  Return (JS.VStr (nth j API_TYPES_CONFIGS "")
                          :: map JS.VStr (removelast ts))
              end.
Proof.
  intros Hr Hj Hget Hts.
  destruct (writeApiTypesToSheet_cells m w Hr)
    as [vb [block [sheet [Hvb [Hblock [Hsheet Hcells]]]]]].
  destruct (typesBlock_cells m vb block j ts Hvb Hblock Hj Hget)
    as [rows [-> [Hle Hrows]]].
  exists sheet. split; [exact Hsheet|]. rewrite Hcells.
  rewrite (columnOptions_of_types name _ rows j ts Hj Hts Hle Hrows).
  cbv zeta.
  destruct j as [|[|j]].
  - cbn [nth Excel.isBlank String.eqb Nat.ltb Nat.leb].
    rewrite !Nat.sub_0_r, firstn_all.
    destruct (List.length ts + 2 <=? 1)%nat eqn:E; [|reflexivity].
    apply Nat.leb_le in E. lia.
  - cbn [nth Excel.isBlank Nat.ltb Nat.leb].
    rewrite stringOfZ_not_empty, !Nat.sub_0_r, firstn_all.
    destruct (List.length ts + 2 <=? 1)%nat eqn:E; [|reflexivity].
    apply Nat.leb_le in E. lia.
  - replace (nth (S (S j))
               [Excel.CStr "METADATA"; Excel.CStr (JS.stringOfZ (now w))]
               Excel.blank) with Excel.blank by (destruct j; reflexivity).
    change (Excel.isBlank Excel.blank) with true. cbv iota.
    change (S (S j) <? 2)%nat with false. cbv iota.
    destruct ts as [|t ts']; [reflexivity|].
    destruct (List.length (t :: ts') + 2 - 1 <=? 1)%nat eqn:E.
    + apply Nat.leb_le in E. cbn [List.length] in E. lia.
    + rewrite removelast_firstn_len.
      replace (Nat.pred (List.length (t :: ts')))
        with (List.length (t :: ts') - 1) by lia.
      reflexivity.
Qed.

Lemma types_column_read_back_witness :
  let m := map (fun config =>
                  (config, JS.VArr (map JS.VStr ["t1"; "t2"; "t3"])))
               API_TYPES_CONFIGS in
  let w := Examples.workbook [] 1700000000000 in
  exists sheet,
    Excel.findSheet API_TYPES_SHEET_NAME
      (worksheets (snd (writeApiTypesToSheet m w))) = Some sheet
    /\ columnOptions "fugitive" 2 (Excel.cells sheet)
       = Return [JS.VStr "Fugitive"; JS.VStr "t1"; JS.VStr "t2"].
Proof.
  intros m w.
  apply (types_column_read_back m w "fugitive" 2 ["t1"; "t2"; "t3"]).
  - vm_compute. reflexivity.
  - vm_compute. lia.
  - reflexivity.
  - reflexivity.
Defined.

End TypesReadBack.

(** *** An outage is cached *)

Section Outage.
Import MetadataUtils AreaLoader AreaHandler.

Ltac compute_run :=
  cbv beta iota zeta;
  cbn [fst snd worksheets now addEvent setWorksheets].

(** When the rows can be stored and no second sheet has the name, the
    write returns. *)
Lemma writeAreaDataToSheet_returns (m : list (string * list JS.value))
  (rows : list (list JS.value)) (block : Excel.Grid) (w : World) :
  areaRows m = Return rows ->
  Excel.toCells rows = Some block ->
  Excel.findSheet AREA_DATA_SHEET_NAME
    (Excel.removeSheet AREA_DATA_SHEET_NAME (worksheets w)) = None ->
  fst (writeAreaDataToSheet m w) = Return tt.
Proof.
  intros Hrows Hblock Hone.
  unfold writeAreaDataToSheet, addHiddenSheet, bind, emit, ask, lift, modify,
    ret, throw.
  compute_run. rewrite Hrows.
  destruct (Excel.findSheet AREA_DATA_SHEET_NAME (worksheets w))
    as [sheet|] eqn:Hf; compute_run; rewrite Hblock; compute_run.
  - rewrite Hone. compute_run.
    apply (setSheetMetadata_stamps AREA_DATA_SHEET_NAME _ _
             (Excel.mkWorksheet AREA_DATA_SHEET_NAME true
                (Excel.writeBlock 1 0 block []))).
    compute_run. now apply findSheet_added.
  - rewrite Hf. compute_run.
    apply (setSheetMetadata_stamps AREA_DATA_SHEET_NAME _ _
             (Excel.mkWorksheet AREA_DATA_SHEET_NAME true
                (Excel.writeBlock 1 0 block []))).
    compute_run. now apply findSheet_added.
Qed.

Lemma loadAndPopulateAreaData_returns (rows : list (list JS.value))
  (block : Excel.Grid) (w : World) :
  areaRows [ ("calculation", fetchedLocations w "calculation");
             ("mobile", fetchedLocations w "mobile") ] = Return rows ->
  Excel.toCells rows = Some block ->
  Excel.findSheet AREA_DATA_SHEET_NAME
    (Excel.removeSheet AREA_DATA_SHEET_NAME (worksheets w)) = None ->
  fst (loadAndPopulateAreaData w) = Return tt.
Proof.
  intros Hrows Hblock Hone.
  unfold loadAndPopulateAreaData, tryCatch, throw.
  unfold bind at 1. unfold emit. unfold bind.
  rewrite fetchAllAreaData_run, !fetchedLocations_addEvent.
  match goal with
  | |- context [writeAreaDataToSheet ?m ?w1] =>
      pose proof (writeAreaDataToSheet_returns m rows block w1 Hrows Hblock
                    Hone) as H;
      destruct (writeAreaDataToSheet m w1) as [[e|[]] w2];
      cbn [fst] in *; [discriminate H|reflexivity]
  end.
Qed.

Lemma fetchedLocations_rejected (w : World) (config message : string) :
  getArea w config = Rejected message -> fetchedLocations w config = [].
Proof.
  intros H. unfold fetchedLocations, fetchAreaFor, bind, emit, ask.
  cbn [getArea jsonParse addEvent fst snd]. now rewrite H.
Qed.

Lemma getAlpha3CodesForApi_sheets (name : string) (w1 w2 : World) :
  worksheets w1 = worksheets w2 ->
  fst (getAlpha3CodesForApi name w1) = fst (getAlpha3CodesForApi name w2).
Proof.
  intros E. unfold getAlpha3CodesForApi, areaSheetValues, bind, emit, ask,
    ret, throw.
  cbn [worksheets addEvent]. rewrite E.
  destruct (Excel.findSheet AREA_DATA_SHEET_NAME (worksheets w2));
    reflexivity.
Qed.

Lemma valid_name_is_normal (apiName : string) :
  In apiName VALID_API_NAMES -> validateApiName apiName = Return apiName.
Proof.
  intros H. cbn [In VALID_API_NAMES] in H.
  repeat (destruct H as [<-|H]; [reflexivity|]). contradiction.
Qed.

(** The run of the preparation on a fresh sheet, signed in. *)
Lemma prepareAreaData_fresh_run (apiName name : string) (w : World)
  (ts : Z) :
  clientInstance w = true ->
  validateApiName apiName = Return name ->
  carriesTimestamp w AREA_DATA_SHEET_NAME ts ->
  (now w - ts <= REFRESH_INTERVAL_MS)%Z ->
  prepareAreaData apiName w
  = (Return name,
     addEvent SheetsListed
       (addEvent (SheetRead AREA_DATA_SHEET_NAME)
          (addEvent SheetsListed w))).
Proof.
  intros Hc Hn Hts Hage. unfold prepareAreaData.
  unfold bind at 1. unfold Client.ensureClient at 1.
  unfold bind at 1. unfold ask at 1. rewrite Hc. unfold ret at 1.
  unfold bind at 1. unfold lift. rewrite Hn.
  unfold bind at 1.
  rewrite (refreshSheetIfStale_fresh _ _ w ts Hts Hage).
  unfold ensureAreaDataSheet, areaDataSheetExists, bind, emit, ask, ret.
  compute_run. destruct Hts as [sheet [Hf _]]. rewrite Hf. reflexivity.
Qed.

(** X29.  An outage is cached.  When the service rejects both area
    requests, the population still returns: it writes a sheet with the
    header row only and the time of the population.  For the next
    [REFRESH_INTERVAL_MS] the sheet counts as fresh, so a country lookup
    of a signed-in user finds no code on it, fails with "No countries
    found", and enters no population that could ask the service again. *)
Theorem failed_fetch_is_cached (apiName address : string) (w : World)
  (later : Z) :
  (forall config, exists message, getArea w config = Rejected message) ->
  Excel.findSheet AREA_DATA_SHEET_NAME
    (Excel.removeSheet AREA_DATA_SHEET_NAME (worksheets w)) = None ->
  In apiName VALID_API_NAMES ->
  clientInstance w = true ->
  (later - now w <= REFRESH_INTERVAL_MS)%Z ->
  let w' := atTime later (snd (loadAndPopulateAreaData w)) in
  fst (loadAndPopulateAreaData w) = Return tt
  /\ fst (isSheetDataStale AREA_DATA_SHEET_NAME w') = Return false
  /\ fst (getAlpha3CodesForApi apiName w') = Return []
  /\ fst (handleCountryFunction apiName address w')
     = Throw (CustomFunctionsError notAvailable
                ("Failed to set up country validation: "
                 ++ "No countries found for API: " ++ apiName))
  /\ populations (snd (handleCountryFunction apiName address w'))
     = populations w'.
Proof.
  intros Hrej Hone Hin Hclient Hage. cbv zeta.
  destruct (Hrej "calculation") as [m1 H1].
  destruct (Hrej "mobile") as [m2 H2].
  pose proof (fetchedLocations_rejected w _ _ H1) as F1.
  pose proof (fetchedLocations_rejected w _ _ H2) as F2.
  assert (Hret : fst (loadAndPopulateAreaData w) = Return tt).
  { apply (loadAndPopulateAreaData_returns [areaHeader]
             [Examples.areaHeaderRow] w);
      [rewrite F1, F2; reflexivity|reflexivity|exact Hone]. }
  pose proof (loadAndPopulateAreaData_stamps w Hret) as Hstamp.
  set (w1 := snd (loadAndPopulateAreaData w)) in *.
  assert (Hstamp' : carriesTimestamp (atTime later w1) AREA_DATA_SHEET_NAME
                      (now w))
    by (destruct Hstamp as [sheet H]; exists sheet; exact H).
  assert (Hcodes : fst (getAlpha3CodesForApi apiName (atTime later w1))
                   = Return []).
  { rewrite (getAlpha3CodesForApi_sheets apiName (atTime later w1) w1)
      by reflexivity.
    destruct (population_lookup_values apiName w Hret Hin)
      as [values [Hv [Hc _]]].
    fold w1 in Hv.
    unfold getAlpha3CodesForApi, bind. rewrite Hv. unfold ret. cbn [fst].
    rewrite Hc, F1, F2. unfold locationsFor.
    now destruct (mapApiNameForAreaData apiName =? "calculation"). }
  split; [exact Hret|].
  split; [now rewrite (fresh_not_stale _ _ (now w) Hstamp' Hage)|].
  split; [exact Hcodes|].
  assert (Hci : clientInstance (atTime later w1) = true).
  { cbn [clientInstance atTime]. subst w1.
    transitivity (clientInstance w); [|exact Hclient].
    assert (Hp : preserves clientInstance loadAndPopulateAreaData).
    { unfold loadAndPopulateAreaData, fetchAllAreaData, fetchAreaFor,
        writeAreaDataToSheet, addHiddenSheet, setSheetMetadata.
      frame. }
    apply Hp. }
  pose proof (prepareAreaData_fresh_run apiName apiName (atTime later w1)
                (now w) Hci (valid_name_is_normal apiName Hin) Hstamp' Hage)
    as Hprep.
  split.
  - unfold handleCountryFunction, tryCatch. unfold bind at 1.
    rewrite Hprep. unfold bind at 1.
    match goal with
    | |- context [getAlpha3CodesForApi apiName ?w2] =>
        pose proof (getAlpha3CodesForApi_sheets apiName w2 (atTime later w1)
                      eq_refl) as Hsame;
        rewrite Hcodes in Hsame;
        destruct (getAlpha3CodesForApi apiName w2) as [r w3];
        cbn [fst] in Hsame; subst r
    end.
    cbn [List.length Nat.eqb]. unfold throw. cbn [fst].
    unfold handleCustomFunctionError, orUnknown. reflexivity.
  - exact (proj1 (proj1 (fresh_lookups_observed populations
                           populations_addEvent ltac:(reflexivity)
                           ltac:(reflexivity) apiName address JS.VUndefined
                           (atTime later w1))
                    (now w) Hstamp' Hage)).
Qed.

Lemma failed_fetch_is_cached_witness :
  let w := Examples.withRemote Examples.noTypes (fun _ => Rejected "503")
             [] 1700000000000 in
  fst (handleCountryFunction "mobile" "Sheet1!A1"
         (atTime (1700000000000 + 172800000)
            (snd (loadAndPopulateAreaData w))))
  = Throw (CustomFunctionsError notAvailable
             ("Failed to set up country validation: "
              ++ "No countries found for API: " ++ "mobile")).
Proof.
  intros w.
  apply (failed_fetch_is_cached "mobile" "Sheet1!A1" w
           (1700000000000 + 172800000)).
  - intros config. exists "503". reflexivity.
  - reflexivity.
  - simpl. auto.
  - reflexivity.
  - vm_compute. discriminate.
Defined.

End Outage.

(** *** The first lookup on a workbook *)

Section FirstLookup.
Import MetadataUtils AreaLoader AreaHandler.

Lemma removeSheet_absent (n : string) (ws : list Excel.Worksheet) :
  Excel.findSheet n ws = None -> Excel.removeSheet n ws = ws.
Proof.
  unfold Excel.findSheet.
  induction ws as [|s r IH]; cbn [find Excel.removeSheet]; [reflexivity|].
  destruct (Excel.name s =? n); [discriminate|].
  intros H. now rewrite (IH H).
Qed.

(** The run of the preparation when the sheet is absent and the
    population returns. *)
Lemma prepareAreaData_absent_run (apiName name : string) (w : World) :
  clientInstance w = true ->
  validateApiName apiName = Return name ->
  Excel.findSheet AREA_DATA_SHEET_NAME (worksheets w) = None ->
  fst (loadAndPopulateAreaData
         (addEvent SheetsListed (addEvent SheetsListed w))) = Return tt ->
  prepareAreaData apiName w
  = (Return name,
     snd (loadAndPopulateAreaData
            (addEvent SheetsListed (addEvent SheetsListed w)))).
Proof.
  intros Hc Hn Hf Hret. unfold prepareAreaData.
  unfold bind at 1. unfold Client.ensureClient at 1.
  unfold bind at 1. unfold ask at 1. rewrite Hc. unfold ret at 1.
  unfold bind at 1. unfold lift. rewrite Hn.
  unfold bind at 1.
  unfold refreshSheetIfStale. unfold bind at 1.
  rewrite sheetExists_run, Hf. cbn [negb]. unfold ret at 1.
  unfold ensureAreaDataSheet, areaDataSheetExists, bind, emit, ask, ret.
  cbv beta iota zeta. cbn [worksheets addEvent]. rewrite Hf.
  cbv beta iota zeta. cbn [negb].
  destruct (loadAndPopulateAreaData
              (addEvent SheetsListed (addEvent SheetsListed w)))
    as [[e|[]] w1]; cbn [fst snd] in *; [discriminate|reflexivity].
Qed.

Lemma attach_run (address : string) (values : list JS.value)
  (title message : string) (targetCell : Range) (w : World) :
  fst (getTargetCell address w) = Return targetCell ->
  Excel.findSheet (rangeSheet targetCell) (worksheets w) <> None ->
  exists w',
    (t <- getTargetCell address ;;
     applyListValidation t values title message ;;
     ret "") w = (Return "", w')
    /\ populations w' = populations w.
Proof.
  intros Ht Hs.
  destruct (getTargetCell_run address w) as [t [Hrun _]].
  rewrite Hrun in Ht. cbn [fst] in Ht. injection Ht as ->.
  unfold bind. rewrite Hrun.
  unfold applyListValidation, bind, ask, modify, throw, ret.
  destruct (Excel.findSheet (rangeSheet targetCell) (worksheets w));
    [|contradiction].
  eexists. split; reflexivity.
Qed.

(** X30.  The first country lookup on a workbook without the area
    sheet, by a signed-in user, for a valid API and an address on an
    existing sheet: when the answer of the service can be stored and has
    a code for the group of the API, the lookup returns, has entered
    exactly one population, and the rule of the target cell lists the
    codes the service gave for the group, in order, joined with commas. *)
Theorem first_country_lookup (apiName address name : string) (w : World)
  (rows : list (list JS.value)) (block : Excel.Grid) (targetCell : Range) :
  clientInstance w = true ->
  validateApiName apiName = Return name ->
  Excel.findSheet AREA_DATA_SHEET_NAME (worksheets w) = None ->
  areaRows [ ("calculation", fetchedLocations w "calculation");
             ("mobile", fetchedLocations w "mobile") ] = Return rows ->
  Excel.toCells rows = Some block ->
  codesOf (locationsFor name (fetchedLocations w "calculation")
             (fetchedLocations w "mobile")) <> [] ->
  fst (getTargetCell address w) = Return targetCell ->
  rangeSheet targetCell <> AREA_DATA_SHEET_NAME ->
  Excel.findSheet (rangeSheet targetCell) (worksheets w) <> None ->
  fst (handleCountryFunction apiName address w) = Return ""
  /\ populations (snd (handleCountryFunction apiName address w))
     = populations w + 1
  /\ rulesAt (rangeSheet targetCell) (rangeRef targetCell)
       (snd (handleCountryFunction apiName address w))
     = [ (rangeSheet targetCell, rangeRef targetCell,
          Excel.mkValidation
            (JS.join ","
               (codesOf (locationsFor name (fetchedLocations w "calculation")
                           (fetchedLocations w "mobile"))))
            true "Invalid Country"
            "Please select a valid country code from the dropdown list") ].
Proof.
  intros Hc Hn Hf Hrows Hblock Hcodes Ht Hother Hsheet.
  set (w2 := addEvent SheetsListed (addEvent SheetsListed w)).
  assert (Hret : fst (loadAndPopulateAreaData w2) = Return tt).
  { apply (loadAndPopulateAreaData_returns rows block w2).
    - subst w2. now rewrite !fetchedLocations_addEvent.
    - exact Hblock.
    - subst w2. cbn [worksheets addEvent].
      now rewrite (removeSheet_absent _ _ Hf). }
  pose proof (prepareAreaData_absent_run apiName name w Hc Hn Hf Hret)
    as Hprep.
  fold w2 in Hprep.
  set (w3 := snd (loadAndPopulateAreaData w2)) in *.
  destruct (population_lookup_values name w2 Hret
              (validateApiName_valid _ _ Hn)) as [values [Hv [Hcs _]]].
  fold w3 in Hv.
  subst w2. rewrite !fetchedLocations_addEvent in Hcs.
  set (w2 := addEvent SheetsListed (addEvent SheetsListed w)) in *.
  set (codes := codesOf (locationsFor name (fetchedLocations w "calculation")
                           (fetchedLocations w "mobile"))) in *.
  assert (Hread : getAlpha3CodesForApi name w3
                  = (Return codes,
                     addEvent (SheetRead AREA_DATA_SHEET_NAME) w3)).
  { unfold getAlpha3CodesForApi, bind. rewrite Hv. unfold ret.
    now rewrite Hcs. }
  set (w4 := addEvent (SheetRead AREA_DATA_SHEET_NAME) w3) in *.
  assert (Hact : activeSheet w4 = activeSheet w)
    by (subst w4 w3; cbn [activeSheet addEvent];
        now rewrite (loadAndPopulateAreaData_active w2)).
  assert (Ht4 : fst (getTargetCell address w4) = Return targetCell).
  { destruct (getTargetCell_run address w) as [t [Hrun Hsame]].
    rewrite Hrun in Ht. cbn [fst] in Ht. injection Ht as ->.
    now rewrite (Hsame w4 Hact). }
  assert (Hs4 : Excel.findSheet (rangeSheet targetCell) (worksheets w4)
                <> None).
  { subst w4 w3. cbn [worksheets addEvent].
    rewrite (loadAndPopulateAreaData_outside w2 _ Hother). exact Hsheet. }
  destruct (attach_run address (map JS.VStr codes) "Invalid Country"
              "Please select a valid country code from the dropdown list"
              targetCell w4 Ht4 Hs4) as [w5 [Hattach Hpops]].
  assert (Hrun : handleCountryFunction apiName address w = (Return "", w5)).
  { unfold handleCountryFunction, tryCatch. unfold bind at 1.
    rewrite Hprep. unfold bind at 1. rewrite Hread.
    destruct codes as [|c cs] eqn:Ec; [contradiction|].
    cbn [List.length Nat.eqb]. rewrite Hattach. reflexivity. }
  rewrite Hrun. cbn [fst snd]. split; [reflexivity|]. split.
  - rewrite Hpops. subst w4 w3.
    rewrite populations_addEvent by reflexivity.
    rewrite loadAndPopulateAreaData_counts. subst w2.
    now rewrite !populations_addEvent by reflexivity.
  - destruct (attach_content _ _ _ _ _ _ _ Hattach) as [t [Ht' [Hrule _]]].
    specialize (Ht' w4 eq_refl). rewrite Ht4 in Ht'. injection Ht' as <-.
    now rewrite joinValues_strings in Hrule.
Qed.

Lemma first_country_lookup_witness :
  let w := Examples.withRemote Examples.noTypes Examples.mobileRejected
             [] 1700000000000 in
  fst (handleCountryFunction " Location " "Sheet1!A1" w) = Return ""
  /\ populations (snd (handleCountryFunction " Location " "Sheet1!A1" w))
     = populations w + 1
  /\ rulesAt "Sheet1" "A1"
       (snd (handleCountryFunction " Location " "Sheet1!A1" w))
     = [ ("Sheet1", "A1",
          Excel.mkValidation
            (JS.join ","
               (codesOf (locationsFor "location"
                           (fetchedLocations w "calculation")
                           (fetchedLocations w "mobile"))))
            true "Invalid Country"
            "Please select a valid country code from the dropdown list") ].
Proof.
  intros w.
  refine (first_country_lookup " Location " "Sheet1!A1" "location" w
            _ _ (mkRange "Sheet1" "A1") _ _ _ _ _ _ _ _ _).
  - reflexivity.
  - reflexivity.
  - reflexivity.
  - vm_compute. reflexivity.
  - vm_compute. reflexivity.
  - vm_compute. discriminate.
  - reflexivity.
  - vm_compute. discriminate.
  - vm_compute. discriminate.
Defined.

End FirstLookup.

(** *** A types lookup with nothing to offer *)

Section EmptyTypesColumn.
Import MetadataUtils ApiTypesLoader TypesHandler.

(** C9.  The types lookup does not test the length of its option list.
    When it reaches a column whose used range has more than one row and
    reads no value from it, it returns the empty string and leaves on
    the target cell a rule whose source is empty: no NotAvailable error,
    and a rule attached.  On the sheet the population itself writes when
    the service gives no type for Location, the column of Location holds
    the header alone; the lookup returns and the rule it attaches offers
    the header, ["Location"], as the only type. *)
Theorem types_lookup_accepts_empty_list :
  (forall apiName address w name w1 columnIndex sheet targetCell,
     prepareTypesData apiName w = (Return name, w1) ->
     lookup name API_COLUMN_MAP = Some columnIndex ->
     Excel.findSheet API_TYPES_SHEET_NAME (worksheets w1) = Some sheet ->
     columnOptions name columnIndex (Excel.cells sheet) = Return [] ->
     fst (getTargetCell address w) = Return targetCell ->
     Excel.findSheet (rangeSheet targetCell) (worksheets w1) <> None ->
     exists w',
       handleTypesFunction apiName address w = (Return "", w')
       /\ rulesAt (rangeSheet targetCell) (rangeRef targetCell) w'
          = [ (rangeSheet targetCell, rangeRef targetCell,
               Excel.mkValidation "" true "Invalid Type"
                 "Please select a valid type from the dropdown list") ])
  /\ (let r := handleTypesFunction "Location" "Sheet1!A1"
                 (Examples.withRemote Examples.locationRejected
                    Examples.noArea [] 1700000000000) in
      fst r = Return ""
      /\ option_map (fun sheet => Excel.column (Excel.cells sheet) 0)
           (Excel.findSheet API_TYPES_SHEET_NAME (worksheets (snd r)))
         = Some [ Excel.CStr "METADATA"; Excel.CStr "Location";
                  Excel.CStr ""; Excel.CStr "" ]
      /\ rulesAt "Sheet1" "A1" (snd r)
         = [ ("Sheet1", "A1",
              Excel.mkValidation "Location" true "Invalid Type"
                "Please select a valid type from the dropdown list") ]).
Proof.
  split.
  - intros apiName address w name w1 columnIndex sheet targetCell
      Hprepare Hcol Hsheet Hopts Ht Hs.
    set (w0 := addEvent (SheetRead API_TYPES_SHEET_NAME) w1).
    assert (Hactive : activeSheet w0 = activeSheet w).
    { pose proof (prepareTypesData_active apiName w) as E.
      rewrite Hprepare in E. exact E. }
    destruct (getTargetCell_run address w) as [t [Hrun Hsame]].
    rewrite Hrun in Ht. cbn [fst] in Ht. injection Ht as ->.
    assert (Ht0 : fst (getTargetCell address w0) = Return targetCell)
      by now rewrite (Hsame w0 Hactive).
    destruct (attach_run address [] "Invalid Type"
                "Please select a valid type from the dropdown list"
                targetCell w0 Ht0 Hs) as [w' [Hattach _]].
    exists w'. split.
    + unfold handleTypesFunction, tryCatch. unfold bind at 1.
      rewrite Hprepare. unfold bind at 1.
      unfold applyDataValidation. rewrite Hcol.
      unfold bind at 1. unfold emit. unfold bind at 1. unfold ask.
      cbn [worksheets addEvent]. rewrite Hsheet.
      unfold bind at 1. unfold lift. rewrite Hopts. fold w0.
      unfold bind in Hattach |- *.
      destruct (getTargetCell address w0) as [[e|t] w2]; [discriminate|].
      destruct (applyListValidation t [] _ _ w2) as [[e|u] w3];
        [discriminate|].
      unfold ret in Hattach |- *. exact Hattach.
    + destruct (attach_content _ _ _ _ _ _ _ Hattach)
        as [t [Ht' [Hrule _]]].
      specialize (Ht' w0 eq_refl). rewrite Ht0 in Ht'.
      injection Ht' as <-. exact Hrule.
  - vm_compute. repeat split.
Qed.

Lemma types_lookup_accepts_empty_list_witness :
  let w := Examples.workbook [Examples.clearedHeaderSheet] 1700000000000 in
  columnOptions "fugitive" 2 (Excel.cells Examples.clearedHeaderSheet)
  = Return []
  /\ exists w',
       handleTypesFunction "Fugitive" "Sheet1!C3" w = (Return "", w')
       /\ rulesAt "Sheet1" "C3" w'
          = [ ("Sheet1", "C3",
               Excel.mkValidation "" true "Invalid Type"
                 "Please select a valid type from the dropdown list") ].
Proof.
  intros w. split; [reflexivity|].
  apply (proj1 types_lookup_accepts_empty_list "Fugitive" "Sheet1!C3" w
           "fugitive" (snd (prepareTypesData "Fugitive" w)) 2
           Examples.clearedHeaderSheet (mkRange "Sheet1" "C3"));
    try (vm_compute; reflexivity).
  vm_compute. discriminate.
Defined.

End EmptyTypesColumn.
